(** * Expense-Management: approval workflow and receipt parsing

  A shallow embedding of the server code of the Expense-Management
  application:

  - [routes/approvals.js]: the [approve], [reject] and [escalate] handlers;
  - [routes/expenses.js]:  the [submit], [update] and [delete] handlers;
  - [routes/users.js]: the handler that deactivates a user;
  - [middleware/auth.js]: [authenticateToken] and [authorize];
  - [models/Approval.js], [models/Expense.js], [models/Company.js]: the
    fields these handlers read and write, and the schema validators they
    can trigger;
  - [routes/ocr.js]: [parseReceiptText], with the regular expressions it
    uses run by a small backtracking matcher;
  - [routes/reports.js]: [convertToCSV].

  The document store is a record of collections kept in natural
  (insertion) order; a handler is a computation in a state monad over the
  store that can answer early ([return res.status(..).json(..)]) or throw
  into the route's [catch].  JavaScript numbers that are only compared
  (amounts against the auto-approval limit) are rationals; numbers that
  are computed with (the OCR amount and confidence) are binary64 floats. *)

From Stdlib Require Import ZArith NArith QArith List String Ascii Bool Lia.
From Stdlib Require Import PrimFloat SpecFloat FloatOps.
Import ListNotations.

Set Implicit Arguments.
#[local] Set Warnings "-inexact-float,-comment-terminator-in-string".

(* ===================================================================== *)
(** * 1. The document store *)
(* ===================================================================== *)

(** An [ObjectId]; the handlers only ever compare ids for equality
  ([a.toString() !== b.toString()]). *)
Definition ObjectId := N.

(** A [Date] value, in milliseconds since the epoch. *)
Definition Date := Z.

(** [models/Approval.js]: the paths the approval routes read or write. *)
Module Approval.
Record t := make {
  _id : ObjectId;
  expense : ObjectId;
  approver : ObjectId;
  role : string;
  status : string;
  comments : option string;
  actionDate : option Date;
  priority : Z;
  escalationReason : option string;
  escalatedTo : option ObjectId;
  escalationDate : option Date;
  isUrgent : bool
}.

(** [role: { enum: ['manager', 'finance', 'director'], required: true }] *)
Definition roleEnum : list string := ["manager"; "finance"; "director"]%string.

(** [status: { enum: ['pending', 'approved', 'rejected', 'escalated'] }] *)
Definition statusEnum : list string :=
  ["pending"; "approved"; "rejected"; "escalated"]%string.
End Approval.

(** [models/Expense.js]: the paths the workflow reads or writes. *)
Module Expense.
Record t := make {
  _id : ObjectId;
  employee : ObjectId;
  company : ObjectId;
  amount : Q;
  status : string;
  currentApprover : option ObjectId;
  rejectionReason : option string;
  approvedBy : option ObjectId;
  approvedAt : option Date
}.
End Expense.

(** Modelled from the spec: the User schema ([models/User.js] is not among
  the sources).  A user has a role (one of admin, manager, employee,
  finance), an owning company, an optional manager and an active flag. *)
Module User.
Record t := make {
  _id : ObjectId;
  role : string;
  company : ObjectId;
  manager : option ObjectId;
  isActive : bool
}.
End User.

(** [models/Company.js]: [settings.autoApprovalLimit] is a Number; [None]
  stands for a value that is missing ([undefined], [null]) or [NaN]. *)
Module Company.
Record t := make {
  _id : ObjectId;
  autoApprovalLimit : option Q
}.
End Company.

Record DB := mkDB {
  approvals : list Approval.t;
  expenses : list Expense.t;
  users : list User.t;
  companies : list Company.t
}.

(** ** Collection primitives *)

Section Collection.
Variable T : Type.
Variable key : T -> ObjectId.

(** [Model.findById(id)]: the first document with that [_id]. *)
Definition findById (l : list T) (id : ObjectId) : option T :=
  find (fun d => N.eqb (key d) id) l.

(** [doc.save()] on a document that was loaded from the collection: the
    stored document with the same [_id] is replaced. *)
Definition replaceDoc (d : T) (l : list T) : list T :=
  map (fun x => if N.eqb (key x) (key d) then d else x) l.

(** The [_id] a driver gives a new document: one no stored document has. *)
Definition freshId (l : list T) : ObjectId :=
  N.succ (fold_right (fun d m => N.max (key d) m) 0%N l).
End Collection.

(* ===================================================================== *)
(** * 2. The handler monad *)
(* ===================================================================== *)

(** What a route answers. *)
Inductive Response :=
| ok (message : string)                 (* res.json({ message, ... }) *)
| refused (http : nat) (code : string)  (* res.status(http).json({ message, code }) *)
| failed (message : string).            (* catch: res.status(500).json({ message, error }) *)

(** A step of a handler: it yields a value, has already answered
  ([return res...]), or has thrown. *)
Inductive Outcome (A : Type) :=
| Val (a : A)
| Done (r : Response)
| Throw.
Arguments Done {A} r.
Arguments Throw {A}.

Definition M (A : Type) := DB -> DB * Outcome A.

Definition ret {A} (a : A) : M A := fun db => (db, Val a).

Definition bind {A B} (m : M A) (k : A -> M B) : M B :=
  fun db =>
    match m db with
    | (db', Val a) => k a db'
    | (db', Done r) => (db', Done r)
    | (db', Throw) => (db', Throw)
    end.

Definition respond {A} (r : Response) : M A := fun db => (db, Done r).
Definition throw {A} : M A := fun db => (db, Throw).
Definition gets {A} (f : DB -> A) : M A := fun db => (db, Val (f db)).
Definition modify (f : DB -> DB) : M unit := fun db => (f db, Val tt).

Declare Scope handler_scope.
Delimit Scope handler_scope with handler.
Notation "x <- m ;; k" := (bind m (fun x => k))
  (at level 61, m at next level, right associativity) : handler_scope.
Notation "m ;; k" := (bind m (fun _ => k))
  (at level 61, right associativity) : handler_scope.

(** [try { handler } catch (error) { res.status(500).json({ message }) }] *)
Definition route (message : string) (handler : M Response) (db : DB)
  : DB * Response :=
  match handler db with
  | (db', Val r) => (db', r)
  | (db', Done r) => (db', r)
  | (db', Throw) => (db', failed message)
  end.

(* ===================================================================== *)
(** * 3. Model operations *)
(* ===================================================================== *)

(** [list.includes(s)] on strings. *)
Definition mem_string (s : string) (l : list string) : bool :=
  existsb (String.eqb s) l.

Module ApprovalModel.
Import Approval.

Definition findById (id : ObjectId) : M (option t) :=
  gets (fun db => findById _id (approvals db) id).

(** [approval.save()] for a loaded document.  The paths the handlers
    modify take values that pass their validators (a status of the enum,
    strings the request validation has bounded), so the write goes
    through. *)
Definition save (a : t) : M unit :=
  modify (fun db => mkDB (replaceDoc _id a (approvals db))
                         (expenses db) (users db) (companies db)).

(** [new Approval({ expense, approver, role, status, priority })]: the
    schema defaults fill the other paths; the document gets a new [_id]. *)
Definition new (db : DB) (expense approver : ObjectId) (role : string)
    (status : option string) (priority : option Z) : t :=
  make (freshId _id (approvals db)) expense approver role
       (match status with Some s => s | None => "pending"%string end)
       None None
       (match priority with Some p => p | None => 1%Z end)
       None None None false.

(** The validators [save()] runs on a new document: [role] and [status]
    must belong to their enumerations. *)
Definition validate (a : t) : bool :=
  mem_string (role a) roleEnum && mem_string (status a) statusEnum.

(** [await new Approval({...}).save()]: a validation error is thrown before
    anything is written. *)
Definition create (expense approver : ObjectId) (role : string)
    (status : option string) (priority : option Z) : M t :=
  fun db =>
    let a := new db expense approver role status priority in
    if validate a
    then (mkDB (approvals db ++ [a]) (expenses db) (users db) (companies db),
          Val a)
    else (db, Throw).

(** [Approval.find({ expense, status })] *)
Definition find (expense : ObjectId) (status : string) : M (list t) :=
  gets (fun db =>
    filter (fun a => N.eqb (Approval.expense a) expense
                     && String.eqb (Approval.status a) status)
           (approvals db)).

(** [.sort({ priority: 1 })] followed by taking the first document: a
    document of least priority, the earliest stored one among equals. *)
Definition leastPriority (l : list t) : option t :=
  fold_left (fun acc a =>
               match acc with
               | None => Some a
               | Some m => if (priority a <? priority m)%Z then Some a else Some m
               end) l None.

(** [Approval.findOne({ expense, status, priority: { $gt: p } })
      .sort({ priority: 1 })] *)
Definition findOneAbove (expense : ObjectId) (status : string) (p : Z)
  : M (option t) :=
  gets (fun db =>
    leastPriority
      (filter (fun a => N.eqb (Approval.expense a) expense
                        && String.eqb (Approval.status a) status
                        && (p <? priority a)%Z)
              (approvals db))).

(** Assignments to the paths of a loaded document. *)
Definition setStatus (s : string) (a : t) : t :=
  make (_id a) (expense a) (approver a) (role a) s (comments a)
       (actionDate a) (priority a) (escalationReason a) (escalatedTo a)
       (escalationDate a) (isUrgent a).
Definition setComments (c : option string) (a : t) : t :=
  make (_id a) (expense a) (approver a) (role a) (status a) c
       (actionDate a) (priority a) (escalationReason a) (escalatedTo a)
       (escalationDate a) (isUrgent a).
Definition setActionDate (d : Date) (a : t) : t :=
  make (_id a) (expense a) (approver a) (role a) (status a) (comments a)
       (Some d) (priority a) (escalationReason a) (escalatedTo a)
       (escalationDate a) (isUrgent a).
Definition setIsUrgent (b : bool) (a : t) : t :=
  make (_id a) (expense a) (approver a) (role a) (status a) (comments a)
       (actionDate a) (priority a) (escalationReason a) (escalatedTo a)
       (escalationDate a) b.
Definition setEscalation (reason : string) (to : ObjectId) (d : Date) (a : t) : t :=
  make (_id a) (expense a) (approver a) (role a) (status a) (comments a)
       (actionDate a) (priority a) (Some reason) (Some to) (Some d)
       (isUrgent a).
End ApprovalModel.

Module ExpenseModel.
Import Expense.

Definition findById (id : ObjectId) : M (option t) :=
  gets (fun db => findById _id (expenses db) id).

(** [expense.save()] for a loaded document; as for approvals, the values
    the handlers assign pass the schema's validators. *)
Definition save (e : t) : M unit :=
  modify (fun db => mkDB (approvals db) (replaceDoc _id e (expenses db))
                         (users db) (companies db)).

Definition setStatus (s : string) (e : t) : t :=
  make (_id e) (employee e) (company e) (amount e) s (currentApprover e)
       (rejectionReason e) (approvedBy e) (approvedAt e).
Definition setCurrentApprover (u : ObjectId) (e : t) : t :=
  make (_id e) (employee e) (company e) (amount e) (status e) (Some u)
       (rejectionReason e) (approvedBy e) (approvedAt e).
Definition setRejectionReason (r : string) (e : t) : t :=
  make (_id e) (employee e) (company e) (amount e) (status e)
       (currentApprover e) (Some r) (approvedBy e) (approvedAt e).
Definition setApproved (by_ : ObjectId) (at_ : Date) (e : t) : t :=
  make (_id e) (employee e) (company e) (amount e) (status e)
       (currentApprover e) (rejectionReason e) (Some by_) (Some at_).
End ExpenseModel.

Module UserModel.
Import User.

Definition findById (id : ObjectId) : M (option t) :=
  gets (fun db => findById _id (users db) id).

(** [User.find({ company, role, isActive: true })] *)
Definition find (company : ObjectId) (role : string) : M (list t) :=
  gets (fun db =>
    filter (fun u => N.eqb (User.company u) company
                     && String.eqb (User.role u) role
                     && isActive u)
           (users db)).
End UserModel.

Module CompanyModel.
Definition findById (id : ObjectId) : M (option Company.t) :=
  gets (fun db => findById Company._id (companies db) id).
End CompanyModel.

(* ===================================================================== *)
(** * 4. routes/approvals.js *)
(* ===================================================================== *)

(** Request bodies, as the [validate] middleware of each route hands them to the
    handlers: optional fields may be absent, strings are trimmed and non
    empty. *)
Record ApproveBody := mkApproveBody {
  approve_comments : option string;
  approve_isUrgent : option bool
}.

Record RejectBody := mkRejectBody {
  reject_comments : string;
  reject_rejectionReason : option string
}.

Record EscalateBody := mkEscalateBody {
  escalate_comments : option string;
  escalate_escalationReason : string;
  escalate_escalatedTo : ObjectId
}.

(** [x || y] on an optional string: [undefined] and [''] are falsy. *)
Definition orString (x : option string) (y : string) : string :=
  match x with
  | Some s => if String.eqb s "" then y else s
  | None => y
  end.

(** [x || false] on an optional boolean. *)
Definition orFalse (x : option bool) : bool :=
  match x with Some b => b | None => false end.

Module ApprovalsRoute.
Import Approval.
Local Open Scope handler_scope.
Local Open Scope string_scope.

(** [router.post('/:id/approve', ...)] *)
Definition approveHandler (user : User.t) (id : ObjectId) (body : ApproveBody)
    (now : Date) : M Response :=
  found <- ApprovalModel.findById id ;;
  match found with
  | None => respond (refused 404 "APPROVAL_NOT_FOUND")
  | Some approval =>
    (* Check if user can approve this *)
    if negb (N.eqb (approver approval) (User._id user))
    then respond (refused 403 "ACCESS_DENIED")
    (* Check if approval is still pending *)
    else if negb (String.eqb (status approval) "pending")
    then respond (refused 400 "APPROVAL_NOT_PENDING")
    else
      (* Update approval *)
      let approval :=
        ApprovalModel.setIsUrgent (orFalse (approve_isUrgent body))
          (ApprovalModel.setActionDate now
            (ApprovalModel.setComments (approve_comments body)
              (ApprovalModel.setStatus "approved" approval))) in
      ApprovalModel.save approval ;;
      (* Update expense status *)
      expense <- ExpenseModel.findById (Approval.expense approval) ;;
      match expense with
      | Some expense =>
        (* Check if this is the final approval *)
        remainingApprovals <-
          ApprovalModel.find (Expense._id expense) "pending" ;;
        (if (List.length remainingApprovals <=? 1)%nat
         then
           (* This is the final approval *)
           ExpenseModel.save
             (ExpenseModel.setApproved (User._id user) now
               (ExpenseModel.setStatus "approved" expense))
         else
           (* Move to next approver *)
           nextApproval <-
             ApprovalModel.findOneAbove (Expense._id expense) "pending"
               (priority approval) ;;
           match nextApproval with
           | Some nextApproval =>
             let expense :=
               ExpenseModel.setCurrentApprover (approver nextApproval) expense in
             let expense :=
               if String.eqb (role nextApproval) "finance"
               then ExpenseModel.setStatus "pending_finance" expense
               else if String.eqb (role nextApproval) "director"
               then ExpenseModel.setStatus "pending_director" expense
               else expense in
             ExpenseModel.save expense
           | None => ExpenseModel.save expense
           end) ;;
        ret (ok "Expense approved successfully")
      | None => ret (ok "Expense approved successfully")
      end
  end.

Definition approve (user : User.t) (id : ObjectId) (body : ApproveBody)
    (now : Date) : DB -> DB * Response :=
  route "Failed to approve expense" (approveHandler user id body now).

(** [router.post('/:id/reject', ...)] *)
Definition rejectHandler (user : User.t) (id : ObjectId) (body : RejectBody)
    (now : Date) : M Response :=
  found <- ApprovalModel.findById id ;;
  match found with
  | None => respond (refused 404 "APPROVAL_NOT_FOUND")
  | Some approval =>
    (* Check if user can reject this *)
    if negb (N.eqb (approver approval) (User._id user))
    then respond (refused 403 "ACCESS_DENIED")
    (* Check if approval is still pending *)
    else if negb (String.eqb (status approval) "pending")
    then respond (refused 400 "APPROVAL_NOT_PENDING")
    else
      (* Update approval *)
      let approval :=
        ApprovalModel.setActionDate now
          (ApprovalModel.setComments (Some (reject_comments body))
            (ApprovalModel.setStatus "rejected" approval)) in
      ApprovalModel.save approval ;;
      (* Update expense status *)
      expense <- ExpenseModel.findById (Approval.expense approval) ;;
      match expense with
      | Some expense =>
        ExpenseModel.save
          (ExpenseModel.setRejectionReason
             (orString (reject_rejectionReason body) (reject_comments body))
             (ExpenseModel.setStatus "rejected" expense)) ;;
        ret (ok "Expense rejected successfully")
      | None => ret (ok "Expense rejected successfully")
      end
  end.

Definition reject (user : User.t) (id : ObjectId) (body : RejectBody)
    (now : Date) : DB -> DB * Response :=
  route "Failed to reject expense" (rejectHandler user id body now).

(** The roles [escalate] accepts for the user escalated to. *)
Definition escalationRoles : list string := ["manager"; "finance"; "admin"].

(** [router.post('/:id/escalate', ...)] *)
Definition escalateHandler (user : User.t) (id : ObjectId) (body : EscalateBody)
    (now : Date) : M Response :=
  found <- ApprovalModel.findById id ;;
  match found with
  | None => respond (refused 404 "APPROVAL_NOT_FOUND")
  | Some approval =>
    (* Check if user can escalate this *)
    if negb (N.eqb (approver approval) (User._id user))
    then respond (refused 403 "ACCESS_DENIED")
    (* Check if approval is still pending *)
    else if negb (String.eqb (status approval) "pending")
    then respond (refused 400 "APPROVAL_NOT_PENDING")
    else
      (* Verify escalated user exists and has appropriate role *)
      escalatedUser <- UserModel.findById (escalate_escalatedTo body) ;;
      match escalatedUser with
      | None => respond (refused 400 "INVALID_ESCALATION_USER")
      | Some escalatedUser =>
        if negb (mem_string (User.role escalatedUser) escalationRoles)
        then respond (refused 400 "INVALID_ESCALATION_USER")
        else
          (* Update approval *)
          let approval :=
            ApprovalModel.setEscalation (escalate_escalationReason body)
              (escalate_escalatedTo body) now
              (ApprovalModel.setComments (escalate_comments body)
                (ApprovalModel.setStatus "escalated" approval)) in
          ApprovalModel.save approval ;;
          (* Create new approval for escalated user *)
          newApproval <-
            ApprovalModel.create (Approval.expense approval)
              (escalate_escalatedTo body) (User.role escalatedUser)
              (Some "pending") (Some (priority approval + 1)%Z) ;;
          (* Update expense *)
          expense <- ExpenseModel.findById (Approval.expense approval) ;;
          match expense with
          | Some expense =>
            let expense :=
              ExpenseModel.setCurrentApprover (escalate_escalatedTo body)
                expense in
            let expense :=
              if String.eqb (User.role escalatedUser) "finance"
              then ExpenseModel.setStatus "pending_finance" expense
              else if String.eqb (User.role escalatedUser) "manager"
              then ExpenseModel.setStatus "pending_manager" expense
              else expense in
            ExpenseModel.save expense ;;
            ret (ok "Expense escalated successfully")
          | None => ret (ok "Expense escalated successfully")
          end
      end
  end.

Definition escalate (user : User.t) (id : ObjectId) (body : EscalateBody)
    (now : Date) : DB -> DB * Response :=
  route "Failed to escalate expense" (escalateHandler user id body now).
End ApprovalsRoute.

(* ===================================================================== *)
(** * 5. routes/expenses.js *)
(* ===================================================================== *)

Module ExpensesRoute.
Import Expense.
Local Open Scope handler_scope.
Local Open Scope string_scope.

(** [company.settings.autoApprovalLimit || 100]: a missing limit, [NaN]
    and [0] are falsy. *)
Definition limitOrDefault (limit : option Q) : Q :=
  match limit with
  | Some l => if Qeq_bool l 0 then 100 else l
  | None => 100
  end.

(** [router.post('/:id/submit', ...)] *)
Definition submitHandler (user : User.t) (id : ObjectId) (now : Date)
  : M Response :=
  found <- ExpenseModel.findById id ;;
  match found with
  | None => respond (refused 404 "EXPENSE_NOT_FOUND")
  | Some expense =>
    (* Check if user can submit this expense *)
    if negb (String.eqb (User.role user) "admin")
       && negb (N.eqb (User._id user) (employee expense))
    then respond (refused 403 "ACCESS_DENIED")
    (* Check if expense can be submitted *)
    else if negb (String.eqb (status expense) "draft")
    then respond (refused 400 "INVALID_STATUS")
    else
      (* Get company settings *)
      company <- CompanyModel.findById (Expense.company expense) ;;
      match company with
      | None => throw   (* company.settings: TypeError on null *)
      | Some company =>
        let autoApprovalLimit :=
          limitOrDefault (Company.autoApprovalLimit company) in
        expense <-
          (* Check if auto-approval applies *)
          (if Qle_bool (amount expense) autoApprovalLimit
           then
             ret (ExpenseModel.setApproved (User._id user) now
                    (ExpenseModel.setStatus "approved" expense))
           else
             (* Set up approval workflow *)
             let expense := ExpenseModel.setStatus "pending_manager" expense in
             (* Find manager *)
             employee <- UserModel.findById (Expense.employee expense) ;;
             match employee with
             | None => throw   (* employee.manager: TypeError on null *)
             | Some employee =>
               match User.manager employee with
               | Some manager =>
                 let expense := ExpenseModel.setCurrentApprover manager expense in
                 (* Create approval record *)
                 ApprovalModel.create (_id expense) manager "manager"
                   (Some "pending") None ;;
                 ret expense
               | None =>
                 (* No manager, go to finance *)
                 let expense :=
                   ExpenseModel.setStatus "pending_finance" expense in
                 (* Find finance users *)
                 financeUsers <-
                   UserModel.find (Expense.company expense) "finance" ;;
                 match financeUsers with
                 | first :: _ =>
                   let expense :=
                     ExpenseModel.setCurrentApprover (User._id first) expense in
                   ApprovalModel.create (_id expense) (User._id first)
                     "finance" (Some "pending") None ;;
                   ret expense
                 | [] => ret expense
                 end
               end
             end) ;;
        ExpenseModel.save expense ;;
        ret (ok "Expense submitted successfully")
      end
  end.

Definition submit (user : User.t) (id : ObjectId) (now : Date)
  : DB -> DB * Response :=
  route "Failed to submit expense" (submitHandler user id now).
End ExpensesRoute.

(* ===================================================================== *)
(** * 6. routes/expenses.js: update and delete *)
(* ===================================================================== *)

Section Removal.
Variable T : Type.
Variable key : T -> ObjectId.

(** [Model.findByIdAndDelete(id)]: the first document with that [_id] is
    removed. *)
Fixpoint deleteDoc (id : ObjectId) (l : list T) : list T :=
  match l with
  | [] => []
  | x :: rest => if N.eqb (key x) id then rest else x :: deleteDoc id rest
  end.
End Removal.

(** The body [validate(expenseValidation.update)] hands to the update
    handler, unknown keys stripped: of the paths of the store it can hold
    [amount] only, a positive number; [status], [currentApprover] and the
    other paths of the workflow are no keys of it. *)
Record UpdateBody := mkUpdateBody {
  update_amount : option Q
}.

Module ExpensesEdit.
Import Expense.
Local Open Scope handler_scope.
Local Open Scope string_scope.

Definition setAmount (a : Q) (e : t) : t :=
  make (_id e) (employee e) (company e) a (status e) (currentApprover e)
       (rejectionReason e) (approvedBy e) (approvedAt e).

(** [Expense.findByIdAndUpdate(id, req.body, { new: true, runValidators: true })]:
    the keys of the body are set on the stored document; a positive
    [amount] passes the schema's [min: 0]. *)
Definition findByIdAndUpdate (id : ObjectId) (body : UpdateBody) : M unit :=
  modify (fun db =>
    match findById _id (expenses db) id, update_amount body with
    | Some e, Some a =>
      mkDB (approvals db) (replaceDoc _id (setAmount a e) (expenses db))
           (users db) (companies db)
    | _, _ => db
    end).

(** [Expense.findByIdAndDelete(id)] *)
Definition findByIdAndDelete (id : ObjectId) : M unit :=
  modify (fun db => mkDB (approvals db) (deleteDoc _id id (expenses db))
                         (users db) (companies db)).

(** [router.put('/:id', ...)] *)
Definition updateHandler (user : User.t) (id : ObjectId) (body : UpdateBody)
  : M Response :=
  found <- ExpenseModel.findById id ;;
  match found with
  | None => respond (refused 404 "EXPENSE_NOT_FOUND")
  | Some expense =>
    (* Check if user can update this expense *)
    if negb (String.eqb (User.role user) "admin")
       && negb (N.eqb (User._id user) (employee expense))
    then respond (refused 403 "ACCESS_DENIED")
    (* Check if expense can be updated *)
    else if negb (String.eqb (status expense) "draft")
            && negb (String.eqb (status expense) "rejected")
    then respond (refused 400 "EXPENSE_LOCKED")
    else
      (* Update expense *)
      findByIdAndUpdate id body ;;
      ret (ok "Expense updated successfully")
  end.

Definition update (user : User.t) (id : ObjectId) (body : UpdateBody)
  : DB -> DB * Response :=
  route "Failed to update expense" (updateHandler user id body).

(** [router.delete('/:id', ...)] *)
Definition deleteHandler (user : User.t) (id : ObjectId) : M Response :=
  found <- ExpenseModel.findById id ;;
  match found with
  | None => respond (refused 404 "EXPENSE_NOT_FOUND")
  | Some expense =>
    (* Check if user can delete this expense *)
    if negb (String.eqb (User.role user) "admin")
       && negb (N.eqb (User._id user) (employee expense))
    then respond (refused 403 "ACCESS_DENIED")
    (* Check if expense can be deleted *)
    else if negb (String.eqb (status expense) "draft")
    then respond (refused 400 "EXPENSE_LOCKED")
    else
      findByIdAndDelete id ;;
      ret (ok "Expense deleted successfully")
  end.

Definition delete (user : User.t) (id : ObjectId) : DB -> DB * Response :=
  route "Failed to delete expense" (deleteHandler user id).
End ExpensesEdit.

(* ===================================================================== *)
(** * 7. middleware/auth.js *)
(* ===================================================================== *)

Module Auth.
Local Open Scope string_scope.

(** What the [Authorization] header and [jwt.verify] give: no token (no
    header, or no second word in it), the [userId] of the payload of a
    token the server has signed, or the name of the error thrown. *)
Inductive Token :=
| NoToken
| Verified (userId : ObjectId)
| Thrown (name : string).

(** [authenticateToken]: the answer of the middleware, or the user it
    stores in [req.user] before [next()]. *)
Definition authenticateToken (token : Token) (db : DB) : Response + User.t :=
  match token with
  | NoToken => inl (refused 401 "NO_TOKEN")
  | Verified userId =>
    match findById User._id (users db) userId with
    | None => inl (refused 401 "INVALID_TOKEN")
    | Some user =>
      if negb (User.isActive user)
      then inl (refused 401 "ACCOUNT_DEACTIVATED")
      else inr user
    end
  | Thrown name =>
    if String.eqb name "JsonWebTokenError"
    then inl (refused 401 "INVALID_TOKEN")
    else if String.eqb name "TokenExpiredError"
    then inl (refused 401 "TOKEN_EXPIRED")
    else inl (failed "Token verification failed")
  end.

(** [authorize(...roles)]: [None] stands for [next()]. *)
Definition authorize (roles : list string) (user : option User.t)
  : option Response :=
  match user with
  | None => Some (refused 401 "AUTH_REQUIRED")
  | Some user =>
    if negb (mem_string (User.role user) roles)
    then Some (refused 403 "INSUFFICIENT_PERMISSIONS")
    else None
  end.

(** [router.verb(path, authenticateToken, handler)] *)
Definition authenticated (handler : User.t -> DB -> DB * Response)
    (token : Token) (db : DB) : DB * Response :=
  match authenticateToken token db with
  | inl answer => (db, answer)
  | inr user => handler user db
  end.

(** [router.verb(path, authenticateToken, authorize(...roles), handler)] *)
Definition authorized (roles : list string)
    (handler : User.t -> DB -> DB * Response)
    (token : Token) (db : DB) : DB * Response :=
  authenticated
    (fun user db =>
       match authorize roles (Some user) with
       | Some answer => (db, answer)
       | None => handler user db
       end) token db.
End Auth.

(* ===================================================================== *)
(** * 8. routes/users.js: deactivating a user *)
(* ===================================================================== *)

Module UsersRoute.
Import User.
Local Open Scope handler_scope.
Local Open Scope string_scope.

Definition setIsActive (b : bool) (u : t) : t :=
  make (_id u) (role u) (company u) (manager u) b.

(** [User.findByIdAndUpdate(id, { isActive }, { new: true })]: the updated
    document, [null] when there is none with that [_id]. *)
Definition findByIdAndUpdate (id : ObjectId) (isActive : bool) : M (option t) :=
  fun db =>
    match findById _id (users db) id with
    | Some u =>
      let u := setIsActive isActive u in
      (mkDB (approvals db) (expenses db) (replaceDoc _id u (users db))
            (companies db), Val (Some u))
    | None => (db, Val None)
    end.

(** [router.delete('/:id', authenticateToken, authorize('admin', 'manager'), ...)] *)
Definition deleteHandler (id : ObjectId) : M Response :=
  user <- findByIdAndUpdate id false ;;
  match user with
  | None => respond (refused 404 "USER_NOT_FOUND")
  | Some _ => ret (ok "User deactivated successfully")
  end.

Definition delete (token : Auth.Token) (id : ObjectId)
  : DB -> DB * Response :=
  Auth.authorized ["admin"; "manager"]
    (fun _ => route "Failed to delete user" (deleteHandler id)) token.
End UsersRoute.

(* ===================================================================== *)
(** * 9. The API of the workflow *)
(* ===================================================================== *)

(** The requests of the expense workflow, each with the clock reading the
    handler takes where it takes one. *)
Inductive Request :=
| Submit (id : ObjectId) (now : Date)
| Update (id : ObjectId) (body : UpdateBody)
| Delete (id : ObjectId)
| Approve (id : ObjectId) (body : ApproveBody) (now : Date)
| Reject (id : ObjectId) (body : RejectBody) (now : Date)
| Escalate (id : ObjectId) (body : EscalateBody) (now : Date).

(** The handler a request is routed to, [req.user] given. *)
Definition handler (request : Request) (user : User.t) : DB -> DB * Response :=
  match request with
  | Submit id now => ExpensesRoute.submit user id now
  | Update id body => ExpensesEdit.update user id body
  | Delete id => ExpensesEdit.delete user id
  | Approve id body now => ApprovalsRoute.approve user id body now
  | Reject id body now => ApprovalsRoute.reject user id body now
  | Escalate id body now => ApprovalsRoute.escalate user id body now
  end.

(** Every one of these routes is mounted behind [authenticateToken]. *)
Definition serve (token : Auth.Token) (request : Request)
  : DB -> DB * Response :=
  Auth.authenticated (handler request) token.

(** The store after a sequence of requests. *)
Definition serveAll (requests : list (Auth.Token * Request)) (db : DB) : DB :=
  fold_left (fun db r => fst (serve (fst r) (snd r) db)) requests db.

(* ===================================================================== *)
(** * 10. routes/ocr.js: regular expressions *)
(* ===================================================================== *)

(** A JavaScript string is its sequence of UTF-16 code units. *)
Definition JsString := list N.

(** The code units of an ASCII literal. *)
Definition units (s : string) : JsString :=
  map N_of_ascii (list_ascii_of_string s).

Module Regex.
Local Open Scope N_scope.

(** [\d] *)
Definition isDigit (c : N) : bool := (48 <=? c) && (c <=? 57).

(** [\s], and what [trim()] strips: WhiteSpace and LineTerminator. *)
Definition isSpace (c : N) : bool :=
  existsb (N.eqb c)
    [9; 10; 11; 12; 13; 32; 160; 5760; 8232; 8233; 8239; 8287; 12288; 65279]
  || ((8192 <=? c) && (c <=? 8202)).

(** A bracket class [[abc]]. *)
Definition oneOf (s : string) (c : N) : bool := existsb (N.eqb c) (units s).

(** Canonicalize of the [i] flag (without [u]): a code unit below 128 is
    compared by its upper case; one from 128 on never equals an ASCII
    letter, and the patterns hold ASCII letters only. *)
Definition canonicalize (c : N) : N :=
  if (97 <=? c) && (c <=? 122) then c - 32 else c.

Definition eqChar (ignoreCase : bool) (p c : N) : bool :=
  if ignoreCase then canonicalize p =? canonicalize c else p =? c.

(** The pieces the patterns of [parseReceiptText] are made of; group 1 is
    the only capture group. *)
Inductive item :=
| Lit (c : N)                                     (* a literal character *)
| Cls (p : N -> bool) (lo : nat) (hi : option nat) (* a class, greedy {lo,hi} *)
| Alt (words : list JsString)                     (* w1|w2|... *)
| GroupOpen
| GroupClose.

Record t := make { items : list item; ignoreCase : bool }.

Definition lits (s : string) : list item := map Lit (units s).
Definition one (p : N -> bool) : item := Cls p 1 (Some 1%nat).
Definition opt (p : N -> bool) : item := Cls p 0 (Some 1%nat).
Definition star (p : N -> bool) : item := Cls p 0 None.
Definition plus (p : N -> bool) : item := Cls p 1 None.
Definition between (p : N -> bool) (lo hi : nat) : item := Cls p lo (Some hi).

Definition canTake (hi : option nat) : bool :=
  match hi with Some O => false | _ => true end.

(** A greedy quantifier over a class: take as many characters as allowed,
    and give them back one at a time while the rest of the pattern ([k])
    fails. *)
Fixpoint rep (A : Type) (p : N -> bool) (lo : nat) (hi : option nat)
    (s : JsString) (k : JsString -> option A) {struct s} : option A :=
  let stop := match lo with O => k s | S _ => None end in
  match s with
  | c :: s' =>
    if p c && canTake hi
    then match rep p (pred lo) (option_map pred hi) s' k with
         | Some r => Some r
         | None => stop
         end
    else stop
  | [] => stop
  end.

Fixpoint stripPrefix (ignoreCase : bool) (w s : JsString) : option JsString :=
  match w, s with
  | [], _ => Some s
  | p :: w', c :: s' =>
    if eqChar ignoreCase p c then stripPrefix ignoreCase w' s' else None
  | _ :: _, [] => None
  end.

(** An alternation of words, tried from left to right. *)
Fixpoint alt (A : Type) (ignoreCase : bool) (words : list JsString)
    (s : JsString) (k : JsString -> option A) : option A :=
  match words with
  | [] => None
  | w :: words' =>
    match stripPrefix ignoreCase w s with
    | Some s' =>
      match k s' with
      | Some r => Some r
      | None => alt ignoreCase words' s k
      end
    | None => alt ignoreCase words' s k
    end
  end.

(** Match the items at the start of [s]; [g] is the input where group 1
    opened and [cap] what it captured.  The result is group 1 of the first
    match in backtracking order ([[]] when the group took no part). *)
Fixpoint run (ignoreCase : bool) (its : list item) (g cap s : JsString)
    {struct its} : option JsString :=
  match its with
  | [] => Some cap
  | Lit c :: rest =>
    match s with
    | x :: s' => if eqChar ignoreCase c x then run ignoreCase rest g cap s' else None
    | [] => None
    end
  | Cls p lo hi :: rest => rep p lo hi s (run ignoreCase rest g cap)
  | Alt words :: rest => alt ignoreCase words s (run ignoreCase rest g cap)
  | GroupOpen :: rest => run ignoreCase rest s cap s
  | GroupClose :: rest =>
    run ignoreCase rest g (firstn (List.length g - List.length s) g) s
  end.

(** The leftmost match: every start position, from the first. *)
Fixpoint search (ignoreCase : bool) (its : list item) (s : JsString)
  : option JsString :=
  match run ignoreCase its [] [] s with
  | Some cap => Some cap
  | None =>
    match s with
    | [] => None
    | _ :: s' => search ignoreCase its s'
    end
  end.

(** [line.match(pattern)]: [None] for [null], else [match[1]]. *)
Definition jsMatch (pattern : t) (line : JsString) : option JsString :=
  search (ignoreCase pattern) (items pattern) line.
End Regex.

(* ===================================================================== *)
(** * 11. routes/ocr.js: parseReceiptText *)
(* ===================================================================== *)

Module Ocr.
Import Regex.

(** ** String built-ins *)

(** [text.split('\n')] *)
Fixpoint split (sep : N) (s : JsString) : list JsString :=
  match s with
  | [] => [[]]
  | c :: s' =>
    if N.eqb c sep then [] :: split sep s'
    else match split sep s' with
         | l :: ls => (c :: l) :: ls
         | [] => [[c]]
         end
  end.

Fixpoint trimStart (s : JsString) : JsString :=
  match s with
  | c :: s' => if isSpace c then trimStart s' else s
  | [] => []
  end.

(** [line.trim()] *)
Definition trim (s : JsString) : JsString :=
  rev (trimStart (rev (trimStart s))).

Fixpoint startsWith (s w : JsString) : bool :=
  match w, s with
  | [], _ => true
  | p :: w', c :: s' => N.eqb p c && startsWith s' w'
  | _ :: _, [] => false
  end.

(** [s.includes(w)] *)
Fixpoint includes (s w : JsString) : bool :=
  startsWith s w ||
  match s with
  | [] => false
  | _ :: s' => includes s' w
  end.

(** ** Numbers *)

Definition digitsValue (ds : JsString) : Z :=
  fold_left (fun acc d => (10 * acc + (Z.of_N d - 48))%Z) ds 0%Z.

Fixpoint takeDigits (s : JsString) : JsString * JsString :=
  match s with
  | c :: s' =>
    if isDigit c then let (ds, r) := takeDigits s' in (c :: ds, r) else ([], s)
  | [] => ([], [])
  end.

(** The binary64 value nearest to [m / 10^k] (ties to even). *)
Definition decimal (m : Z) (k : nat) : float :=
  match m with
  | Zpos p =>
    SF2Prim (SFdiv prec emax (S754_finite false p 0)
                             (S754_finite false (Z.to_pos (10 ^ Z.of_nat k)) 0))
  | _ => 0%float
  end.

(** [parseFloat(s)] for a string that starts with digits or a dot: the
    value of its longest prefix [digits], [digits.] or [digits.digits]
    (group 1 of the amount patterns holds nothing else); [NaN] when there is
    no digit. *)
Definition parseFloat (s : JsString) : float :=
  let (ip, r) := takeDigits s in
  let fp := match r with
            | c :: r' => if N.eqb c 46 then fst (takeDigits r') else []
            | [] => []
            end in
  match ip ++ fp with
  | [] => nan
  | ds => decimal (digitsValue ds) (List.length fp)
  end.

(** [Math.min(c, 1.0)] *)
Definition min1 (c : float) : float :=
  if is_nan c then nan else if (c <? 1)%float then c else 1%float.

(** ** The patterns *)

Definition number : list item :=
  [GroupOpen; plus isDigit; opt (oneOf "."); star isDigit; GroupClose].

Definition colonOrSpace (c : N) : bool := oneOf ":" c || isSpace c.
Definition spaceOrComma (c : N) : bool := isSpace c || oneOf "," c.

(** ["/TOTAL[:\s]*\$?(\d+\.?\d*)/i"] *)
Definition totalPattern : Regex.t :=
  Regex.make (lits "TOTAL" ++ [star colonOrSpace; opt (oneOf "$")] ++ number) true.

(** ["/AMOUNT[:\s]*\$?(\d+\.?\d*)/i"] *)
Definition amountPattern : Regex.t :=
  Regex.make (lits "AMOUNT" ++ [star colonOrSpace; opt (oneOf "$")] ++ number) true.

(** ["/\$(\d+\.?\d*)/"] *)
Definition dollarPattern : Regex.t :=
  Regex.make (lits "$" ++ number) false.

(** ["/(\d+\.?\d*)\s*USD/i"], and the same for EUR and GBP *)
Definition currencyPattern (code : string) : Regex.t :=
  Regex.make (number ++ [star isSpace] ++ lits code) true.

Definition amountPatterns : list Regex.t :=
  [ totalPattern; amountPattern; dollarPattern;
    currencyPattern "USD"; currencyPattern "EUR"; currencyPattern "GBP" ].

Definition months : list JsString :=
  map units ["Jan"; "Feb"; "Mar"; "Apr"; "May"; "Jun";
             "Jul"; "Aug"; "Sep"; "Oct"; "Nov"; "Dec"]%string.

(** ["/(\d{1,2}[\/\-]\d{1,2}[\/\-]\d{2,4})/"] *)
Definition dayFirstPattern : Regex.t :=
  Regex.make [GroupOpen; between isDigit 1 2; one (oneOf "/-");
              between isDigit 1 2; one (oneOf "/-"); between isDigit 2 4;
              GroupClose] false.

(** ["/(\d{4}[\/\-]\d{1,2}[\/\-]\d{1,2})/"] *)
Definition yearFirstPattern : Regex.t :=
  Regex.make [GroupOpen; between isDigit 4 4; one (oneOf "/-");
              between isDigit 1 2; one (oneOf "/-"); between isDigit 1 2;
              GroupClose] false.

(** ["/(Jan|Feb|Mar|Apr|May|Jun|Jul|Aug|Sep|Oct|Nov|Dec)[\s,]*\d{1,2}[\s,]*\d{2,4}/i"]:
    group 1 closes after the month name. *)
Definition monthNamePattern : Regex.t :=
  Regex.make [GroupOpen; Alt months; GroupClose; star spaceOrComma;
              between isDigit 1 2; star spaceOrComma; between isDigit 2 4]
             true.

Definition datePatterns : list Regex.t :=
  [ dayFirstPattern; yearFirstPattern; monthNamePattern ].

Definition businessKeywords : list JsString :=
  map units ["LTD"; "INC"; "CORP"; "LLC"; "STORE"; "SHOP"; "RESTAURANT";
             "HOTEL"]%string.

(** [Object.entries(categoryKeywords)], in insertion order. *)
Definition categoryKeywords : list (string * list JsString) :=
  [ ("Travel", map units ["airline"; "flight"; "taxi"; "uber"; "lyft";
                          "train"; "bus"; "metro"]);
    ("Food", map units ["restaurant"; "cafe"; "coffee"; "food"; "dining";
                        "pizza"; "burger"]);
    ("Stay", map units ["hotel"; "motel"; "accommodation"; "lodging";
                        "airbnb"]);
    ("Transportation", map units ["gas"; "fuel"; "parking"; "toll";
                                  "highway"]);
    ("Office Supplies", map units ["office"; "stationery"; "supplies";
                                   "staples"]);
    ("Entertainment", map units ["movie"; "cinema"; "theater"; "concert";
                                 "sports"]) ]%string.

(** What [parseReceiptText] returns.  [date] is [None] for [null],
    [Some None] for an Invalid Date object and [Some (Some t)] for a date
    with time value [t]. *)
Record Receipt := mkReceipt {
  merchantName : JsString;
  amount : float;
  date : option (option Z);
  category : string;
  confidence : float
}.

(** [text.split('\n').map(line => line.trim()).filter(line => line.length > 0)] *)
Definition lines (text : JsString) : list JsString :=
  filter (fun line => negb (Nat.eqb (List.length line) 0))
         (map trim (split 10 text)).

(** The inner loop of the amount search: the first line the pattern
    matches sets the amount and adds 0.3. *)
Fixpoint amountInLines (pattern : Regex.t) (ls : list JsString)
    (amount confidence : float) : float * float :=
  match ls with
  | [] => (amount, confidence)
  | line :: rest =>
    match jsMatch pattern line with
    | Some group1 => (parseFloat group1, (confidence + 0.3)%float)   (* break *)
    | None => amountInLines pattern rest amount confidence
    end
  end.

(** The outer loop: [if (amount > 0) break;] after each pattern. *)
Fixpoint amountLoop (patterns : list Regex.t) (ls : list JsString)
    (amount confidence : float) : float * float :=
  match patterns with
  | [] => (amount, confidence)
  | pattern :: rest =>
    let (amount, confidence) := amountInLines pattern ls amount confidence in
    if (0 <? amount)%float then (amount, confidence)
    else amountLoop rest ls amount confidence
  end.

Section BuiltIns.
(** [String.prototype.toUpperCase], [String.prototype.toLowerCase] and the
    time value of [new Date(string)] ([None] for [NaN]) belong to the
    engine. *)
Variable toUpperCase toLowerCase : JsString -> JsString.
Variable newDate : JsString -> option Z.

(** The merchant name: the first line holding a business keyword, else the
    first line. *)
Definition extractMerchant (ls : list JsString) : JsString :=
  match find (fun line =>
                existsb (fun keyword => includes (toUpperCase line) keyword)
                        businessKeywords) ls with
  | Some line => line
  | None => match ls with first :: _ => first | [] => [] end
  end.

(** The inner loop of the date search: every matching line assigns
    [date = new Date(match[1])]; a valid one adds 0.2 and leaves the loop. *)
Fixpoint dateInLines (pattern : Regex.t) (ls : list JsString)
    (date : option (option Z)) (confidence : float)
  : option (option Z) * float :=
  match ls with
  | [] => (date, confidence)
  | line :: rest =>
    match jsMatch pattern line with
    | Some group1 =>
      match newDate group1 with
      | Some t => (Some (Some t), (confidence + 0.2)%float)   (* break *)
      | None => dateInLines pattern rest (Some None) confidence
      end
    | None => dateInLines pattern rest date confidence
    end
  end.

(** The outer loop: [if (date) break;] after each pattern. *)
Fixpoint dateLoop (patterns : list Regex.t) (ls : list JsString)
    (date : option (option Z)) (confidence : float)
  : option (option Z) * float :=
  match patterns with
  | [] => (date, confidence)
  | pattern :: rest =>
    let (date, confidence) := dateInLines pattern ls date confidence in
    match date with
    | Some _ => (date, confidence)
    | None => dateLoop rest ls date confidence
    end
  end.

(** The category: the first entry one of whose keywords the lower-cased
    merchant name includes; it adds 0.1. *)
Definition categorize (merchantLower : JsString) (confidence : float)
  : string * float :=
  match find (fun entry =>
                existsb (fun keyword => includes merchantLower keyword)
                        (snd entry)) categoryKeywords with
  | Some (cat, _) => (cat, (confidence + 0.1)%float)
  | None => ("Other"%string, confidence)
  end.

Definition parseReceiptText (text : JsString) : Receipt :=
  let ls := lines text in
  let merchantName := extractMerchant ls in
  let (amount, confidence) := amountLoop amountPatterns ls 0%float 0%float in
  let (date, confidence) := dateLoop datePatterns ls None confidence in
  let (category, confidence) :=
    categorize (toLowerCase merchantName) confidence in
  mkReceipt merchantName amount date category (min1 confidence).
End BuiltIns.
End Ocr.

(* ===================================================================== *)
(** * 12. routes/reports.js: convertToCSV *)
(* ===================================================================== *)

Module Reports.
Local Open Scope N_scope.

(** A value of a row, as [convertToCSV] tells them apart: [null] or
    [undefined]; a value whose [typeof] is ['object'], with the text
    [JSON.stringify] gives for it; any other value, with the text [String]
    gives for it. *)
Inductive Value :=
| Nullish
| Object (json : JsString)
| Scalar (text : JsString).

(** A row: its keys, in the order [Object.keys] lists them (for a
    document, those of [toObject()]), with the values [row[key]] gives. *)
Definition Row := list (JsString * Value).

Definition eqString (a b : JsString) : bool :=
  if list_eq_dec N.eq_dec a b then true else false.

(** [row[header]]: [undefined] when the row has no such key. *)
Definition get (row : Row) (header : JsString) : Value :=
  match find (fun entry => eqString (fst entry) header) row with
  | Some entry => snd entry
  | None => Nullish
  end.

(** [s.replace(/,/g, ';')] *)
Definition replaceCommas (s : JsString) : JsString :=
  map (fun c => if N.eqb c 44 then 59 else c) s.

(** [list.join(sep)] *)
Fixpoint join (sep : N) (l : list JsString) : JsString :=
  match l with
  | [] => []
  | [x] => x
  | x :: rest => x ++ sep :: join sep rest
  end.

(** The text of one value. *)
Definition cell (value : Value) : JsString :=
  match value with
  | Nullish => []
  | Object json => json
  | Scalar text => replaceCommas text
  end.

(** The line of one row. *)
Definition csvRow (headers : list JsString) (row : Row) : JsString :=
  join 44 (map (fun header => cell (get row header)) headers).

(** The lines of the file: the keys of the first row, then the rows. *)
Definition csvRows (data : list Row) : list JsString :=
  match data with
  | [] => []
  | first :: _ =>
    let headers := map fst first in
    join 44 headers :: map (csvRow headers) data
  end.

Definition convertToCSV (data : list Row) : JsString :=
  match data with
  | [] => []
  | _ :: _ => join 10 (csvRows data)
  end.
End Reports.

(* ===================================================================== *)
(** * 13. Vocabulary of the statements *)
(* ===================================================================== *)

(** The approvals of an expense whose status is still ['pending']: what
    [Approval.find({ expense, status: 'pending' })] returns. *)
Definition pendingApprovals (db : DB) (expense : ObjectId) : list Approval.t :=
  filter (fun a => N.eqb (Approval.expense a) expense
                   && String.eqb (Approval.status a) "pending")
         (approvals db).

(** The approval as [approve] saves it. *)
Definition approvedApproval (body : ApproveBody) (now : Date)
    (approval : Approval.t) : Approval.t :=
  ApprovalModel.setIsUrgent (orFalse (approve_isUrgent body))
    (ApprovalModel.setActionDate now
      (ApprovalModel.setComments (approve_comments body)
        (ApprovalModel.setStatus "approved" approval))).

(** The approval as [escalate] saves it. *)
Definition escalatedApproval (body : EscalateBody) (now : Date)
    (approval : Approval.t) : Approval.t :=
  ApprovalModel.setEscalation (escalate_escalationReason body)
    (escalate_escalatedTo body) now
    (ApprovalModel.setComments (escalate_comments body)
      (ApprovalModel.setStatus "escalated" approval)).

(** A pattern's hit in the lines of a receipt: group 1 of the first line it
    matches. *)
Fixpoint firstHit (pattern : Regex.t) (ls : list JsString) : option JsString :=
  match ls with
  | [] => None
  | line :: rest =>
    match Regex.jsMatch pattern line with
    | Some group1 => Some group1
    | None => firstHit pattern rest
    end
  end.

Definition hasHit (ls : list JsString) (pattern : Regex.t) : bool :=
  match firstHit pattern ls with Some _ => true | None => false end.

(** The confidence accumulator after [n] additions of [x]. *)
Definition bumped (n : nat) (x : float) (confidence : float) : float :=
  Nat.iter n (fun c => (c + x)%float) confidence.

Definition newline : JsString := [10%N].

(** ** Sample data *)

Module Sample.
Local Open Scope string_scope.
Local Open Scope N_scope.

Definition employee : User.t := User.make 1 "employee" 100 (Some 2%N) true.
Definition manager : User.t := User.make 2 "manager" 100 None true.
Definition finance : User.t := User.make 3 "finance" 100 None true.
Definition admin : User.t := User.make 4 "admin" 100 None true.
(** The approver of the director step; ['director'] is a role of approvals,
    not of users. *)
Definition director : User.t := User.make 5 "manager" 100 None true.
Definition staff : list User.t := [employee; manager; finance; admin; director].

(** A company with [autoApprovalLimit = 100], and one with the limit 0. *)
Definition company : Company.t := Company.make 100 (Some 100%Q).
Definition strictCompany : Company.t := Company.make 101 (Some 0%Q).
Definition strictEmployee : User.t := User.make 6 "employee" 101 (Some 7%N) true.
Definition strictManager : User.t := User.make 7 "manager" 101 None true.

Definition draft50 : Expense.t :=
  Expense.make 20 1 100 50%Q "draft" None None None None.
Definition draft500 : Expense.t :=
  Expense.make 21 1 100 500%Q "draft" None None None None.
Definition strictDraft50 : Expense.t :=
  Expense.make 22 6 101 50%Q "draft" None None None None.

Definition drafts : DB :=
  mkDB [] [draft50; draft500; strictDraft50]
       (staff ++ [strictEmployee; strictManager])%list [company; strictCompany].

(** An expense under review and the approvals of its chain. *)
Definition claim : Expense.t :=
  Expense.make 23 1 100 500%Q "pending_manager" (Some 2%N) None None None.
Definition managerStep : Approval.t :=
  Approval.make 30 23 2 "manager" "pending" None None 1%Z None None None false.
Definition financeStep : Approval.t :=
  Approval.make 31 23 3 "finance" "pending" None None 2%Z None None None false.
Definition directorStep : Approval.t :=
  Approval.make 32 23 5 "director" "pending" None None 3%Z None None None false.

Definition oneStep : DB := mkDB [managerStep] [claim] staff [company].
Definition twoSteps : DB :=
  mkDB [managerStep; financeStep] [claim] staff [company].
Definition threeSteps : DB :=
  mkDB [managerStep; financeStep; directorStep] [claim] staff [company].

(** A store whose only approval has been acted on already. *)
Definition approvedStep : Approval.t :=
  Approval.make 33 23 2 "manager" "approved" None (Some 1699990000000%Z) 1%Z
    None None None false.
Definition settled : DB := mkDB [approvedStep] [claim] staff [company].

Definition noon : Date := 1700000000000%Z.

Definition noComment : ApproveBody := mkApproveBody None None.
Definition outOfPolicy : RejectBody := mkRejectBody "out of policy" None.
Definition toFinance : EscalateBody :=
  mkEscalateBody None "needs a finance review" 3.
Definition toAdmin : EscalateBody :=
  mkEscalateBody None "needs an administrator" 4.

(** Receipts. *)
Definition totalReceipt : JsString :=
  (units "ACME STORE" ++ newline ++ units "TOTAL: $42.50")%list.
Definition zeroThenFive : JsString :=
  (units "TOTAL: 0" ++ newline ++ units "AMOUNT: 5")%list.
Definition jan15 : JsString := units "Jan 15, 2024".
Definition jan16 : JsString := units "Jan 16, 2025".

(** Engine built-ins on the ASCII text of the samples. *)
Definition asciiUpper (s : JsString) : JsString :=
  map (fun c => if (97 <=? c) && (c <=? 122) then c - 32 else c) s.
Definition asciiLower (s : JsString) : JsString :=
  map (fun c => if (65 <=? c) && (c <=? 90) then c + 32 else c) s.
Definition noDate (s : JsString) : option Z := None.
End Sample.

(** ** A chain with a manager after finance *)

Module Handover.
Local Open Scope string_scope.
Local Open Scope N_scope.

(** An expense at the finance step whose next approval is a manager's, as
    an escalation to a manager makes them. *)
Definition claim : Expense.t :=
  Expense.make 25 1 100 500%Q "pending_finance" (Some 3%N) None None None.
Definition financeStep : Approval.t :=
  Approval.make 40 25 3 "finance" "pending" None None 1%Z None None None false.
Definition managerStep : Approval.t :=
  Approval.make 41 25 2 "manager" "pending" None None 2%Z None None None false.
Definition directorStep : Approval.t :=
  Approval.make 42 25 5 "director" "pending" None None 3%Z None None None false.

Definition store : DB :=
  mkDB [financeStep; managerStep; directorStep] [claim] Sample.staff
       [Sample.company].
End Handover.

(** ** Well-formed stores *)

(** The filter of [User.find({ company, role: 'finance', isActive: true })]. *)
Definition activeFinanceOf (company : ObjectId) (u : User.t) : bool :=
  N.eqb (User.company u) company
  && String.eqb (User.role u) "finance"
  && User.isActive u.

(** [models/Expense.js]: the enumerations of [status] and [category]. *)
Module ExpenseSchema.
Definition statusEnum : list string :=
  ["draft"; "submitted"; "pending_manager"; "pending_finance";
   "pending_director"; "approved"; "rejected"; "reimbursed"]%string.

Definition categoryEnum : list string :=
  ["Travel"; "Food"; "Stay"; "Transportation"; "Office Supplies";
   "Entertainment"; "Training"; "Medical"; "Other"]%string.
End ExpenseSchema.

(** An approval refers to a stored expense that has left ['draft']. *)
Definition refersToSubmitted (db : DB) (a : Approval.t) : Prop :=
  exists e, In e (expenses db) /\
            Expense._id e = Approval.expense a /\
            Expense.status e <> "draft"%string.

(** The [_id]s of a collection are unique, every approval and every
    expense passes the enumerations of its schema, and every approval
    refers to a stored expense that has been submitted. *)
Definition wellFormed (db : DB) : Prop :=
  NoDup (map Approval._id (approvals db)) /\
  NoDup (map Expense._id (expenses db)) /\
  Forall (fun a => ApprovalModel.validate a = true) (approvals db) /\
  Forall (fun e => mem_string (Expense.status e) ExpenseSchema.statusEnum = true)
         (expenses db) /\
  Forall (refersToSubmitted db) (approvals db).

(** ** An office without managers *)

Module Office.
Local Open Scope string_scope.
Local Open Scope N_scope.

(** An employee who has no manager, and the finance users of the company
    in the order the collection holds them: one who has left, then two
    active ones. *)
Definition freelancer : User.t := User.make 8 "employee" 100 None true.
Definition formerFinance : User.t := User.make 9 "finance" 100 None false.
Definition secondFinance : User.t := User.make 10 "finance" 100 None true.

Definition invoice : Expense.t :=
  Expense.make 24 8 100 500%Q "draft" None None None None.

Definition desk : DB :=
  mkDB [] [invoice]
       [freelancer; formerFinance; Sample.finance; secondFinance]
       [Sample.company].

(** The same office once every finance user has left. *)
Definition emptyDesk : DB :=
  mkDB [] [invoice] [freelancer; formerFinance] [Sample.company].

(** An expense that waits for a manager who has been deactivated. *)
Definition formerManager : User.t := User.make 2 "manager" 100 None false.
Definition leftBehind : DB :=
  mkDB [Sample.managerStep] [Sample.claim]
       [Sample.employee; formerManager; Sample.admin] [Sample.company].
End Office.

(** ** The effect of a request *)

(** The request of [user] is one the handlers serve on the stored expense
    [e]: a submit or delete of [e], a draft, or an update of [e], a draft
    or rejected, by its employee or an admin; or a decision on a pending
    approval of [e] by its approver. *)
Definition touches (user : User.t) (request : Request) (db : DB)
    (e : Expense.t) : Prop :=
  match request with
  | Submit id _ | Delete id =>
    id = Expense._id e /\
    Expense.status e = "draft"%string /\
    (User._id user = Expense.employee e \/ User.role user = "admin"%string)
  | Update id _ =>
    id = Expense._id e /\
    (Expense.status e = "draft"%string \/
     Expense.status e = "rejected"%string) /\
    (User._id user = Expense.employee e \/ User.role user = "admin"%string)
  | Approve id _ _ | Reject id _ _ | Escalate id _ _ =>
    exists a,
      findById Approval._id (approvals db) id = Some a /\
      Approval.status a = "pending"%string /\
      Approval.approver a = User._id user /\
      Approval.expense a = Expense._id e
  end.

(** The request of [user] is a decision on the pending approval [a], whose
    approver [user] is. *)
Definition decides (user : User.t) (request : Request) (a : Approval.t)
  : Prop :=
  match request with
  | Approve id _ _ | Reject id _ _ | Escalate id _ _ =>
    id = Approval._id a /\
    Approval.status a = "pending"%string /\
    Approval.approver a = User._id user
  | _ => False
  end.

(** What a request does to a stored approval: nothing, or it decides it;
    expense, approver, role and priority stay. *)
Definition approvalStep (user : User.t) (request : Request)
    (a a' : Approval.t) : Prop :=
  a' = a \/
  (decides user request a /\
   Approval._id a' = Approval._id a /\
   Approval.expense a' = Approval.expense a /\
   Approval.approver a' = Approval.approver a /\
   Approval.role a' = Approval.role a /\
   Approval.priority a' = Approval.priority a /\
   mem_string (Approval.status a')
     ["approved"; "rejected"; "escalated"]%string = true).

(** What a request does to a stored expense: nothing, or it is served on
    it; employee and company stay; an update keeps the status, any other
    request keeps the amount, and the status stays or becomes one of the
    workflow's. *)
Definition expenseStep (user : User.t) (request : Request) (db : DB)
    (e e' : Expense.t) : Prop :=
  e' = e \/
  (touches user request db e /\
   Expense._id e' = Expense._id e /\
   Expense.employee e' = Expense.employee e /\
   Expense.company e' = Expense.company e /\
   match request with
   | Update _ _ => Expense.status e' = Expense.status e
   | _ =>
     Expense.amount e' = Expense.amount e /\
     (Expense.status e' = Expense.status e \/
      mem_string (Expense.status e')
        ["approved"; "rejected"; "pending_manager"; "pending_finance";
         "pending_director"]%string = true)
   end).

(** The requests whose handlers create an approval. *)
Definition creates (request : Request) : Prop :=
  match request with
  | Submit _ _ | Escalate _ _ _ => True
  | _ => False
  end.

(** What the request of [user] does to the store [db], giving [db']: users
    and companies stay; the stored expenses take a step each, or the request
    deletes one; the stored approvals take a step each, and at most one
    approval is added, by a submit or an escalation: pending, valid, with
    a new [_id], and for the expense the request is served on, which is no
    draft afterwards. *)
Definition effect (user : User.t) (request : Request) (db db' : DB) : Prop :=
  users db' = users db /\
  companies db' = companies db /\
  (Forall2 (expenseStep user request db) (expenses db) (expenses db') \/
   exists id e,
     request = Delete id /\
     findById Expense._id (expenses db) id = Some e /\
     touches user request db e /\
     expenses db' = deleteDoc Expense._id id (expenses db)) /\
  exists kept new,
    approvals db' = (kept ++ new)%list /\
    Forall2 (approvalStep user request) (approvals db) kept /\
    (new = [] \/
     exists n e e',
       new = [n] /\
       creates request /\
       Approval._id n = freshId Approval._id (approvals db) /\
       ApprovalModel.validate n = true /\
       Approval.status n = "pending"%string /\
       findById Expense._id (expenses db) (Approval.expense n) = Some e /\
       touches user request db e /\
       In e' (expenses db') /\
       Expense._id e' = Approval.expense n /\
       Expense.status e' <> "draft"%string).

(** No pending approval of the store refers to the expense. *)
Definition settledFor (db : DB) (e : Expense.t) : Prop :=
  forall a, In a (approvals db) ->
            Approval.expense a = Expense._id e ->
            Approval.status a <> "pending"%string.

(** How often a code unit occurs in a string. *)
Definition occurrences (c : N) (s : JsString) : nat :=
  List.length (filter (N.eqb c) s).

(** The commas [convertToCSV] leaves in the text of a value: those of the
    JSON of an object. *)
Definition objectCommas (value : Reports.Value) : nat :=
  match value with
  | Reports.Object json => occurrences 44 json
  | _ => 0%nat
  end.

(* ===================================================================== *)
(** * 14. Facts about collections *)
(* ===================================================================== *)

#[local] Arguments findById : simpl never.
#[local] Arguments replaceDoc : simpl never.
#[local] Arguments ApprovalModel.leastPriority : simpl never.
#[local] Arguments Regex.jsMatch : simpl never.
#[local] Arguments mem_string : simpl never.
#[local] Arguments Ocr.parseFloat : simpl never.

Local Open Scope string_scope.
Local Open Scope N_scope.

Section CollectionFacts.
Variable T : Type.
Variable key : T -> ObjectId.

Lemma findById_key (l : list T) (id : ObjectId) (d : T) :
  findById key l id = Some d -> key d = id.
Proof.
  unfold findById. intros H. apply find_some in H. destruct H as [_ H].
  now apply N.eqb_eq.
Qed.

Lemma findById_replaceDoc (l : list T) (d d0 : T) :
  findById key l (key d) = Some d0 ->
  findById key (replaceDoc key d l) (key d) = Some d.
Proof.
  unfold findById, replaceDoc. induction l as [|x l IH]; simpl; [discriminate|].
  destruct (N.eqb (key x) (key d)) eqn:E.
  - intros _. now rewrite N.eqb_refl.
  - rewrite E. exact IH.
Qed.

Lemma findById_replaceDoc_at (l : list T) (id : ObjectId) (d d0 : T) :
  key d = id ->
  findById key l id = Some d0 ->
  findById key (replaceDoc key d l) id = Some d.
Proof. intros <-. apply findById_replaceDoc. Qed.

Lemma replaceDoc_length (l : list T) (d : T) :
  List.length (replaceDoc key d l) = List.length l.
Proof. unfold replaceDoc. apply length_map. Qed.

(** Replacing by a document the filter rejects removes every document of
    that [_id] from the filtered collection and keeps the others. *)
Lemma filter_replaceDoc_out (f : T -> bool) (l : list T) (d : T) :
  f d = false ->
  filter f (replaceDoc key d l)
  = filter (fun x => negb (N.eqb (key x) (key d))) (filter f l).
Proof.
  intros Hd. unfold replaceDoc. induction l as [|x l IH]; simpl; [reflexivity|].
  destruct (N.eqb (key x) (key d)) eqn:E.
  - rewrite Hd. destruct (f x); simpl; rewrite ?E; simpl; exact IH.
  - destruct (f x); simpl; rewrite ?E; simpl; now rewrite IH.
Qed.

(** A new [_id] is the [_id] of no stored document. *)
Lemma freshId_above (l : list T) (d : T) :
  In d l -> key d < freshId key l.
Proof.
  unfold freshId. induction l as [|x l IH]; simpl; [intros []|].
  intros [<-|Hd]; [lia|]. specialize (IH Hd). lia.
Qed.
End CollectionFacts.

Lemma filter_and {T} (f g : T -> bool) (l : list T) :
  filter (fun x => f x && g x) l = filter g (filter f l).
Proof.
  induction l as [|x l IH]; simpl; [reflexivity|].
  destruct (f x); simpl; [|exact IH]. destruct (g x); now rewrite IH.
Qed.

Lemma filter_first {T} (f : T -> bool) (before after : list T) (first : T) :
  Forall (fun x => f x = false) before ->
  f first = true ->
  filter f (before ++ first :: after) = first :: filter f after.
Proof.
  intros Hb Hf. induction Hb as [|x before Hx _ IH]; simpl.
  - now rewrite Hf.
  - now rewrite Hx.
Qed.

Lemma filter_none {T} (f : T -> bool) (l : list T) :
  Forall (fun x => f x = false) l -> filter f l = [].
Proof.
  intros H. induction H as [|x l Hx _ IH]; simpl; [reflexivity|].
  now rewrite Hx.
Qed.

Create HintDb handler.
#[local] Hint Unfold ApprovalsRoute.approve ApprovalsRoute.approveHandler
  ApprovalsRoute.reject ApprovalsRoute.rejectHandler
  ApprovalsRoute.escalate ApprovalsRoute.escalateHandler
  ExpensesRoute.submit ExpensesRoute.submitHandler
  route bind gets respond ret throw modify
  ApprovalModel.findById ApprovalModel.save ApprovalModel.find
  ApprovalModel.findOneAbove ApprovalModel.create
  ExpenseModel.findById ExpenseModel.save
  UserModel.findById UserModel.find CompanyModel.findById : handler.

(** Run a handler symbolically: unfold the monad and the model operations. *)
Ltac run_handler := autounfold with handler; cbn beta iota.

(* ===================================================================== *)
(** * 15. Submitting an expense *)
(* ===================================================================== *)

(** The limit [submit] compares with is never below the company's own. *)
Lemma limitOrDefault_ge (l a : Q) :
  (a <= l)%Q -> (a <= ExpensesRoute.limitOrDefault (Some l))%Q.
Proof.
  intros H. unfold ExpensesRoute.limitOrDefault.
  destruct (Qeq_bool l 0) eqn:E; [|exact H].
  apply Qeq_bool_eq in E. rewrite E in H.
  apply Qle_trans with 0%Q; [exact H|]. discriminate.
Qed.

Lemma submit_authorized (user : User.t) (expense : Expense.t) :
  User._id user = Expense.employee expense \/ User.role user = "admin" ->
  negb (String.eqb (User.role user) "admin")
  && negb (N.eqb (User._id user) (Expense.employee expense)) = false.
Proof.
  intros [H|H]; rewrite H.
  - rewrite N.eqb_refl. apply andb_false_r.
  - reflexivity.
Qed.

(** C2: a draft expense submitted by its employee (or an admin) whose amount
    is at most the company's [settings.autoApprovalLimit] becomes
    ['approved'], with [approvedBy] the submitter and [approvedAt] the
    current time, and no Approval record is created. *)
Theorem submit_auto_approves_within_limit
    (db : DB) (user : User.t) (id : ObjectId) (now : Date)
    (expense : Expense.t) (company : Company.t) (limit : Q) :
  findById Expense._id (expenses db) id = Some expense ->
  Expense.status expense = "draft" ->
  User._id user = Expense.employee expense \/ User.role user = "admin" ->
  findById Company._id (companies db) (Expense.company expense) = Some company ->
  Company.autoApprovalLimit company = Some limit ->
  (Expense.amount expense <= limit)%Q ->
  exists db' expense',
    ExpensesRoute.submit user id now db
      = (db', ok "Expense submitted successfully") /\
    approvals db' = approvals db /\
    findById Expense._id (expenses db') id = Some expense' /\
    Expense.status expense' = "approved" /\
    Expense.approvedBy expense' = Some (User._id user) /\
    Expense.approvedAt expense' = Some now.
Proof.
  intros Hfind Hdraft Hwho Hco Hlim Hle.
  pose proof (@findById_key _ _ _ _ _ Hfind) as Hid.
  run_handler. rewrite Hfind, (submit_authorized _ _ Hwho), Hdraft. cbn.
  rewrite Hco, Hlim.
  apply limitOrDefault_ge in Hle. apply Qle_bool_iff in Hle. rewrite Hle. cbn.
  do 2 eexists. split; [reflexivity|]. cbn. split; [reflexivity|].
  split.
  - apply findById_replaceDoc_at with (d0 := expense); [exact Hid|exact Hfind].
  - repeat split; reflexivity.
Qed.

(** The spec's scenario: [autoApprovalLimit = 100], an expense of 50. *)
Lemma submit_auto_approves_within_limit_witness :
  exists db' expense',
    ExpensesRoute.submit Sample.employee 20 Sample.noon Sample.drafts
      = (db', ok "Expense submitted successfully") /\
    approvals db' = approvals Sample.drafts /\
    findById Expense._id (expenses db') 20 = Some expense' /\
    Expense.status expense' = "approved" /\
    Expense.approvedBy expense' = Some (User._id Sample.employee) /\
    Expense.approvedAt expense' = Some Sample.noon.
Proof.
  apply (@submit_auto_approves_within_limit Sample.drafts Sample.employee 20
           Sample.noon Sample.draft50 Sample.company 100%Q).
  - reflexivity.
  - reflexivity.
  - left. reflexivity.
  - reflexivity.
  - reflexivity.
  - vm_compute. discriminate.
Defined.

(** C3: with the limit 0 an expense of 50, above the limit, of an employee
    who has a manager is approved on submit and gets no Approval record:
    [autoApprovalLimit || 100] reads the limit 0 as 100. *)
Theorem submit_with_limit_zero_auto_approves :
  Company.autoApprovalLimit Sample.strictCompany = Some 0%Q /\
  User.manager Sample.strictEmployee = Some 7 /\
  ExpensesRoute.submit Sample.strictEmployee 22 Sample.noon Sample.drafts
  = (mkDB []
       [Sample.draft50; Sample.draft500;
        Expense.make 22 6 101 50%Q "approved" None None (Some 6)
          (Some Sample.noon)]
       (users Sample.drafts) (companies Sample.drafts),
     ok "Expense submitted successfully").
Proof. repeat split. Qed.

(** Above a limit that is not 0, a draft expense of an employee who has a
    manager goes to ['pending_manager'] with the manager as current
    approver, and exactly one Approval is created: for that manager, with
    role ['manager'], status ['pending'] and priority 1. *)
Theorem submit_above_limit_creates_manager_approval
    (db : DB) (user : User.t) (id : ObjectId) (now : Date)
    (expense : Expense.t) (company : Company.t) (limit : Q)
    (employee : User.t) (manager : ObjectId) :
  findById Expense._id (expenses db) id = Some expense ->
  Expense.status expense = "draft" ->
  User._id user = Expense.employee expense \/ User.role user = "admin" ->
  findById Company._id (companies db) (Expense.company expense) = Some company ->
  Company.autoApprovalLimit company = Some limit ->
  ~ (limit == 0)%Q ->
  (limit < Expense.amount expense)%Q ->
  findById User._id (users db) (Expense.employee expense) = Some employee ->
  User.manager employee = Some manager ->
  exists db' expense' approval,
    ExpensesRoute.submit user id now db
      = (db', ok "Expense submitted successfully") /\
    approvals db' = (approvals db ++ [approval])%list /\
    (forall a, In a (approvals db) -> Approval._id a <> Approval._id approval) /\
    Approval.expense approval = id /\
    Approval.approver approval = manager /\
    Approval.role approval = "manager" /\
    Approval.status approval = "pending" /\
    Approval.priority approval = 1%Z /\
    findById Expense._id (expenses db') id = Some expense' /\
    Expense.status expense' = "pending_manager" /\
    Expense.currentApprover expense' = Some manager.
Proof.
  intros Hfind Hdraft Hwho Hco Hlim Hnz Hgt Hemp Hman.
  pose proof (@findById_key _ _ _ _ _ Hfind) as Hid.
  run_handler. rewrite Hfind, (submit_authorized _ _ Hwho), Hdraft. cbn.
  rewrite Hco, Hlim.
  assert (Hlimit : ExpensesRoute.limitOrDefault (Some limit) = limit).
  { unfold ExpensesRoute.limitOrDefault.
    destruct (Qeq_bool limit 0) eqn:E; [|reflexivity].
    apply Qeq_bool_eq in E. contradiction. }
  rewrite Hlimit.
  assert (Hno : Qle_bool (Expense.amount expense) limit = false).
  { destruct (Qle_bool (Expense.amount expense) limit) eqn:E; [|reflexivity].
    apply Qle_bool_iff in E. exfalso. exact (Qlt_not_le _ _ Hgt E). }
  rewrite Hno. cbn. rewrite Hemp. cbn. rewrite Hman. cbn.
  do 3 eexists. split; [reflexivity|]. cbn. split; [reflexivity|].
  split.
  { intros a Ha. apply (freshId_above Approval._id) in Ha. cbn. lia. }
  split; [exact Hid|].
  do 4 (split; [reflexivity|]).
  split.
  { apply findById_replaceDoc_at with (d0 := expense); [exact Hid|exact Hfind]. }
  split; reflexivity.
Qed.

(** The spec's scenario: [autoApprovalLimit = 100], an expense of 500 of an
    employee whose manager is user 2. *)
Lemma submit_above_limit_creates_manager_approval_witness :
  exists db' expense' approval,
    ExpensesRoute.submit Sample.employee 21 Sample.noon Sample.drafts
      = (db', ok "Expense submitted successfully") /\
    approvals db' = (approvals Sample.drafts ++ [approval])%list /\
    (forall a, In a (approvals Sample.drafts) ->
               Approval._id a <> Approval._id approval) /\
    Approval.expense approval = 21 /\
    Approval.approver approval = 2 /\
    Approval.role approval = "manager" /\
    Approval.status approval = "pending" /\
    Approval.priority approval = 1%Z /\
    findById Expense._id (expenses db') 21 = Some expense' /\
    Expense.status expense' = "pending_manager" /\
    Expense.currentApprover expense' = Some 2.
Proof.
  apply (@submit_above_limit_creates_manager_approval Sample.drafts
           Sample.employee 21 Sample.noon Sample.draft500 Sample.company
           100%Q Sample.employee 2).
  - reflexivity.
  - reflexivity.
  - left. reflexivity.
  - reflexivity.
  - reflexivity.
  - vm_compute. discriminate.
  - vm_compute. reflexivity.
  - reflexivity.
  - reflexivity.
Defined.

(* ===================================================================== *)
(** * 16. Acting on an approval *)
(* ===================================================================== *)

(** ** Reject *)

(** C4: when the approver of a pending Approval rejects it, the Approval
    becomes ['rejected'] and the Expense becomes ['rejected'] whatever other
    approvals the store holds; [rejectionReason] is the rejection reason of
    the request or, without one, its comments. *)
Theorem reject_ends_workflow
    (db : DB) (user : User.t) (id : ObjectId) (body : RejectBody) (now : Date)
    (approval : Approval.t) (expense : Expense.t) :
  findById Approval._id (approvals db) id = Some approval ->
  Approval.approver approval = User._id user ->
  Approval.status approval = "pending" ->
  findById Expense._id (expenses db) (Approval.expense approval) = Some expense ->
  exists db' approval' expense',
    ApprovalsRoute.reject user id body now db
      = (db', ok "Expense rejected successfully") /\
    approvals db' = replaceDoc Approval._id approval' (approvals db) /\
    findById Approval._id (approvals db') id = Some approval' /\
    Approval.status approval' = "rejected" /\
    findById Expense._id (expenses db') (Approval.expense approval)
      = Some expense' /\
    Expense.status expense' = "rejected" /\
    (forall reason, reject_rejectionReason body = Some reason -> reason <> "" ->
       Expense.rejectionReason expense' = Some reason) /\
    (reject_rejectionReason body = None ->
       Expense.rejectionReason expense' = Some (reject_comments body)).
Proof.
  intros Hfind Hwho Hpending Hexp.
  pose proof (@findById_key _ _ _ _ _ Hfind) as Hid.
  pose proof (@findById_key _ _ _ _ _ Hexp) as Heid.
  run_handler. rewrite Hfind, Hwho, N.eqb_refl, Hpending. cbn.
  rewrite Hexp. cbn.
  do 3 eexists. split; [reflexivity|]. cbn.
  split; [reflexivity|].
  split. { apply findById_replaceDoc_at with (d0 := approval); cbn; assumption. }
  split; [reflexivity|].
  split. { apply findById_replaceDoc_at with (d0 := expense); cbn; assumption. }
  split; [reflexivity|]. split.
  - intros reason Hr Hne. rewrite Hr. cbn.
    destruct (String.eqb_spec reason ""); [contradiction|reflexivity].
  - intros Hr. now rewrite Hr.
Qed.

(** The spec's scenario: the manager rejects with the comment "out of
    policy" while the finance and director approvals are pending too. *)
Lemma reject_ends_workflow_witness :
  List.length (pendingApprovals Sample.threeSteps 23) = 3%nat /\
  exists db' approval' expense',
    ApprovalsRoute.reject Sample.manager 30 Sample.outOfPolicy Sample.noon
      Sample.threeSteps
      = (db', ok "Expense rejected successfully") /\
    approvals db' = replaceDoc Approval._id approval' (approvals Sample.threeSteps) /\
    findById Approval._id (approvals db') 30 = Some approval' /\
    Approval.status approval' = "rejected" /\
    findById Expense._id (expenses db') 23 = Some expense' /\
    Expense.status expense' = "rejected" /\
    Expense.rejectionReason expense' = Some "out of policy".
Proof.
  split; [reflexivity|].
  destruct (@reject_ends_workflow Sample.threeSteps Sample.manager 30
              Sample.outOfPolicy Sample.noon Sample.managerStep Sample.claim
              eq_refl eq_refl eq_refl eq_refl)
    as (db' & approval' & expense' & H1 & H2 & H3 & H4 & H5 & H6 & _ & H8).
  exists db', approval', expense'.
  repeat (split; [assumption|]). exact (H8 eq_refl).
Defined.

(** ** Approve *)

(** What [approve] writes to the approvals, and its answer, once the caller
    is the approver of a pending approval. *)
Lemma approve_approvals
    (db : DB) (user : User.t) (id : ObjectId) (body : ApproveBody) (now : Date)
    (approval : Approval.t) :
  findById Approval._id (approvals db) id = Some approval ->
  Approval.approver approval = User._id user ->
  Approval.status approval = "pending" ->
  approvals (fst (ApprovalsRoute.approve user id body now db))
  = replaceDoc Approval._id (approvedApproval body now approval) (approvals db) /\
  snd (ApprovalsRoute.approve user id body now db)
  = ok "Expense approved successfully".
Proof.
  intros Hfind Hwho Hpending.
  run_handler. rewrite Hfind, Hwho, N.eqb_refl, Hpending. cbn.
  destruct (findById Expense._id (expenses db) (Approval.expense approval))
    as [expense|]; cbn; [|split; reflexivity].
  match goal with |- context [if ?c then _ else _] => destruct c end; cbn;
    [split; reflexivity|].
  match goal with |- context [match ?c with Some _ => _ | None => _ end] =>
    destruct c end; cbn; split; reflexivity.
Qed.

(** The approvals still pending after [approve]: those that were pending,
    without the one acted on. *)
Lemma approve_stillPending
    (db : DB) (user : User.t) (id : ObjectId) (body : ApproveBody) (now : Date)
    (approval : Approval.t) (expense : ObjectId) :
  findById Approval._id (approvals db) id = Some approval ->
  Approval.approver approval = User._id user ->
  Approval.status approval = "pending" ->
  pendingApprovals (fst (ApprovalsRoute.approve user id body now db)) expense
  = filter (fun a => negb (N.eqb (Approval._id a) id))
           (pendingApprovals db expense).
Proof.
  intros Hfind Hwho Hpending.
  pose proof (@findById_key _ _ _ _ _ Hfind) as Hid.
  destruct (@approve_approvals db user id body now approval Hfind Hwho Hpending)
    as [Happ _].
  unfold pendingApprovals. rewrite Happ, filter_replaceDoc_out.
  - cbn. now rewrite Hid.
  - cbn. apply andb_false_r.
Qed.

(** C1: with the manager's and the finance approval of an expense both
    pending, the manager's approve marks the expense ['approved'] (approvedBy
    the manager, approvedAt now) although the finance approval is still
    pending: the handler counts the pending approvals after it has saved the
    acted one and still takes ['at most one'] for ['this was the last']. *)
Theorem approve_with_a_sibling_pending_approves_expense :
  let result :=
    ApprovalsRoute.approve Sample.manager 30 Sample.noComment Sample.noon
      Sample.twoSteps in
  pendingApprovals Sample.twoSteps 23 = [Sample.managerStep; Sample.financeStep] /\
  snd result = ok "Expense approved successfully" /\
  pendingApprovals (fst result) 23 = [Sample.financeStep] /\
  findById Expense._id (expenses (fst result)) 23
  = Some (Expense.make 23 1 100 500%Q "approved" (Some 2) None (Some 2)
            (Some Sample.noon)).
Proof. repeat split. Qed.

(** The rule the handler follows: when at most one approval of the expense
    is pending once the acted one is saved, the expense becomes ['approved']
    with [approvedBy] the caller and [approvedAt] the current time. *)
Theorem approve_with_at_most_one_pending_approves_expense
    (db : DB) (user : User.t) (id : ObjectId) (body : ApproveBody) (now : Date)
    (approval : Approval.t) (expense : Expense.t) :
  findById Approval._id (approvals db) id = Some approval ->
  Approval.approver approval = User._id user ->
  Approval.status approval = "pending" ->
  findById Expense._id (expenses db) (Approval.expense approval) = Some expense ->
  let db' := fst (ApprovalsRoute.approve user id body now db) in
  (List.length (pendingApprovals db' (Approval.expense approval)) <= 1)%nat ->
  exists expense',
    findById Expense._id (expenses db') (Approval.expense approval)
      = Some expense' /\
    Expense.status expense' = "approved" /\
    Expense.approvedBy expense' = Some (User._id user) /\
    Expense.approvedAt expense' = Some now.
Proof.
  intros Hfind Hwho Hpending Hexp db'.
  pose proof (@findById_key _ _ _ _ _ Hexp) as Heid.
  destruct (@approve_approvals db user id body now approval Hfind Hwho Hpending)
    as [Happ _].
  unfold pendingApprovals. fold db' in Happ. rewrite Happ. intros Hfew.
  apply Nat.leb_le in Hfew.
  assert (Hrun : db'
    = mkDB (replaceDoc Approval._id (approvedApproval body now approval)
              (approvals db))
        (replaceDoc Expense._id
           (ExpenseModel.setApproved (User._id user) now
              (ExpenseModel.setStatus "approved" expense))
           (expenses db))
        (users db) (companies db)).
  { unfold db'. run_handler. rewrite Hfind, Hwho, N.eqb_refl, Hpending. cbn.
    rewrite Hexp. cbn. rewrite Heid.
    fold (approvedApproval body now approval). rewrite Hfew. reflexivity. }
  rewrite Hrun. cbn. eexists. split.
  - apply findById_replaceDoc_at with (d0 := expense); [exact Heid|exact Hexp].
  - repeat split.
Qed.

(** The last pending approval of an expense is approved. *)
Lemma approve_with_at_most_one_pending_approves_expense_witness :
  exists expense',
    findById Expense._id
      (expenses (fst (ApprovalsRoute.approve Sample.manager 30 Sample.noComment
                        Sample.noon Sample.oneStep))) 23
      = Some expense' /\
    Expense.status expense' = "approved" /\
    Expense.approvedBy expense' = Some 2 /\
    Expense.approvedAt expense' = Some Sample.noon.
Proof.
  apply (@approve_with_at_most_one_pending_approves_expense Sample.oneStep
           Sample.manager 30 Sample.noComment Sample.noon Sample.managerStep
           Sample.claim eq_refl eq_refl eq_refl eq_refl).
  vm_compute. lia.
Defined.

(** *** The next approver *)

Lemma leastPriority_fold (l : list Approval.t) (m0 : Approval.t) :
  exists m,
    fold_left (fun acc a =>
                 match acc with
                 | None => Some a
                 | Some m =>
                   if (Approval.priority a <? Approval.priority m)%Z
                   then Some a else Some m
                 end) l (Some m0) = Some m /\
    (m = m0 \/ In m l) /\
    (Approval.priority m <= Approval.priority m0)%Z /\
    (forall x, In x l -> (Approval.priority m <= Approval.priority x)%Z).
Proof.
  revert m0. induction l as [|a l IH]; intros m0; simpl.
  - exists m0. split; [reflexivity|]. split; [now left|]. split; [lia|].
    intros x [].
  - destruct (Approval.priority a <? Approval.priority m0)%Z eqn:E.
    + apply Z.ltb_lt in E. destruct (IH a) as (m & Hm & Hin & Hle & Hall).
      exists m. split; [exact Hm|]. split; [|split].
      * right. destruct Hin as [->|Hin]; auto.
      * lia.
      * intros x [<-|Hx]; auto.
    + apply Z.ltb_ge in E. destruct (IH m0) as (m & Hm & Hin & Hle & Hall).
      exists m. split; [exact Hm|]. split; [|split].
      * destruct Hin as [->|Hin]; auto.
      * lia.
      * intros x [<-|Hx]; auto. lia.
Qed.

(** On a query with results, [sort({ priority: 1 })] and [findOne] give a
    result of least priority. *)
Lemma leastPriority_spec (l : list Approval.t) (a : Approval.t) :
  In a l ->
  exists m, ApprovalModel.leastPriority l = Some m /\ In m l /\
            forall x, In x l -> (Approval.priority m <= Approval.priority x)%Z.
Proof.
  unfold ApprovalModel.leastPriority. destruct l as [|b l]; [intros []|].
  intros _. simpl.
  destruct (@leastPriority_fold l b) as (m & Hm & Hin & Hle & Hall).
  exists m. split; [exact Hm|]. split.
  - destruct Hin as [->|Hin]; [now left|now right].
  - intros x [<-|Hx]; auto.
Qed.

(** C5: when an approve succeeds and more than one Approval of the expense
    is still pending afterwards, then, if one of them has a priority above
    the acted one's, the one of least such priority is promoted: the
    Expense's [currentApprover] is its approver, and the Expense's status
    is ['pending_finance'] when its role is ['finance'],
    ['pending_director'] when its role is ['director'], and stays as it
    was for any other role; and if none has, the Expense is saved as it
    was. *)
Theorem approve_promotes_next_priority
    (db : DB) (user : User.t) (id : ObjectId) (body : ApproveBody) (now : Date)
    (approval : Approval.t) (expense : Expense.t) :
  findById Approval._id (approvals db) id = Some approval ->
  Approval.approver approval = User._id user ->
  Approval.status approval = "pending" ->
  findById Expense._id (expenses db) (Approval.expense approval) = Some expense ->
  let db' := fst (ApprovalsRoute.approve user id body now db) in
  let stillPending := pendingApprovals db' (Approval.expense approval) in
  (1 < List.length stillPending)%nat ->
  ((exists a, In a stillPending /\
              (Approval.priority approval < Approval.priority a)%Z) ->
   exists next expense',
     In next stillPending /\
     (Approval.priority approval < Approval.priority next)%Z /\
     (forall a, In a stillPending ->
                (Approval.priority approval < Approval.priority a)%Z ->
                (Approval.priority next <= Approval.priority a)%Z) /\
     findById Expense._id (expenses db') (Approval.expense approval)
       = Some expense' /\
     Expense.currentApprover expense' = Some (Approval.approver next) /\
     (Approval.role next = "finance" ->
        Expense.status expense' = "pending_finance") /\
     (Approval.role next = "director" ->
        Expense.status expense' = "pending_director") /\
     (Approval.role next <> "finance" -> Approval.role next <> "director" ->
        Expense.status expense' = Expense.status expense)) /\
  ((forall a, In a stillPending ->
              (Approval.priority a <= Approval.priority approval)%Z) ->
   findById Expense._id (expenses db') (Approval.expense approval)
     = Some expense).
Proof.
  intros Hfind Hwho Hpending Hexp db' stillPending.
  pose proof (@findById_key _ _ _ _ _ Hfind) as Hid.
  pose proof (@findById_key _ _ _ _ _ Hexp) as Heid.
  destruct (@approve_approvals db user id body now approval Hfind Hwho Hpending)
    as [Happ _].
  set (l1 := replaceDoc Approval._id (approvedApproval body now approval)
               (approvals db)) in *.
  set (pend := fun a : Approval.t =>
         N.eqb (Approval.expense a) (Approval.expense approval)
         && String.eqb (Approval.status a) "pending").
  assert (Hstill : stillPending = filter pend l1).
  { unfold stillPending, pendingApprovals, db'. now rewrite Happ. }
  clearbody stillPending. subst stillPending. intros Hmany.
  (* the store [approve] leaves, by what its query for the next approval
     finds *)
  assert (Hrun : db'
    = mkDB l1
        (replaceDoc Expense._id
           (match ApprovalModel.leastPriority
                    (filter (fun a => pend a
                               && (Approval.priority approval
                                   <? Approval.priority a)%Z) l1) with
            | Some next =>
              let e := ExpenseModel.setCurrentApprover (Approval.approver next)
                         expense in
              if String.eqb (Approval.role next) "finance"
              then ExpenseModel.setStatus "pending_finance" e
              else if String.eqb (Approval.role next) "director"
              then ExpenseModel.setStatus "pending_director" e else e
            | None => expense
            end)
           (expenses db))
        (users db) (companies db)).
  { unfold db'. run_handler. rewrite Hfind, Hwho, N.eqb_refl, Hpending. cbn.
    rewrite Hexp. cbn. rewrite Heid.
    fold (approvedApproval body now approval). fold l1. fold pend.
    apply Nat.leb_gt in Hmany. rewrite Hmany. cbn.
    fold (approvedApproval body now approval). fold l1.
    change (fun a0 : Approval.t =>
        N.eqb (Approval.expense a0) (Approval.expense approval) &&
        String.eqb (Approval.status a0) "pending" &&
        (Approval.priority approval <? Approval.priority a0)%Z)
      with (fun a0 => pend a0
                      && (Approval.priority approval <? Approval.priority a0)%Z).
    destruct (ApprovalModel.leastPriority _); reflexivity. }
  split.
  - intros [a [Ha Hlt]].
    assert (Hin : In a (filter (fun a => pend a
        && (Approval.priority approval <? Approval.priority a)%Z) l1)).
    { rewrite filter_and. apply filter_In. split; [exact Ha|].
      now apply Z.ltb_lt. }
    destruct (@leastPriority_spec _ _ Hin) as (next & Hnext & Hnin & Hmin).
    rewrite Hnext in Hrun.
    rewrite filter_and in Hnin. apply filter_In in Hnin.
    destruct Hnin as [Hnin Hnlt]. apply Z.ltb_lt in Hnlt.
    exists next. eexists. split; [exact Hnin|]. split; [exact Hnlt|]. split.
    { intros x Hx Hxlt. apply Hmin. rewrite filter_and. apply filter_In.
      split; [exact Hx|]. now apply Z.ltb_lt. }
    rewrite Hrun. cbn. split.
    { apply findById_replaceDoc_at with (d0 := expense); [|exact Hexp].
      destruct (String.eqb (Approval.role next) "finance"); [exact Heid|].
      destruct (String.eqb (Approval.role next) "director"); exact Heid. }
    split.
    { destruct (String.eqb (Approval.role next) "finance"); [reflexivity|].
      destruct (String.eqb (Approval.role next) "director"); reflexivity. }
    split; [|split].
    + intros ->. reflexivity.
    + intros ->. reflexivity.
    + intros Hf Hd. apply String.eqb_neq in Hf, Hd. rewrite Hf, Hd.
      reflexivity.
  - intros Hlow. rewrite filter_and, (@filter_none _ _ (filter pend l1))
      in Hrun.
    + rewrite Hrun. cbn.
      apply findById_replaceDoc_at with (d0 := expense); [exact Heid|exact Hexp].
    + apply Forall_forall. intros a Ha. apply Z.ltb_ge. now apply Hlow.
Qed.

(** With the manager's, the finance and the director approval pending, the
    manager's approve hands the expense to finance. *)
Lemma approve_promotes_next_priority_witness :
  let db' := fst (ApprovalsRoute.approve Sample.manager 30 Sample.noComment
                    Sample.noon Sample.threeSteps) in
  pendingApprovals db' 23 = [Sample.financeStep; Sample.directorStep] /\
  exists next expense',
    In next (pendingApprovals db' 23) /\
    (1 < Approval.priority next)%Z /\
    (forall a, In a (pendingApprovals db' 23) ->
               (1 < Approval.priority a)%Z ->
               (Approval.priority next <= Approval.priority a)%Z) /\
    findById Expense._id (expenses db') 23 = Some expense' /\
    Expense.currentApprover expense' = Some (Approval.approver next) /\
    (Approval.role next = "finance" ->
       Expense.status expense' = "pending_finance") /\
    (Approval.role next = "director" ->
       Expense.status expense' = "pending_director") /\
    (Approval.role next <> "finance" -> Approval.role next <> "director" ->
       Expense.status expense' = Expense.status Sample.claim).
Proof.
  split; [reflexivity|].
  destruct (@approve_promotes_next_priority Sample.threeSteps Sample.manager 30
              Sample.noComment Sample.noon Sample.managerStep Sample.claim
              eq_refl eq_refl eq_refl eq_refl) as [Hsome _].
  - vm_compute. lia.
  - apply Hsome. exists Sample.financeStep. split; [left; reflexivity|].
    vm_compute. reflexivity.
Defined.

(** The claim as the spec words it fails on two counts.  When the
    director approves first, two approvals are pending afterwards and
    none has a priority above the director's 3: no approval is promoted,
    the expense still waits for the manager, whose priority is 1.  And
    when the approval promoted is a manager's, the status is not set by
    its role: an expense at ['pending_finance'] stays there with a manager
    as current approver. *)
Theorem approve_promotes_nothing_or_keeps_status :
  let first := ApprovalsRoute.approve Sample.director 32 Sample.noComment
                 Sample.noon Sample.threeSteps in
  let second := ApprovalsRoute.approve Sample.finance 40 Sample.noComment
                  Sample.noon Handover.store in
  snd first = ok "Expense approved successfully" /\
  pendingApprovals (fst first) 23 = [Sample.managerStep; Sample.financeStep] /\
  filter (fun a => (Approval.priority Sample.directorStep
                    <? Approval.priority a)%Z)
         (pendingApprovals (fst first) 23) = [] /\
  findById Expense._id (expenses (fst first)) 23 = Some Sample.claim /\
  Expense.currentApprover Sample.claim
    = Some (Approval.approver Sample.managerStep) /\
  snd second = ok "Expense approved successfully" /\
  pendingApprovals (fst second) 25
    = [Handover.managerStep; Handover.directorStep] /\
  Approval.role Handover.managerStep = "manager" /\
  findById Expense._id (expenses (fst second)) 25
    = Some (Expense.make 25 1 100 500%Q "pending_finance" (Some 2) None None
              None).
Proof. repeat split. Qed.

(** ** Refusals *)

(** C7: for approve, reject and escalate alike, a caller who is not the
    Approval's approver is refused with an authorization error (403
    ACCESS_DENIED), and an Approval that is not pending is refused
    (400 APPROVAL_NOT_PENDING when the caller is its approver, the
    authorization error otherwise); a refusal leaves the store as it was. *)
Theorem refusal_leaves_store_unchanged
    (db : DB) (user : User.t) (id : ObjectId) (now : Date)
    (approval : Approval.t)
    (ab : ApproveBody) (rb : RejectBody) (eb : EscalateBody) :
  findById Approval._id (approvals db) id = Some approval ->
  (Approval.approver approval <> User._id user ->
     ApprovalsRoute.approve user id ab now db
       = (db, refused 403 "ACCESS_DENIED") /\
     ApprovalsRoute.reject user id rb now db
       = (db, refused 403 "ACCESS_DENIED") /\
     ApprovalsRoute.escalate user id eb now db
       = (db, refused 403 "ACCESS_DENIED"))
  /\
  (Approval.status approval <> "pending" ->
     (Approval.approver approval = User._id user ->
        ApprovalsRoute.approve user id ab now db
          = (db, refused 400 "APPROVAL_NOT_PENDING") /\
        ApprovalsRoute.reject user id rb now db
          = (db, refused 400 "APPROVAL_NOT_PENDING") /\
        ApprovalsRoute.escalate user id eb now db
          = (db, refused 400 "APPROVAL_NOT_PENDING")) /\
     (exists http code,
        ApprovalsRoute.approve user id ab now db = (db, refused http code) /\
        ApprovalsRoute.reject user id rb now db = (db, refused http code) /\
        ApprovalsRoute.escalate user id eb now db = (db, refused http code))).
Proof.
  intros Hfind. split.
  - intros Hwho. apply N.eqb_neq in Hwho.
    run_handler. rewrite Hfind, Hwho. cbn. auto.
  - intros Hstatus. apply String.eqb_neq in Hstatus.
    assert (Hnp : Approval.approver approval = User._id user ->
        ApprovalsRoute.approve user id ab now db
          = (db, refused 400 "APPROVAL_NOT_PENDING") /\
        ApprovalsRoute.reject user id rb now db
          = (db, refused 400 "APPROVAL_NOT_PENDING") /\
        ApprovalsRoute.escalate user id eb now db
          = (db, refused 400 "APPROVAL_NOT_PENDING")).
    { intros Hwho. run_handler.
      rewrite Hfind, Hwho, N.eqb_refl, Hstatus. cbn. auto. }
    split; [exact Hnp|].
    destruct (N.eqb_spec (Approval.approver approval) (User._id user))
      as [Hwho|Hwho].
    + exists 400%nat, "APPROVAL_NOT_PENDING". exact (Hnp Hwho).
    + exists 403%nat, "ACCESS_DENIED". apply N.eqb_neq in Hwho.
      run_handler. rewrite Hfind, Hwho. cbn. auto.
Qed.

(** The finance officer acts on the manager's approval; the manager acts on
    an approval that is approved already. *)
Lemma refusal_leaves_store_unchanged_witness :
  (ApprovalsRoute.approve Sample.finance 30 Sample.noComment Sample.noon
     Sample.threeSteps = (Sample.threeSteps, refused 403 "ACCESS_DENIED") /\
   ApprovalsRoute.reject Sample.finance 30 Sample.outOfPolicy Sample.noon
     Sample.threeSteps = (Sample.threeSteps, refused 403 "ACCESS_DENIED") /\
   ApprovalsRoute.escalate Sample.finance 30 Sample.toAdmin Sample.noon
     Sample.threeSteps = (Sample.threeSteps, refused 403 "ACCESS_DENIED")) /\
  (ApprovalsRoute.approve Sample.manager 33 Sample.noComment Sample.noon
     Sample.settled = (Sample.settled, refused 400 "APPROVAL_NOT_PENDING") /\
   ApprovalsRoute.reject Sample.manager 33 Sample.outOfPolicy Sample.noon
     Sample.settled = (Sample.settled, refused 400 "APPROVAL_NOT_PENDING") /\
   ApprovalsRoute.escalate Sample.manager 33 Sample.toAdmin Sample.noon
     Sample.settled = (Sample.settled, refused 400 "APPROVAL_NOT_PENDING")).
Proof.
  split.
  - apply (proj1 (@refusal_leaves_store_unchanged Sample.threeSteps
                    Sample.finance 30 Sample.noon Sample.managerStep
                    Sample.noComment Sample.outOfPolicy Sample.toAdmin eq_refl)).
    vm_compute. discriminate.
  - apply (proj2 (@refusal_leaves_store_unchanged Sample.settled
                    Sample.manager 33 Sample.noon Sample.approvedStep
                    Sample.noComment Sample.outOfPolicy Sample.toAdmin eq_refl)).
    + vm_compute. discriminate.
    + reflexivity.
Defined.

(** ** Escalate *)

(** C6: escalating the manager's pending approval to a user of role
    ['admin'], a role the handler accepts, marks the approval ['escalated']
    and then fails: no Approval is created for the target, and the Expense
    keeps its current approver and status. *)
Theorem escalate_to_admin_creates_no_approval :
  let result :=
    ApprovalsRoute.escalate Sample.manager 30 Sample.toAdmin Sample.noon
      Sample.oneStep in
  mem_string (User.role Sample.admin) ApprovalsRoute.escalationRoles = true /\
  snd result = failed "Failed to escalate expense" /\
  approvals (fst result)
  = [Approval.make 30 23 2 "manager" "escalated" None None 1%Z
       (Some "needs an administrator") (Some 4) (Some Sample.noon) false] /\
  pendingApprovals (fst result) 23 = [] /\
  expenses (fst result) = [Sample.claim].
Proof. repeat split. Qed.

(** A new pending approval passes the validators exactly when its role is
    one of the schema's. *)
Lemma validate_new_pending (db : DB) (expense approver : ObjectId)
    (role : string) (priority : option Z) :
  ApprovalModel.validate
    (ApprovalModel.new db expense approver role (Some "pending") priority)
  = mem_string role Approval.roleEnum.
Proof. unfold ApprovalModel.validate. cbn. apply andb_true_r. Qed.

(** Escalating to a user of role ['manager'] or ['finance'] marks the
    approval ['escalated'] and creates exactly one Approval: for the target,
    ['pending'], with the target's role and the next priority; the Expense's
    current approver becomes the target and its status ['pending_manager'] or
    ['pending_finance'] by the target's role. *)
Theorem escalate_to_manager_or_finance
    (db : DB) (user : User.t) (id : ObjectId) (body : EscalateBody) (now : Date)
    (approval : Approval.t) (expense : Expense.t) (target : User.t) :
  findById Approval._id (approvals db) id = Some approval ->
  Approval.approver approval = User._id user ->
  Approval.status approval = "pending" ->
  findById User._id (users db) (escalate_escalatedTo body) = Some target ->
  User.role target = "manager" \/ User.role target = "finance" ->
  findById Expense._id (expenses db) (Approval.expense approval) = Some expense ->
  exists db' approval' newApproval expense',
    ApprovalsRoute.escalate user id body now db
      = (db', ok "Expense escalated successfully") /\
    approvals db'
      = (replaceDoc Approval._id approval' (approvals db) ++ [newApproval])%list /\
    approval' = escalatedApproval body now approval /\
    Approval.status approval' = "escalated" /\
    (forall a, In a (approvals db) -> Approval._id a <> Approval._id newApproval) /\
    Approval.expense newApproval = Approval.expense approval /\
    Approval.approver newApproval = escalate_escalatedTo body /\
    Approval.status newApproval = "pending" /\
    Approval.role newApproval = User.role target /\
    Approval.priority newApproval = (Approval.priority approval + 1)%Z /\
    findById Expense._id (expenses db') (Approval.expense approval)
      = Some expense' /\
    Expense.currentApprover expense' = Some (escalate_escalatedTo body) /\
    (User.role target = "manager" -> Expense.status expense' = "pending_manager") /\
    (User.role target = "finance" -> Expense.status expense' = "pending_finance").
Proof.
  intros Hfind Hwho Hpending Htarget Hrole Hexp.
  pose proof (@findById_key _ _ _ _ _ Hfind) as Hid.
  pose proof (@findById_key _ _ _ _ _ Hexp) as Heid.
  run_handler. rewrite Hfind, Hwho, N.eqb_refl, Hpending. cbn.
  rewrite Htarget.
  assert (Hok : mem_string (User.role target) ApprovalsRoute.escalationRoles = true
                /\ mem_string (User.role target) Approval.roleEnum = true).
  { destruct Hrole as [-> | ->]; split; reflexivity. }
  destruct Hok as [Hacc Henum]. rewrite Hacc. cbn.
  rewrite validate_new_pending, Henum. cbn. rewrite Hexp. cbn.
  do 4 eexists. split; [reflexivity|]. cbn.
  split; [reflexivity|]. split; [reflexivity|]. split; [reflexivity|].
  split.
  { intros a Ha. cbn.
    assert (Hin : In (if N.eqb (Approval._id a)
                           (Approval._id (escalatedApproval body now approval))
                      then escalatedApproval body now approval else a)
                     (replaceDoc Approval._id (escalatedApproval body now approval)
                        (approvals db))).
    { unfold replaceDoc. apply in_map_iff. exists a. split; [reflexivity|exact Ha]. }
    apply (freshId_above Approval._id) in Hin.
    destruct (N.eqb_spec (Approval._id a)
                (Approval._id (escalatedApproval body now approval))) as [E|E].
    - rewrite E. unfold escalatedApproval in Hin |- *. lia.
    - unfold escalatedApproval in Hin. lia. }
  do 5 (split; [reflexivity|]).
  split.
  { apply findById_replaceDoc_at with (d0 := expense); [|exact Hexp].
    destruct (String.eqb (User.role target) "finance"); [exact Heid|].
    destruct (String.eqb (User.role target) "manager"); exact Heid. }
  split.
  { destruct (String.eqb (User.role target) "finance"); [reflexivity|].
    destruct (String.eqb (User.role target) "manager"); reflexivity. }
  split; intros ->; reflexivity.
Qed.

(** The manager escalates to the finance officer. *)
Lemma escalate_to_manager_or_finance_witness :
  exists db' approval' newApproval expense',
    ApprovalsRoute.escalate Sample.manager 30 Sample.toFinance Sample.noon
      Sample.oneStep
      = (db', ok "Expense escalated successfully") /\
    approvals db' = [approval'; newApproval] /\
    Approval.status approval' = "escalated" /\
    newApproval
      = Approval.make 31 23 3 "finance" "pending" None None 2%Z None None None
          false /\
    findById Expense._id (expenses db') 23 = Some expense' /\
    Expense.currentApprover expense' = Some 3 /\
    Expense.status expense' = "pending_finance".
Proof.
  destruct (@escalate_to_manager_or_finance Sample.oneStep Sample.manager 30
              Sample.toFinance Sample.noon Sample.managerStep Sample.claim
              Sample.finance eq_refl eq_refl eq_refl eq_refl
              (or_intror eq_refl) eq_refl)
    as (db' & approval' & newApproval & expense' & H1 & H2 & H3 & H4 & H5 & H6
        & H7 & H8 & H9 & H10 & H11 & H12 & _ & H14).
  exists db', approval', newApproval, expense'.
  split; [exact H1|].
  assert (E : ApprovalsRoute.escalate Sample.manager 30 Sample.toFinance
                Sample.noon Sample.oneStep
              = (mkDB [escalatedApproval Sample.toFinance Sample.noon
                         Sample.managerStep;
                       Approval.make 31 23 3 "finance" "pending" None None 2%Z
                         None None None false]
                   [Expense.make 23 1 100 500%Q "pending_finance" (Some 3) None
                      None None]
                   Sample.staff [Sample.company],
                 ok "Expense escalated successfully")) by reflexivity.
  rewrite E in H1. injection H1 as <-. cbn in H2.
  subst approval'. injection H2 as <-.
  repeat split; try assumption. exact (H14 eq_refl).
Defined.

(** C8: escalating a pending Approval to a user whose role is ['admin']
    passes the handler's role check; the Approval is saved ['escalated'];
    the new Approval would carry the role ['admin'], which is not in the
    Approval schema's enumeration, so saving it throws: the request fails
    after the first write, no Approval is created, the Expense is not
    touched, and an expense whose only pending Approval this was has none
    left. *)
Theorem escalate_to_admin_fails_after_first_write
    (db : DB) (user : User.t) (id : ObjectId) (body : EscalateBody) (now : Date)
    (approval : Approval.t) (target : User.t) :
  findById Approval._id (approvals db) id = Some approval ->
  Approval.approver approval = User._id user ->
  Approval.status approval = "pending" ->
  findById User._id (users db) (escalate_escalatedTo body) = Some target ->
  User.role target = "admin" ->
  mem_string (User.role target) ApprovalsRoute.escalationRoles = true /\
  mem_string (User.role target) Approval.roleEnum = false /\
  exists db' approval',
    ApprovalsRoute.escalate user id body now db
      = (db', failed "Failed to escalate expense") /\
    approvals db' = replaceDoc Approval._id approval' (approvals db) /\
    findById Approval._id (approvals db') id = Some approval' /\
    Approval.status approval' = "escalated" /\
    List.length (approvals db') = List.length (approvals db) /\
    expenses db' = expenses db /\
    pendingApprovals db' (Approval.expense approval)
      = filter (fun a => negb (N.eqb (Approval._id a) id))
               (pendingApprovals db (Approval.expense approval)) /\
    (pendingApprovals db (Approval.expense approval) = [approval] ->
       pendingApprovals db' (Approval.expense approval) = []).
Proof.
  intros Hfind Hwho Hpending Htarget Hrole.
  pose proof (@findById_key _ _ _ _ _ Hfind) as Hid.
  rewrite Hrole. split; [reflexivity|]. split; [reflexivity|].
  run_handler. rewrite Hfind, Hwho, N.eqb_refl, Hpending. cbn.
  rewrite Htarget, Hrole.
  change (mem_string "admin" ApprovalsRoute.escalationRoles) with true. cbn.
  rewrite validate_new_pending.
  change (mem_string "admin" Approval.roleEnum) with false. cbn.
  fold (escalatedApproval body now approval).
  do 2 eexists. split; [reflexivity|]. cbn.
  split; [reflexivity|].
  split. { apply findById_replaceDoc_at with (d0 := approval); cbn; assumption. }
  split; [reflexivity|].
  split. { apply replaceDoc_length. }
  split; [reflexivity|].
  assert (Hp : forall l,
    filter (fun a => N.eqb (Approval.expense a) (Approval.expense approval)
                     && String.eqb (Approval.status a) "pending")
      (replaceDoc Approval._id (escalatedApproval body now approval) l)
    = filter (fun a => negb (N.eqb (Approval._id a) id))
        (filter (fun a => N.eqb (Approval.expense a) (Approval.expense approval)
                          && String.eqb (Approval.status a) "pending") l)).
  { intros l. rewrite filter_replaceDoc_out.
    - cbn. rewrite Hid. reflexivity.
    - cbn. apply andb_false_r. }
  unfold pendingApprovals. cbn. split; [apply Hp|].
  intros Hone. rewrite Hp, Hone. cbn. now rewrite Hid, N.eqb_refl.
Qed.

(** The manager escalates the only approval of an expense to the
    administrator. *)
Lemma escalate_to_admin_fails_after_first_write_witness :
  pendingApprovals Sample.oneStep 23 = [Sample.managerStep] /\
  exists db' approval',
    ApprovalsRoute.escalate Sample.manager 30 Sample.toAdmin Sample.noon
      Sample.oneStep
      = (db', failed "Failed to escalate expense") /\
    List.length (approvals db') = 1%nat /\
    findById Approval._id (approvals db') 30 = Some approval' /\
    Approval.status approval' = "escalated" /\
    expenses db' = expenses Sample.oneStep /\
    pendingApprovals db' 23 = [].
Proof.
  split; [reflexivity|].
  destruct (@escalate_to_admin_fails_after_first_write Sample.oneStep
              Sample.manager 30 Sample.toAdmin Sample.noon Sample.managerStep
              Sample.admin eq_refl eq_refl eq_refl eq_refl eq_refl)
    as (_ & _ & db' & approval' & H1 & H2 & H3 & H4 & H5 & H6 & H7 & H8).
  exists db', approval'.
  split; [exact H1|]. split; [exact H5|]. split; [exact H3|].
  split; [exact H4|]. split; [exact H6|]. exact (H8 eq_refl).
Defined.

(* ===================================================================== *)
(** * 17. Receipt parsing *)
(* ===================================================================== *)

Import Regex Ocr.

(** ** The matcher and the built-ins on sample strings *)

Example match_total :
  jsMatch totalPattern (units "TOTAL: $42.50") = Some (units "42.50") /\
  jsMatch totalPattern (units "Subtotal 12.") = Some (units "12.") /\
  jsMatch totalPattern (units "TOTAL due") = None.
Proof. repeat split; vm_compute; reflexivity. Qed.

(** The leftmost match wins, and a quantifier gives characters back. *)
Example match_backtracks :
  jsMatch (currencyPattern "USD") (units "1.2.3USD") = Some (units "2.3") /\
  jsMatch (currencyPattern "EUR") (units "12 eur") = Some (units "12") /\
  jsMatch dollarPattern (units "US$7.5x") = Some (units "7.5") /\
  jsMatch dollarPattern (units "$ 5") = None /\
  jsMatch dayFirstPattern (units "123/4/56") = Some (units "23/4/56").
Proof. repeat split; vm_compute; reflexivity. Qed.

(** The day-first pattern also matches inside a year-first date; the
    month-name pattern captures the month alone. *)
Example match_dates :
  jsMatch dayFirstPattern (units "2024-01-15") = Some (units "24-01-15") /\
  jsMatch yearFirstPattern (units "2024-1-5") = Some (units "2024-1-5") /\
  jsMatch dayFirstPattern (units "2024-1-5") = None /\
  jsMatch monthNamePattern (units "on jan 15, 2024") = Some (units "jan").
Proof. repeat split; vm_compute; reflexivity. Qed.

Example parseFloat_samples :
  parseFloat (units "42.50") = 42.5%float /\
  parseFloat (units "12.") = 12%float /\
  parseFloat (units "0.1") = 0.1%float /\
  parseFloat (units "007") = 7%float /\
  parseFloat (units "9007199254740993") = 9007199254740992%float /\
  is_nan (parseFloat []) = true.
Proof. repeat split; vm_compute; reflexivity. Qed.

Example lines_sample :
  lines (units "  a b " ++ newline ++ newline ++ units " " ++ newline
         ++ units "c")%list
  = [units "a b"; units "c"].
Proof. vm_compute. reflexivity. Qed.

(** ** The amount *)

Lemma firstHit_app (p : Regex.t) (pre post : list JsString) (line : JsString) (g : JsString) :
  Forall (fun l => jsMatch p l = None) pre ->
  jsMatch p line = Some g ->
  firstHit p (pre ++ line :: post)%list = Some g.
Proof.
  intros Hpre Hline. induction Hpre as [|l pre Hl _ IH]; simpl.
  - now rewrite Hline.
  - now rewrite Hl.
Qed.

(** A hit comes from a line the pattern matches, after lines it does
    not. *)
Lemma firstHit_inv (p : Regex.t) (ls : list JsString) (g : JsString) :
  firstHit p ls = Some g ->
  exists pre line post,
    ls = (pre ++ line :: post)%list /\
    Forall (fun l => jsMatch p l = None) pre /\
    jsMatch p line = Some g.
Proof.
  induction ls as [|l ls IH]; simpl; [discriminate|].
  destruct (jsMatch p l) as [g'|] eqn:E.
  - intros [= ->]. exists [], l, ls. repeat split; [constructor|exact E].
  - intros H. destruct (IH H) as (pre & line & post & -> & Hpre & Hline).
    exists (l :: pre), line, post. repeat split; [constructor; assumption|exact Hline].
Qed.

Lemma amountInLines_hit (p : Regex.t) (ls : list JsString) (a c : float) :
  amountInLines p ls a c =
  match firstHit p ls with
  | Some g => (parseFloat g, (c + 0.3)%float)
  | None => (a, c)
  end.
Proof.
  induction ls as [|line rest IH]; simpl; [reflexivity|].
  destruct (jsMatch p line); [reflexivity|exact IH].
Qed.

Lemma bumped_succ_r (n : nat) (x c : float) :
  bumped (S n) x c = bumped n x (c + x)%float.
Proof. unfold bumped. now rewrite Nat.iter_succ_r. Qed.

Lemma amountLoop_winner (before after : list Regex.t) (p : Regex.t)
    (ls : list JsString) (g : JsString) (a c : float) :
  (forall q, In q before ->
     match firstHit q ls with
     | Some h => (0 <? parseFloat h)%float = false
     | None => True
     end) ->
  (0 <? a)%float = false ->
  firstHit p ls = Some g ->
  (0 <? parseFloat g)%float = true ->
  amountLoop (before ++ p :: after)%list ls a c
  = (parseFloat g, bumped (S (List.length (filter (hasHit ls) before))) 0.3 c).
Proof.
  revert a c. induction before as [|q before IH]; intros a c Hbefore Ha Hp Hg.
  - simpl. rewrite amountInLines_hit, Hp, Hg. reflexivity.
  - cbn [app amountLoop]. rewrite amountInLines_hit.
    pose proof (Hbefore q (or_introl eq_refl)) as Hq.
    cbn [filter]. unfold hasHit at 1.
    destruct (firstHit q ls) as [h|].
    + rewrite Hq. rewrite IH; auto.
      * cbn [List.length]. now rewrite (bumped_succ_r (S _)).
      * intros q' Hq'. apply Hbefore. now right.
    + rewrite Ha. rewrite IH; auto.
      intros q' Hq'. apply Hbefore. now right.
Qed.

Lemma amountLoop_confidence (pats : list Regex.t) (ls : list JsString) (a c : float) :
  exists n, (n <= List.length pats)%nat /\
            snd (amountLoop pats ls a c) = bumped n 0.3 c.
Proof.
  revert a c. induction pats as [|p pats IH]; intros a c.
  - exists 0%nat. split; [reflexivity|reflexivity].
  - cbn [amountLoop]. rewrite amountInLines_hit.
    destruct (firstHit p ls) as [g|].
    + destruct (0 <? parseFloat g)%float.
      * exists 1%nat. split; [simpl; lia|reflexivity].
      * destruct (IH (parseFloat g) (c + 0.3)%float) as (n & Hn & E).
        exists (S n). split; [simpl; lia|]. now rewrite bumped_succ_r.
    + destruct (0 <? a)%float.
      * exists 0%nat. split; [simpl; lia|reflexivity].
      * destruct (IH a c) as (n & Hn & E). exists n. split; [simpl; lia|exact E].
Qed.

Section ConfidenceFacts.
Variable toUpperCase toLowerCase : JsString -> JsString.
Variable newDate : JsString -> option Z.

Lemma dateInLines_confidence (p : Regex.t) (ls : list JsString)
    (d : option (option Z)) (c : float) :
  (exists t, dateInLines newDate p ls d c = (Some (Some t), (c + 0.2)%float)) \/
  (exists d', dateInLines newDate p ls d c = (d', c) /\ (d' = None -> d = None)).
Proof.
  revert d. induction ls as [|line rest IH]; intros d; simpl.
  - right. exists d. auto.
  - destruct (jsMatch p line) as [g|].
    + destruct (newDate g) as [t|].
      * left. now exists t.
      * destruct (IH (Some None)) as [H|(d' & H & Hd)]; [now left|].
        right. exists d'. split; [exact H|]. intros E. specialize (Hd E). discriminate.
    + apply IH.
Qed.

Lemma dateLoop_confidence (pats : list Regex.t) (ls : list JsString) (c : float) :
  snd (dateLoop newDate pats ls None c) = c \/
  snd (dateLoop newDate pats ls None c) = (c + 0.2)%float.
Proof.
  induction pats as [|p pats IH]; cbn [dateLoop]; [now left|].
  destruct (dateInLines_confidence p ls None c) as [(t & E)|(d' & E & Hd)];
    rewrite E.
  - now right.
  - destruct d' as [x|]; [now left|exact IH].
Qed.

Lemma categorize_confidence (m : JsString) (c : float) :
  snd (categorize m c) = c \/ snd (categorize m c) = (c + 0.1)%float.
Proof.
  unfold categorize.
  destruct (find _ categoryKeywords) as [[cat kws]|]; [now right|now left].
Qed.

Lemma parse_confidence (text : JsString) :
  exists n c2 c3,
    (n <= 6)%nat /\
    (c2 = bumped n 0.3 0 \/ c2 = (bumped n 0.3 0 + 0.2)%float) /\
    (c3 = c2 \/ c3 = (c2 + 0.1)%float) /\
    confidence (parseReceiptText toUpperCase toLowerCase newDate text) = min1 c3.
Proof.
  unfold parseReceiptText.
  destruct (amountLoop_confidence amountPatterns (lines text) 0 0)
    as (n & Hn & E1).
  destruct (amountLoop amountPatterns (lines text) 0 0) as [a c1].
  cbn [snd] in E1.
  pose proof (dateLoop_confidence datePatterns (lines text) c1) as E2.
  destruct (dateLoop newDate datePatterns (lines text) None c1) as [d c2].
  cbn [snd] in E2.
  pose proof (categorize_confidence
                (toLowerCase (extractMerchant toUpperCase (lines text))) c2) as E3.
  destruct (categorize _ c2) as [cat c3]. cbn [snd] in E3. cbn [confidence].
  exists n, c2, c3. split; [exact Hn|]. rewrite <- E1. auto.
Qed.

Lemma confidence_capped (text : JsString) :
  (confidence (parseReceiptText toUpperCase toLowerCase newDate text) <=? 1)%float = true.
Proof.
  destruct (parse_confidence text) as (n & c2 & c3 & Hn & H2 & H3 & ->).
  do 7 (destruct n as [|n]; [destruct H2 as [-> | ->]; destruct H3 as [-> | ->];
        vm_compute; reflexivity|]).
  lia.
Qed.
End ConfidenceFacts.

Section TotalLine.
Variable toUpperCase toLowerCase : JsString -> JsString.
Variable newDate : JsString -> option Z.

Lemma total_line_amount (text : JsString) (pre post : list JsString) :
  lines text = (pre ++ units "TOTAL: $42.50" :: post)%list ->
  Forall (fun l => jsMatch totalPattern l = None) pre ->
  let r := parseReceiptText toUpperCase toLowerCase newDate text in
  amount r = 42.5%float /\
  (0.3 <=? confidence r)%float = true /\
  (confidence r <=? 1)%float = true.
Proof.
  intros Hlines Hpre r.
  assert (Hhit : firstHit totalPattern (lines text) = Some (units "42.50")).
  { rewrite Hlines. apply firstHit_app; [exact Hpre|]. vm_compute. reflexivity. }
  assert (Hloop : amountLoop amountPatterns (lines text) 0 0
                  = (42.5%float, (0 + 0.3)%float)).
  { change amountPatterns with ([] ++ totalPattern :: tl amountPatterns)%list.
    rewrite (@amountLoop_winner [] (tl amountPatterns) totalPattern (lines text)
               (units "42.50") 0 0).
    - vm_compute. reflexivity.
    - intros q [].
    - vm_compute. reflexivity.
    - exact Hhit.
    - vm_compute. reflexivity. }
  split; [|split].
  - unfold r, parseReceiptText. rewrite Hloop.
    destruct (dateLoop _ _ _ _ _) as [d c2].
    destruct (categorize _ _) as [cat c3]. reflexivity.
  - unfold r, parseReceiptText. rewrite Hloop.
    pose proof (dateLoop_confidence newDate datePatterns (lines text) (0 + 0.3)) as E2.
    destruct (dateLoop _ _ _ _ _) as [d c2]. cbn [snd] in E2.
    pose proof (categorize_confidence
      (toLowerCase (extractMerchant toUpperCase (lines text))) c2) as E3.
    destruct (categorize _ c2) as [cat c3]. cbn [snd] in E3. cbn [confidence].
    destruct E2 as [-> | ->]; destruct E3 as [-> | ->]; vm_compute; reflexivity.
  - apply confidence_capped.
Qed.
End TotalLine.

(** C9 (amended): the amount patterns are tried in the fixed order TOTAL,
    AMOUNT, $, USD, EUR, GBP, a pattern's hit being the first non-empty line
    it matches; the amount is the value of the first hit that is greater
    than zero (hits of value 0 are passed over), and when that hit is the
    first hit of all it adds exactly 0.3 to the confidence accumulator.  For
    a text with the line "TOTAL: $42.50" and no earlier line matching the
    TOTAL pattern, the amount is 42.5 and the confidence at least 0.3.  The
    final confidence never exceeds 1.0. *)
Theorem amount_is_first_positive_hit :
  (forall (ls : list JsString) (before after : list Regex.t) (p : Regex.t)
          (g : JsString),
      amountPatterns = (before ++ p :: after)%list ->
      (forall q, In q before ->
         match firstHit q ls with
         | Some h => (0 <? parseFloat h)%float = false
         | None => True
         end) ->
      firstHit p ls = Some g ->
      (0 <? parseFloat g)%float = true ->
      fst (amountLoop amountPatterns ls 0 0) = parseFloat g) /\
  (forall (ls : list JsString) (before after : list Regex.t) (p : Regex.t)
          (g : JsString),
      amountPatterns = (before ++ p :: after)%list ->
      (forall q, In q before -> firstHit q ls = None) ->
      firstHit p ls = Some g ->
      (0 <? parseFloat g)%float = true ->
      amountLoop amountPatterns ls 0 0 = (parseFloat g, (0 + 0.3)%float)) /\
  (forall (toUpperCase toLowerCase : JsString -> JsString)
          (newDate : JsString -> option Z)
          (text : JsString) (pre post : list JsString),
      lines text = (pre ++ units "TOTAL: $42.50" :: post)%list ->
      Forall (fun l => jsMatch totalPattern l = None) pre ->
      let r := parseReceiptText toUpperCase toLowerCase newDate text in
      amount r = 42.5%float /\
      (0.3 <=? confidence r)%float = true /\
      (confidence r <=? 1)%float = true) /\
  (forall (toUpperCase toLowerCase : JsString -> JsString)
          (newDate : JsString -> option Z) (text : JsString),
      (confidence (parseReceiptText toUpperCase toLowerCase newDate text)
         <=? 1)%float = true).
Proof.
  split; [|split; [|split]].
  - intros ls before after p g -> Hbefore Hp Hg.
    rewrite (@amountLoop_winner before after p ls g 0 0); auto.
  - intros ls before after p g -> Hbefore Hp Hg.
    rewrite (@amountLoop_winner before after p ls g 0 0); auto.
    + f_equal.
      assert (E : filter (hasHit ls) before = []).
      { clear -Hbefore. induction before as [|q before IH]; [reflexivity|].
        cbn [filter]. unfold hasHit at 1.
        rewrite (Hbefore q (or_introl eq_refl)). apply IH.
        intros q' Hq'. apply Hbefore. now right. }
      rewrite E. reflexivity.
    + intros q Hq. now rewrite (Hbefore q Hq).
  - intros up low nd text pre post. apply total_line_amount.
  - intros up low nd text. apply confidence_capped.
Qed.

(** C9 as stated fails on the lines "TOTAL: 0" and "AMOUNT: 5": the first
    hit is the 0 of the TOTAL pattern, yet the amount returned is 5, the hit
    of the AMOUNT pattern, and the accumulator has received 0.3 twice. *)
Lemma first_hit_of_zero_does_not_win :
  firstHit totalPattern (lines Sample.zeroThenFive) = Some (units "0") /\
  parseFloat (units "0") = 0%float /\
  amountLoop amountPatterns (lines Sample.zeroThenFive) 0 0
    = (5%float, (0 + 0.3 + 0.3)%float) /\
  (0 + 0.3 + 0.3 =? 0 + 0.3)%float = false /\
  forall (toUpperCase toLowerCase : JsString -> JsString)
         (newDate : JsString -> option Z),
    amount (parseReceiptText toUpperCase toLowerCase newDate Sample.zeroThenFive)
    = 5%float.
Proof.
  split; [vm_compute; reflexivity|]. split; [vm_compute; reflexivity|].
  assert (E : amountLoop amountPatterns (lines Sample.zeroThenFive) 0 0
              = (5%float, (0 + 0.3 + 0.3)%float)) by (vm_compute; reflexivity).
  split; [exact E|]. split; [vm_compute; reflexivity|].
  intros up low nd. unfold parseReceiptText. rewrite E.
  destruct (dateLoop _ _ _ _ _) as [d c2].
  destruct (categorize _ _) as [cat c3]. reflexivity.
Qed.

(** C10: on the text "Jan 15, 2024" the only date pattern that matches is
    the month-name one, and its group 1 is "Jan": the date returned is
    [new Date("Jan")], whatever the day and the year of the receipt (the
    same as for "Jan 16, 2025"), and 0.2 is added only if the engine takes
    "Jan" alone for a valid date. *)
Theorem month_name_date_keeps_month_only
    (toUpperCase toLowerCase : JsString -> JsString)
    (newDate : JsString -> option Z) :
  let r := parseReceiptText toUpperCase toLowerCase newDate Sample.jan15 in
  jsMatch dayFirstPattern Sample.jan15 = None /\
  jsMatch yearFirstPattern Sample.jan15 = None /\
  jsMatch monthNamePattern Sample.jan15 = Some (units "Jan") /\
  date r = Some (newDate (units "Jan")) /\
  date (parseReceiptText toUpperCase toLowerCase newDate Sample.jan16) = date r /\
  confidence r
  = min1 (snd (categorize (toLowerCase Sample.jan15)
                 (match newDate (units "Jan") with
                  | Some _ => (0 + 0.2)%float
                  | None => 0%float
                  end))).
Proof.
  assert (E : forall text, lines text = [text] ->
     jsMatch dayFirstPattern text = None ->
     jsMatch yearFirstPattern text = None ->
     jsMatch monthNamePattern text = Some (units "Jan") ->
     forall c, dateLoop newDate datePatterns (lines text) None c
     = (Some (newDate (units "Jan")),
        match newDate (units "Jan") with Some _ => (c + 0.2)%float | None => c end)).
  { intros text -> H1 H2 H3 c. unfold datePatterns. cbn [dateLoop dateInLines].
    rewrite H1, H2, H3. destruct (newDate (units "Jan")); reflexivity. }
  assert (L15 : lines Sample.jan15 = [Sample.jan15]) by (vm_compute; reflexivity).
  assert (L16 : lines Sample.jan16 = [Sample.jan16]) by (vm_compute; reflexivity).
  assert (A15 : amountLoop amountPatterns (lines Sample.jan15) 0 0 = (0%float, 0%float))
    by (vm_compute; reflexivity).
  assert (A16 : amountLoop amountPatterns (lines Sample.jan16) 0 0 = (0%float, 0%float))
    by (vm_compute; reflexivity).
  cbv zeta.
  split; [vm_compute; reflexivity|]. split; [vm_compute; reflexivity|].
  split; [vm_compute; reflexivity|].
  unfold parseReceiptText. rewrite A15, A16.
  rewrite (E Sample.jan15), (E Sample.jan16);
    try (vm_compute; reflexivity).
  assert (M : extractMerchant toUpperCase (lines Sample.jan15) = Sample.jan15).
  { rewrite L15. unfold extractMerchant. cbn [find].
    destruct (existsb _ businessKeywords); reflexivity. }
  rewrite M.
  destruct (categorize (toLowerCase Sample.jan15) _) as [cat c3] eqn:C1.
  destruct (categorize (toLowerCase (extractMerchant toUpperCase (lines Sample.jan16))) _) as [cat' c3'].
  cbn [date confidence]. split; [reflexivity|]. split; [reflexivity|].
  reflexivity.
Qed.

(** A first hit of value 0 is passed over, and a TOTAL line wins. *)
Lemma amount_is_first_positive_hit_witness :
  fst (amountLoop amountPatterns (lines Sample.zeroThenFive) 0 0)
    = parseFloat (units "5") /\
  (let r := parseReceiptText Sample.asciiUpper Sample.asciiLower Sample.noDate
              Sample.totalReceipt in
   amount r = 42.5%float /\
   (0.3 <=? confidence r)%float = true /\
   (confidence r <=? 1)%float = true).
Proof.
  destruct amount_is_first_positive_hit as (H1 & _ & H3 & _).
  split.
  - apply (H1 (lines Sample.zeroThenFive) [totalPattern]
              (tl (tl amountPatterns)) amountPattern (units "5")).
    + reflexivity.
    + intros q [<-|[]]. vm_compute. reflexivity.
    + vm_compute. reflexivity.
    + vm_compute. reflexivity.
  - apply (H3 Sample.asciiUpper Sample.asciiLower Sample.noDate
              Sample.totalReceipt [units "ACME STORE"] []).
    + vm_compute. reflexivity.
    + constructor; [vm_compute; reflexivity|constructor].
Defined.

(** ** Dates *)

Section DateFacts.
Variable toUpperCase toLowerCase : JsString -> JsString.
Variable newDate : JsString -> option Z.

Lemma dateInLines_no_hit (p : Regex.t) (ls : list JsString)
    (d : option (option Z)) (c : float) :
  firstHit p ls = None -> dateInLines newDate p ls d c = (d, c).
Proof.
  induction ls as [|line rest IH]; simpl; [reflexivity|].
  destruct (jsMatch p line); [discriminate|exact IH].
Qed.

Lemma dateInLines_first_valid (p : Regex.t) (ls : list JsString)
    (g : JsString) (t : Z) (d : option (option Z)) (c : float) :
  firstHit p ls = Some g -> newDate g = Some t ->
  dateInLines newDate p ls d c = (Some (Some t), (c + 0.2)%float).
Proof.
  intros Hhit Hvalid. revert d. induction ls as [|line rest IH]; intros d;
    simpl in *; [discriminate|].
  destruct (jsMatch p line) as [g'|].
  - injection Hhit as ->. now rewrite Hvalid.
  - now apply IH.
Qed.

(** When the first match of the date patterns, taken in their order over
    the lines in theirs, has a group 1 that [new Date] takes for a valid
    date, that date is the result's date and 0.2 is added to the
    accumulator. *)
Theorem date_is_first_match_when_valid
    (text : JsString) (before after : list Regex.t) (p : Regex.t)
    (g : JsString) (t : Z) :
  datePatterns = (before ++ p :: after)%list ->
  (forall q, In q before -> firstHit q (lines text) = None) ->
  firstHit p (lines text) = Some g ->
  newDate g = Some t ->
  let r := parseReceiptText toUpperCase toLowerCase newDate text in
  date r = Some (Some t) /\
  confidence r
  = min1 (snd (categorize
                 (toLowerCase (extractMerchant toUpperCase (lines text)))
                 (snd (amountLoop amountPatterns (lines text) 0 0) + 0.2)%float)).
Proof.
  intros Hpats Hbefore Hhit Hvalid.
  assert (Hloop : forall c,
    dateLoop newDate datePatterns (lines text) None c
    = (Some (Some t), (c + 0.2)%float)).
  { intros c. rewrite Hpats. clear Hpats.
    induction before as [|q before IH]; cbn [app dateLoop].
    - now rewrite (@dateInLines_first_valid p (lines text) g t None c Hhit Hvalid).
    - rewrite dateInLines_no_hit by (apply Hbefore; now left).
      apply IH. intros q' Hq'. apply Hbefore. now right. }
  unfold parseReceiptText.
  destruct (amountLoop amountPatterns (lines text) 0 0) as [a c1].
  rewrite Hloop. cbn [snd].
  destruct (categorize _ _) as [cat c3]. split; reflexivity.
Qed.
End DateFacts.

(** A day-first date is read whole, by an engine that takes "01/15/2024"
    for the 15th of January 2024. *)
Lemma date_is_first_match_when_valid_witness :
  let newDate := fun s : JsString =>
    if list_eq_dec N.eq_dec s (units "01/15/2024")
    then Some 1705276800000%Z else None in
  let r := parseReceiptText Sample.asciiUpper Sample.asciiLower newDate
             (units "Date: 01/15/2024") in
  date r = Some (Some 1705276800000%Z) /\
  confidence r = (0 + 0.2)%float.
Proof.
  cbv zeta.
  destruct (@date_is_first_match_when_valid Sample.asciiUpper Sample.asciiLower
              (fun s : JsString =>
                 if list_eq_dec N.eq_dec s (units "01/15/2024")
                 then Some 1705276800000%Z else None)
              (units "Date: 01/15/2024") [] (tl datePatterns) dayFirstPattern
              (units "01/15/2024") 1705276800000%Z) as [H1 H2].
  - reflexivity.
  - intros q [].
  - vm_compute. reflexivity.
  - vm_compute. reflexivity.
  - split; [exact H1|]. rewrite H2. vm_compute. reflexivity.
Defined.

(* ===================================================================== *)
(** * 18. The workflow as a whole *)
(* ===================================================================== *)

(** Case analysis on whatever the goal matches on or tests. *)
Ltac split_cases :=
  repeat match goal with
         | |- context [match ?x with _ => _ end] =>
           lazymatch x with
           | context [match _ with _ => _ end] => fail
           | _ => destruct x eqn:?
           end
         end.

(** ** What an answer tells about the request *)

Lemma approve_ok_inv
    (db : DB) (user : User.t) (id : ObjectId) (body : ApproveBody) (now : Date)
    (message : string) :
  snd (ApprovalsRoute.approve user id body now db) = ok message ->
  exists approval,
    findById Approval._id (approvals db) id = Some approval /\
    Approval.approver approval = User._id user /\
    Approval.status approval = "pending".
Proof.
  run_handler.
  destruct (findById Approval._id (approvals db) id) as [approval|];
    [|discriminate].
  destruct (N.eqb_spec (Approval.approver approval) (User._id user)) as [Hwho|];
    [|discriminate].
  destruct (String.eqb_spec (Approval.status approval) "pending") as [Hp|];
    [|discriminate].
  intros _. now exists approval.
Qed.

(** [approve] either refuses and returns the store as it was, or acts on a
    pending approval of the caller's and answers ok. *)
Lemma approve_cases
    (db : DB) (user : User.t) (id : ObjectId) (body : ApproveBody) (now : Date) :
  (exists http code,
     ApprovalsRoute.approve user id body now db = (db, refused http code)) \/
  (exists approval,
     findById Approval._id (approvals db) id = Some approval /\
     Approval.approver approval = User._id user /\
     Approval.status approval = "pending" /\
     snd (ApprovalsRoute.approve user id body now db)
     = ok "Expense approved successfully").
Proof.
  destruct (findById Approval._id (approvals db) id) as [approval|] eqn:Hfind.
  - destruct (N.eqb_spec (Approval.approver approval) (User._id user))
      as [Hwho|Hwho].
    + destruct (String.eqb_spec (Approval.status approval) "pending")
        as [Hp|Hp].
      * right. exists approval. repeat split; auto.
        apply (@approve_approvals db user id body now approval Hfind Hwho Hp).
      * left. exists 400%nat, "APPROVAL_NOT_PENDING".
        apply String.eqb_neq in Hp. run_handler.
        now rewrite Hfind, Hwho, N.eqb_refl, Hp.
    + left. exists 403%nat, "ACCESS_DENIED". apply N.eqb_neq in Hwho.
      run_handler. now rewrite Hfind, Hwho.
  - left. exists 404%nat, "APPROVAL_NOT_FOUND". run_handler. now rewrite Hfind.
Qed.

(** The store [reject] leaves, once the caller is the approver of a pending
    approval. *)
Lemma reject_run
    (db : DB) (user : User.t) (id : ObjectId) (body : RejectBody) (now : Date)
    (approval : Approval.t) :
  findById Approval._id (approvals db) id = Some approval ->
  Approval.approver approval = User._id user ->
  Approval.status approval = "pending" ->
  ApprovalsRoute.reject user id body now db
  = (mkDB (replaceDoc Approval._id
             (ApprovalModel.setActionDate now
                (ApprovalModel.setComments (Some (reject_comments body))
                   (ApprovalModel.setStatus "rejected" approval)))
             (approvals db))
          (match findById Expense._id (expenses db) (Approval.expense approval) with
           | Some expense =>
             replaceDoc Expense._id
               (ExpenseModel.setRejectionReason
                  (orString (reject_rejectionReason body) (reject_comments body))
                  (ExpenseModel.setStatus "rejected" expense))
               (expenses db)
           | None => expenses db
           end)
          (users db) (companies db),
     ok "Expense rejected successfully").
Proof.
  intros Hfind Hwho Hpending.
  run_handler. rewrite Hfind, Hwho, N.eqb_refl, Hpending. cbn.
  destruct (findById Expense._id (expenses db) (Approval.expense approval));
    reflexivity.
Qed.

Lemma reject_cases
    (db : DB) (user : User.t) (id : ObjectId) (body : RejectBody) (now : Date) :
  (exists http code,
     ApprovalsRoute.reject user id body now db = (db, refused http code)) \/
  (exists approval,
     findById Approval._id (approvals db) id = Some approval /\
     Approval.approver approval = User._id user /\
     Approval.status approval = "pending" /\
     snd (ApprovalsRoute.reject user id body now db)
     = ok "Expense rejected successfully").
Proof.
  destruct (findById Approval._id (approvals db) id) as [approval|] eqn:Hfind.
  - destruct (N.eqb_spec (Approval.approver approval) (User._id user))
      as [Hwho|Hwho].
    + destruct (String.eqb_spec (Approval.status approval) "pending")
        as [Hp|Hp].
      * right. exists approval. repeat split; auto.
        now rewrite (@reject_run db user id body now approval Hfind Hwho Hp).
      * left. exists 400%nat, "APPROVAL_NOT_PENDING".
        apply String.eqb_neq in Hp. run_handler.
        now rewrite Hfind, Hwho, N.eqb_refl, Hp.
    + left. exists 403%nat, "ACCESS_DENIED". apply N.eqb_neq in Hwho.
      run_handler. now rewrite Hfind, Hwho.
  - left. exists 404%nat, "APPROVAL_NOT_FOUND". run_handler. now rewrite Hfind.
Qed.

(** The store [escalate] leaves, once the caller is the approver of a
    pending approval and the user escalated to has one of the roles the
    handler accepts: the approval is saved ['escalated'], and the rest is
    done if the new approval passes the schema. *)
Lemma escalate_run
    (db : DB) (user : User.t) (id : ObjectId) (body : EscalateBody) (now : Date)
    (approval : Approval.t) (target : User.t) :
  findById Approval._id (approvals db) id = Some approval ->
  Approval.approver approval = User._id user ->
  Approval.status approval = "pending" ->
  findById User._id (users db) (escalate_escalatedTo body) = Some target ->
  mem_string (User.role target) ApprovalsRoute.escalationRoles = true ->
  let saved := replaceDoc Approval._id (escalatedApproval body now approval)
                 (approvals db) in
  let newApproval :=
    Approval.make (freshId Approval._id saved) (Approval.expense approval)
      (escalate_escalatedTo body) (User.role target) "pending" None None
      (Approval.priority approval + 1)%Z None None None false in
  ApprovalsRoute.escalate user id body now db
  = if mem_string (User.role target) Approval.roleEnum
    then
      (mkDB (saved ++ [newApproval])%list
         (match findById Expense._id (expenses db) (Approval.expense approval) with
          | Some expense =>
            replaceDoc Expense._id
              (let e := ExpenseModel.setCurrentApprover
                          (escalate_escalatedTo body) expense in
               if String.eqb (User.role target) "finance"
               then ExpenseModel.setStatus "pending_finance" e
               else if String.eqb (User.role target) "manager"
               then ExpenseModel.setStatus "pending_manager" e else e)
              (expenses db)
          | None => expenses db
          end)
         (users db) (companies db),
       ok "Expense escalated successfully")
    else
      (mkDB saved (expenses db) (users db) (companies db),
       failed "Failed to escalate expense").
Proof.
  intros Hfind Hwho Hpending Htarget Hrole saved newApproval.
  run_handler. rewrite Hfind, Hwho, N.eqb_refl, Hpending. cbn.
  rewrite Htarget, Hrole. cbn. rewrite validate_new_pending.
  fold (escalatedApproval body now approval). fold saved.
  destruct (mem_string (User.role target) Approval.roleEnum); cbn;
    [|reflexivity].
  destruct (findById Expense._id (expenses db) (Approval.expense approval));
    reflexivity.
Qed.

Lemma escalate_cases
    (db : DB) (user : User.t) (id : ObjectId) (body : EscalateBody) (now : Date) :
  (exists http code,
     ApprovalsRoute.escalate user id body now db = (db, refused http code)) \/
  (exists approval target,
     findById Approval._id (approvals db) id = Some approval /\
     Approval.approver approval = User._id user /\
     Approval.status approval = "pending" /\
     findById User._id (users db) (escalate_escalatedTo body) = Some target /\
     mem_string (User.role target) ApprovalsRoute.escalationRoles = true).
Proof.
  destruct (findById Approval._id (approvals db) id) as [approval|] eqn:Hfind.
  - destruct (N.eqb_spec (Approval.approver approval) (User._id user))
      as [Hwho|Hwho].
    + destruct (String.eqb_spec (Approval.status approval) "pending")
        as [Hp|Hp].
      * destruct (findById User._id (users db) (escalate_escalatedTo body))
          as [target|] eqn:Htarget.
        -- destruct (mem_string (User.role target) ApprovalsRoute.escalationRoles)
             eqn:Hrole.
           ++ right. exists approval, target. repeat split; auto.
           ++ left. exists 400%nat, "INVALID_ESCALATION_USER". run_handler.
              rewrite Hfind, Hwho, N.eqb_refl, Hp. cbn.
              now rewrite Htarget, Hrole.
        -- left. exists 400%nat, "INVALID_ESCALATION_USER". run_handler.
           rewrite Hfind, Hwho, N.eqb_refl, Hp. cbn. now rewrite Htarget.
      * left. exists 400%nat, "APPROVAL_NOT_PENDING".
        apply String.eqb_neq in Hp. run_handler.
        now rewrite Hfind, Hwho, N.eqb_refl, Hp.
    + left. exists 403%nat, "ACCESS_DENIED". apply N.eqb_neq in Hwho.
      run_handler. now rewrite Hfind, Hwho.
  - left. exists 404%nat, "APPROVAL_NOT_FOUND". run_handler. now rewrite Hfind.
Qed.

(** The store [approve] leaves, once the caller is the approver of a
    pending approval. *)
Lemma approve_run
    (db : DB) (user : User.t) (id : ObjectId) (body : ApproveBody) (now : Date)
    (approval : Approval.t) :
  findById Approval._id (approvals db) id = Some approval ->
  Approval.approver approval = User._id user ->
  Approval.status approval = "pending" ->
  let saved := replaceDoc Approval._id (approvedApproval body now approval)
                 (approvals db) in
  let pending := fun a : Approval.t =>
    N.eqb (Approval.expense a) (Approval.expense approval)
    && String.eqb (Approval.status a) "pending" in
  ApprovalsRoute.approve user id body now db
  = (mkDB saved
       (match findById Expense._id (expenses db) (Approval.expense approval) with
        | Some expense =>
          replaceDoc Expense._id
            (if (List.length (filter pending saved) <=? 1)%nat
             then ExpenseModel.setApproved (User._id user) now
                    (ExpenseModel.setStatus "approved" expense)
             else
               match ApprovalModel.leastPriority
                       (filter (fun a => pending a
                                  && (Approval.priority approval
                                      <? Approval.priority a)%Z) saved) with
               | Some next =>
                 let e := ExpenseModel.setCurrentApprover
                            (Approval.approver next) expense in
                 if String.eqb (Approval.role next) "finance"
                 then ExpenseModel.setStatus "pending_finance" e
                 else if String.eqb (Approval.role next) "director"
                 then ExpenseModel.setStatus "pending_director" e else e
               | None => expense
               end)
            (expenses db)
        | None => expenses db
        end)
       (users db) (companies db),
     ok "Expense approved successfully").
Proof.
  intros Hfind Hwho Hpending saved pending.
  run_handler. rewrite Hfind, Hwho, N.eqb_refl, Hpending. cbn.
  fold (approvedApproval body now approval). fold saved.
  destruct (findById Expense._id (expenses db) (Approval.expense approval))
    as [expense|] eqn:Hexp; cbn; [|reflexivity].
  rewrite (@findById_key _ _ _ _ _ Hexp). fold pending.
  destruct (List.length (filter pending saved) <=? 1)%nat; cbn; [reflexivity|].
  fold (approvedApproval body now approval). fold saved.
  change (fun a : Approval.t =>
        N.eqb (Approval.expense a) (Approval.expense approval) &&
        String.eqb (Approval.status a) "pending" &&
        (Approval.priority approval <? Approval.priority a)%Z)
    with (fun a => pending a
                   && (Approval.priority approval <? Approval.priority a)%Z).
  destruct (ApprovalModel.leastPriority _); reflexivity.
Qed.

(** The store [submit] leaves, once the caller may submit the draft. *)
Lemma submit_run
    (db : DB) (user : User.t) (id : ObjectId) (now : Date) (expense : Expense.t) :
  findById Expense._id (expenses db) id = Some expense ->
  User._id user = Expense.employee expense \/ User.role user = "admin" ->
  Expense.status expense = "draft" ->
  let toManager := ExpenseModel.setStatus "pending_manager" expense in
  let toFinance := ExpenseModel.setStatus "pending_finance" toManager in
  let created := fun approver role =>
    Approval.make (freshId Approval._id (approvals db)) (Expense._id expense)
      approver role "pending" None None 1%Z None None None false in
  let answer := fun approvals' expense' =>
    (mkDB approvals' (replaceDoc Expense._id expense' (expenses db))
       (users db) (companies db),
     ok "Expense submitted successfully") in
  ExpensesRoute.submit user id now db
  = match findById Company._id (companies db) (Expense.company expense) with
    | None => (db, failed "Failed to submit expense")
    | Some company =>
      if Qle_bool (Expense.amount expense)
           (ExpensesRoute.limitOrDefault (Company.autoApprovalLimit company))
      then answer (approvals db)
             (ExpenseModel.setApproved (User._id user) now
                (ExpenseModel.setStatus "approved" expense))
      else
        match findById User._id (users db) (Expense.employee expense) with
        | None => (db, failed "Failed to submit expense")
        | Some employee =>
          match User.manager employee with
          | Some manager =>
            answer (approvals db ++ [created manager "manager"])%list
              (ExpenseModel.setCurrentApprover manager toManager)
          | None =>
            match filter (fun u => N.eqb (User.company u) (Expense.company expense)
                                   && String.eqb (User.role u) "finance"
                                   && User.isActive u) (users db) with
            | first :: _ =>
              answer (approvals db ++ [created (User._id first) "finance"])%list
                (ExpenseModel.setCurrentApprover (User._id first) toFinance)
            | [] => answer (approvals db) toFinance
            end
          end
        end
    end.
Proof.
  intros Hfind Hwho Hdraft toManager toFinance created answer.
  run_handler. rewrite Hfind, (submit_authorized _ _ Hwho), Hdraft. cbn.
  destruct (findById Company._id (companies db) (Expense.company expense))
    as [company|]; cbn; [|reflexivity].
  destruct (Qle_bool _ _); cbn; [reflexivity|].
  destruct (findById User._id (users db) (Expense.employee expense))
    as [employee|]; cbn; [|reflexivity].
  destruct (User.manager employee) as [manager|]; cbn.
  - rewrite validate_new_pending.
    change (mem_string "manager" Approval.roleEnum) with true. reflexivity.
  - destruct (filter _ (users db)) as [|first rest]; cbn; [reflexivity|].
    rewrite validate_new_pending.
    change (mem_string "finance" Approval.roleEnum) with true. reflexivity.
Qed.

Lemma submit_cases
    (db : DB) (user : User.t) (id : ObjectId) (now : Date) :
  (exists http code,
     ExpensesRoute.submit user id now db = (db, refused http code)) \/
  (exists expense,
     findById Expense._id (expenses db) id = Some expense /\
     (User._id user = Expense.employee expense \/ User.role user = "admin") /\
     Expense.status expense = "draft").
Proof.
  destruct (findById Expense._id (expenses db) id) as [expense|] eqn:Hfind.
  - destruct (negb (String.eqb (User.role user) "admin")
              && negb (N.eqb (User._id user) (Expense.employee expense)))
      eqn:Hwho.
    + left. exists 403%nat, "ACCESS_DENIED". run_handler.
      now rewrite Hfind, Hwho.
    + destruct (String.eqb_spec (Expense.status expense) "draft") as [Hd|Hd].
      * right. exists expense. repeat split; auto.
        apply andb_false_iff in Hwho. destruct Hwho as [H|H];
          apply negb_false_iff in H.
        -- right. now apply String.eqb_eq.
        -- left. now apply N.eqb_eq.
      * left. exists 400%nat, "INVALID_STATUS". apply String.eqb_neq in Hd.
        run_handler. now rewrite Hfind, Hwho, Hd.
  - left. exists 404%nat, "EXPENSE_NOT_FOUND". run_handler. now rewrite Hfind.
Qed.

(** ** Refusals *)



(** ** Submitting without a manager *)

(** When the amount is above the limit [submit] compares with and the
    employee has no manager, the expense goes to ['pending_finance'] and to
    the first active finance user of the expense's company, in the order
    of the collection: that user becomes the current approver and gets the
    one Approval that is created, with role ['finance'], status ['pending']
    and priority 1. *)
Theorem submit_without_manager_goes_to_first_finance_user
    (db : DB) (user : User.t) (id : ObjectId) (now : Date)
    (expense : Expense.t) (company : Company.t) (employee : User.t)
    (before after : list User.t) (first : User.t) :
  findById Expense._id (expenses db) id = Some expense ->
  Expense.status expense = "draft" ->
  User._id user = Expense.employee expense \/ User.role user = "admin" ->
  findById Company._id (companies db) (Expense.company expense) = Some company ->
  Qle_bool (Expense.amount expense)
    (ExpensesRoute.limitOrDefault (Company.autoApprovalLimit company)) = false ->
  findById User._id (users db) (Expense.employee expense) = Some employee ->
  User.manager employee = None ->
  users db = (before ++ first :: after)%list ->
  Forall (fun u => activeFinanceOf (Expense.company expense) u = false) before ->
  activeFinanceOf (Expense.company expense) first = true ->
  exists db' expense' approval,
    ExpensesRoute.submit user id now db
      = (db', ok "Expense submitted successfully") /\
    approvals db' = (approvals db ++ [approval])%list /\
    (forall a, In a (approvals db) -> Approval._id a <> Approval._id approval) /\
    Approval.expense approval = id /\
    Approval.approver approval = User._id first /\
    Approval.role approval = "finance" /\
    Approval.status approval = "pending" /\
    Approval.priority approval = 1%Z /\
    findById Expense._id (expenses db') id = Some expense' /\
    Expense.status expense' = "pending_finance" /\
    Expense.currentApprover expense' = Some (User._id first).
Proof.
  intros Hfind Hdraft Hwho Hco Hgt Hemp Hman Husers Hbefore Hfirst.
  pose proof (@findById_key _ _ _ _ _ Hfind) as Hid.
  rewrite (@submit_run db user id now expense Hfind Hwho Hdraft). cbv zeta.
  rewrite Hco, Hgt, Hemp, Hman.
  change (fun u : User.t =>
            N.eqb (User.company u) (Expense.company expense)
            && String.eqb (User.role u) "finance" && User.isActive u)
    with (activeFinanceOf (Expense.company expense)).
  rewrite Husers, (@filter_first _ _ before after first Hbefore Hfirst).
  do 3 eexists. split; [reflexivity|]. cbn. split; [reflexivity|].
  split.
  { intros a Ha. apply (freshId_above Approval._id) in Ha. cbn. lia. }
  split; [exact Hid|].
  do 4 (split; [reflexivity|]).
  split.
  { apply findById_replaceDoc_at with (d0 := expense); [exact Hid|exact Hfind]. }
  split; reflexivity.
Qed.

(** A finance user who has left comes first in the collection; the
    expense goes to the next one. *)
Lemma submit_without_manager_goes_to_first_finance_user_witness :
  exists db' expense' approval,
    ExpensesRoute.submit Office.freelancer 24 Sample.noon Office.desk
      = (db', ok "Expense submitted successfully") /\
    approvals db' = (approvals Office.desk ++ [approval])%list /\
    (forall a, In a (approvals Office.desk) ->
               Approval._id a <> Approval._id approval) /\
    Approval.expense approval = 24 /\
    Approval.approver approval = 3 /\
    Approval.role approval = "finance" /\
    Approval.status approval = "pending" /\
    Approval.priority approval = 1%Z /\
    findById Expense._id (expenses db') 24 = Some expense' /\
    Expense.status expense' = "pending_finance" /\
    Expense.currentApprover expense' = Some 3.
Proof.
  apply (@submit_without_manager_goes_to_first_finance_user Office.desk
           Office.freelancer 24 Sample.noon Office.invoice Sample.company
           Office.freelancer [Office.freelancer; Office.formerFinance]
           [Office.secondFinance] Sample.finance).
  - reflexivity.
  - reflexivity.
  - left. reflexivity.
  - reflexivity.
  - vm_compute. reflexivity.
  - reflexivity.
  - reflexivity.
  - reflexivity.
  - repeat constructor.
  - reflexivity.
Defined.

(* ===================================================================== *)
(** * 19. Invariants of the store *)
(* ===================================================================== *)

#[local] Arguments deleteDoc : simpl never.

Section MoreCollectionFacts.
Variable T : Type.
Variable key : T -> ObjectId.

Lemma findById_In (l : list T) (id : ObjectId) (d : T) :
  findById key l id = Some d -> In d l.
Proof. unfold findById. intros H. now apply find_some in H. Qed.

Lemma findById_None (l : list T) (id : ObjectId) :
  findById key l id = None <-> ~ In id (map key l).
Proof.
  unfold findById. induction l as [|x l IH]; simpl.
  - split; [intros _ []|reflexivity].
  - destruct (N.eqb_spec (key x) id) as [E|E].
    + split; [discriminate|]. intros H. exfalso. apply H. now left.
    + rewrite IH. split.
      * intros H [H'|H']; [exact (E H')|exact (H H')].
      * intros H H'. apply H. now right.
Qed.

Lemma findById_stored (l : list T) (x : T) :
  In x l -> exists d, findById key l (key x) = Some d.
Proof.
  intros Hx. destruct (findById key l (key x)) as [d|] eqn:E; [now exists d|].
  apply findById_None in E. exfalso. apply E. now apply in_map.
Qed.

(** With unique [_id]s a stored document is the one its [_id] finds. *)
Lemma findById_unique (l : list T) (x : T) :
  NoDup (map key l) -> In x l -> findById key l (key x) = Some x.
Proof.
  unfold findById. induction l as [|y l IH]; simpl; [intros _ []|].
  intros Hnd [->|Hx].
  - now rewrite N.eqb_refl.
  - inversion Hnd as [|? ? Hy Hl]; subst.
    destruct (N.eqb_spec (key y) (key x)) as [E|E].
    + exfalso. apply Hy. rewrite E. now apply in_map.
    + now apply IH.
Qed.

Lemma replaceDoc_keys (d : T) (l : list T) :
  map key (replaceDoc key d l) = map key l.
Proof.
  unfold replaceDoc. rewrite map_map. apply map_ext. intros x.
  destruct (N.eqb_spec (key x) (key d)) as [E|E]; [now rewrite E|reflexivity].
Qed.

Lemma replaceDoc_absent (d : T) (l : list T) :
  ~ In (key d) (map key l) -> replaceDoc key d l = l.
Proof.
  unfold replaceDoc. induction l as [|x l IH]; simpl; [reflexivity|].
  intros H. destruct (N.eqb_spec (key x) (key d)) as [E|E].
  - exfalso. apply H. now left.
  - f_equal. apply IH. intros H'. apply H. now right.
Qed.

Lemma replaceDoc_In (x d : T) (l : list T) :
  In x (replaceDoc key d l) -> x = d \/ In x l.
Proof.
  unfold replaceDoc. rewrite in_map_iff. intros (y & Hy & Hin).
  destruct (N.eqb (key y) (key d)); [left|right]; congruence.
Qed.

(** Saving a loaded document changes the stored one of that [_id], and by
    a step [R] if the saved document is an [R]-step from the loaded one. *)
Lemma replaceDoc_Forall2 (R : T -> T -> Prop) (l : list T) (d d0 : T) :
  (forall x, R x x) ->
  NoDup (map key l) ->
  findById key l (key d) = Some d0 ->
  R d0 d ->
  Forall2 R l (replaceDoc key d l).
Proof.
  intros Hrefl Hnd Hfind Hstep.
  assert (Hsame : forall l', Forall2 R l' l').
  { induction l' as [|x l' IH]; constructor; auto. }
  revert Hnd Hfind. unfold findById, replaceDoc.
  induction l as [|x l IH]; simpl; [constructor|].
  intros Hnd Hfind. inversion Hnd as [|? ? Hx Hl]; subst.
  destruct (N.eqb_spec (key x) (key d)) as [E|E].
  - injection Hfind as ->. constructor; [exact Hstep|].
    change (map (fun x => if N.eqb (key x) (key d) then d else x) l)
      with (replaceDoc key d l).
    rewrite replaceDoc_absent; [apply Hsame|]. now rewrite <- E.
  - constructor; [apply Hrefl|]. now apply IH.
Qed.

Lemma findById_replaceDoc_other (l : list T) (d : T) (id : ObjectId) :
  key d <> id ->
  findById key (replaceDoc key d l) id = findById key l id.
Proof.
  intros Hd. unfold findById, replaceDoc.
  induction l as [|x l IH]; simpl; [reflexivity|].
  destruct (N.eqb_spec (key x) (key d)) as [E|E].
  - destruct (N.eqb_spec (key d) id) as [E'|_]; [contradiction|].
    destruct (N.eqb_spec (key x) id) as [E'|_]; [congruence|]. exact IH.
  - destruct (N.eqb (key x) id); [reflexivity|exact IH].
Qed.


Lemma freshId_absent (l : list T) :
  ~ In (freshId key l) (map key l).
Proof.
  intros H. apply in_map_iff in H. destruct H as (x & Hx & Hin).
  apply (freshId_above key) in Hin. lia.
Qed.

Lemma freshId_NoDup (l : list T) (n : T) :
  NoDup (map key l) -> key n = freshId key l -> NoDup (map key (l ++ [n])).
Proof.
  intros Hnd Hn. rewrite map_app. simpl.
  apply NoDup_app; [exact Hnd|repeat constructor; intros []|].
  intros y Hy [<-|[]]. rewrite Hn in Hy. exact (freshId_absent _ Hy).
Qed.

Lemma deleteDoc_In_inv (id : ObjectId) (l : list T) (x : T) :
  In x (deleteDoc key id l) -> In x l.
Proof.
  unfold deleteDoc. induction l as [|y l IH]; simpl; [intros []|].
  destruct (N.eqb (key y) id); [now right|].
  intros [->|H]; [now left|right; now apply IH].
Qed.

Lemma deleteDoc_In (id : ObjectId) (l : list T) (x : T) :
  In x l -> key x <> id -> In x (deleteDoc key id l).
Proof.
  unfold deleteDoc. induction l as [|y l IH]; simpl; [intros []|].
  intros [->|H] Hx.
  - destruct (N.eqb_spec (key x) id); [contradiction|now left].
  - destruct (N.eqb (key y) id); [exact H|right; now apply IH].
Qed.

Lemma deleteDoc_NoDup (id : ObjectId) (l : list T) :
  NoDup (map key l) -> NoDup (map key (deleteDoc key id l)).
Proof.
  unfold deleteDoc. induction l as [|y l IH]; simpl; [constructor|].
  intros Hnd. inversion Hnd as [|? ? Hy Hl]; subst.
  destruct (N.eqb (key y) id); [exact Hl|]. simpl. constructor.
  - intros H. apply Hy. apply in_map_iff in H. destruct H as (x & Hx & Hin).
    rewrite <- Hx. apply in_map. exact (deleteDoc_In_inv _ _ _ Hin).
  - now apply IH.
Qed.

Lemma deleteDoc_Forall (P : T -> Prop) (id : ObjectId) (l : list T) :
  Forall P l -> Forall P (deleteDoc key id l).
Proof.
  rewrite !Forall_forall. intros H x Hx. apply H.
  exact (deleteDoc_In_inv _ _ _ Hx).
Qed.

Lemma findById_deleteDoc_other (id id' : ObjectId) (l : list T) :
  id' <> id ->
  findById key (deleteDoc key id l) id' = findById key l id'.
Proof.
  intros Hid. unfold findById, deleteDoc.
  induction l as [|y l IH]; simpl; [reflexivity|].
  destruct (N.eqb_spec (key y) id) as [E|E].
  - destruct (N.eqb_spec (key y) id') as [E'|_]; [congruence|reflexivity].
  - simpl. destruct (N.eqb (key y) id'); [reflexivity|exact IH].
Qed.

(** With unique [_id]s the deleted document is gone. *)
Lemma findById_deleteDoc (id : ObjectId) (l : list T) :
  NoDup (map key l) -> findById key (deleteDoc key id l) id = None.
Proof.
  intros Hnd. apply findById_None. unfold deleteDoc.
  induction l as [|y l IH]; simpl; [intros []|].
  inversion Hnd as [|? ? Hy Hl]; subst.
  destruct (N.eqb_spec (key y) id) as [E|E].
  - now rewrite <- E.
  - simpl. intros [H|H]; [exact (E H)|exact (IH Hl H)].
Qed.
End MoreCollectionFacts.

#[local] Hint Unfold ExpensesEdit.update ExpensesEdit.updateHandler
  ExpensesEdit.delete ExpensesEdit.deleteHandler
  ExpensesEdit.findByIdAndUpdate ExpensesEdit.findByIdAndDelete : handler.

(** ** What [update] and [delete] do *)

Lemma update_cases
    (db : DB) (user : User.t) (id : ObjectId) (body : UpdateBody) :
  (exists http code,
     ExpensesEdit.update user id body db = (db, refused http code)) \/
  (exists expense,
     findById Expense._id (expenses db) id = Some expense /\
     (User._id user = Expense.employee expense \/ User.role user = "admin") /\
     (Expense.status expense = "draft" \/ Expense.status expense = "rejected") /\
     ExpensesEdit.update user id body db
     = (match update_amount body with
        | Some a =>
          mkDB (approvals db)
               (replaceDoc Expense._id (ExpensesEdit.setAmount a expense)
                  (expenses db))
               (users db) (companies db)
        | None => db
        end, ok "Expense updated successfully")).
Proof.
  destruct (findById Expense._id (expenses db) id) as [expense|] eqn:Hfind.
  - destruct (negb (String.eqb (User.role user) "admin")
              && negb (N.eqb (User._id user) (Expense.employee expense)))
      eqn:Hwho.
    + left. exists 403%nat, "ACCESS_DENIED". run_handler.
      now rewrite Hfind, Hwho.
    + destruct (negb (String.eqb (Expense.status expense) "draft")
                && negb (String.eqb (Expense.status expense) "rejected"))
        eqn:Hst.
      * left. exists 400%nat, "EXPENSE_LOCKED". run_handler.
        now rewrite Hfind, Hwho, Hst.
      * right. exists expense. split; [reflexivity|]. split.
        { apply andb_false_iff in Hwho. destruct Hwho as [H|H];
            apply negb_false_iff in H.
          - right. now apply String.eqb_eq.
          - left. now apply N.eqb_eq. }
        split.
        { apply andb_false_iff in Hst. destruct Hst as [H|H];
            apply negb_false_iff in H; apply String.eqb_eq in H; auto. }
        run_handler. rewrite Hfind, Hwho, Hst. cbn. rewrite Hfind.
        destruct (update_amount body); reflexivity.
  - left. exists 404%nat, "EXPENSE_NOT_FOUND". run_handler. now rewrite Hfind.
Qed.

Lemma delete_cases (db : DB) (user : User.t) (id : ObjectId) :
  (exists http code,
     ExpensesEdit.delete user id db = (db, refused http code)) \/
  (exists expense,
     findById Expense._id (expenses db) id = Some expense /\
     (User._id user = Expense.employee expense \/ User.role user = "admin") /\
     Expense.status expense = "draft" /\
     ExpensesEdit.delete user id db
     = (mkDB (approvals db) (deleteDoc Expense._id id (expenses db))
             (users db) (companies db),
        ok "Expense deleted successfully")).
Proof.
  destruct (findById Expense._id (expenses db) id) as [expense|] eqn:Hfind.
  - destruct (negb (String.eqb (User.role user) "admin")
              && negb (N.eqb (User._id user) (Expense.employee expense)))
      eqn:Hwho.
    + left. exists 403%nat, "ACCESS_DENIED". run_handler.
      now rewrite Hfind, Hwho.
    + destruct (String.eqb_spec (Expense.status expense) "draft") as [Hd|Hd].
      * right. exists expense. split; [reflexivity|]. split.
        { apply andb_false_iff in Hwho. destruct Hwho as [H|H];
            apply negb_false_iff in H.
          - right. now apply String.eqb_eq.
          - left. now apply N.eqb_eq. }
        split; [exact Hd|].
        run_handler. rewrite Hfind, Hwho, Hd. reflexivity.
      * left. exists 400%nat, "EXPENSE_LOCKED". apply String.eqb_neq in Hd.
        run_handler. now rewrite Hfind, Hwho, Hd.
  - left. exists 404%nat, "EXPENSE_NOT_FOUND". run_handler. now rewrite Hfind.
Qed.

(** ** The effect of a request *)

Lemma Forall2_same {T} (R : T -> T -> Prop) :
  (forall x, R x x) -> forall l, Forall2 R l l.
Proof. intros H l. induction l; constructor; auto. Qed.

Section Effects.
Variable user : User.t.

Lemma expenseStep_refl (request : Request) (db : DB) (e : Expense.t) :
  expenseStep user request db e e.
Proof. now left. Qed.

Lemma approvalStep_refl (request : Request) (a : Approval.t) :
  approvalStep user request a a.
Proof. now left. Qed.

Lemma approvalStep_id (request : Request) (a a' : Approval.t) :
  approvalStep user request a a' -> Approval._id a' = Approval._id a.
Proof. intros [->|H]; [reflexivity|apply H]. Qed.

Lemma approvalStep_expense (request : Request) (a a' : Approval.t) :
  approvalStep user request a a' -> Approval.expense a' = Approval.expense a.
Proof. intros [->|H]; [reflexivity|apply H]. Qed.

Lemma expenseStep_id (request : Request) (db : DB) (e e' : Expense.t) :
  expenseStep user request db e e' -> Expense._id e' = Expense._id e.
Proof. intros [->|H]; [reflexivity|apply H]. Qed.

Lemma effect_none (request : Request) (db : DB) : effect user request db db.
Proof.
  split; [reflexivity|]. split; [reflexivity|]. split.
  - left. apply Forall2_same. intros e. apply expenseStep_refl.
  - exists (approvals db), []. rewrite app_nil_r. split; [reflexivity|].
    split; [|now left]. apply Forall2_same. intros a. apply approvalStep_refl.
Qed.

Lemma expenses_write (request : Request) (db : DB) (e e' : Expense.t) :
  NoDup (map Expense._id (expenses db)) ->
  findById Expense._id (expenses db) (Expense._id e) = Some e ->
  expenseStep user request db e e' ->
  Forall2 (expenseStep user request db) (expenses db)
    (replaceDoc Expense._id e' (expenses db)).
Proof.
  intros Hnd Hfind Hstep.
  apply replaceDoc_Forall2 with (d0 := e);
    [intros x; apply expenseStep_refl|exact Hnd| |exact Hstep].
  rewrite (expenseStep_id Hstep). exact Hfind.
Qed.

Lemma approvals_write (request : Request) (l : list Approval.t)
    (a a' : Approval.t) :
  NoDup (map Approval._id l) ->
  findById Approval._id l (Approval._id a) = Some a ->
  approvalStep user request a a' ->
  Forall2 (approvalStep user request) l (replaceDoc Approval._id a' l).
Proof.
  intros Hnd Hfind Hstep.
  apply replaceDoc_Forall2 with (d0 := a);
    [intros x; apply approvalStep_refl|exact Hnd| |exact Hstep].
  rewrite (approvalStep_id Hstep). exact Hfind.
Qed.
End Effects.

Lemma freshId_keys {T} (key : T -> ObjectId) (l l' : list T) :
  map key l = map key l' -> freshId key l = freshId key l'.
Proof.
  assert (H : forall l, freshId key l
                        = N.succ (fold_right N.max 0 (map key l))).
  { intros l0. unfold freshId. f_equal.
    induction l0 as [|x l0 IH]; simpl; [reflexivity|now rewrite IH]. }
  intros E. now rewrite !H, E.
Qed.

Lemma replaceDoc_stored {T} (key : T -> ObjectId) (l : list T) (d d0 : T) :
  findById key l (key d) = Some d0 -> In d (replaceDoc key d l).
Proof.
  intros H. apply (@findById_replaceDoc _ key) in H.
  exact (@findById_In _ _ _ _ _ H).
Qed.

(** In a well-formed store the expense of a stored approval is found, and
    is no draft. *)
Lemma referred_expense (db : DB) (a : Approval.t) :
  wellFormed db -> In a (approvals db) ->
  exists e,
    findById Expense._id (expenses db) (Approval.expense a) = Some e /\
    Expense.status e <> "draft".
Proof.
  intros (_ & Hnd & _ & _ & Href) Ha.
  rewrite Forall_forall in Href. destruct (Href a Ha) as (e & He & Hid & Hst).
  exists e. split; [|exact Hst]. rewrite <- Hid.
  now apply findById_unique.
Qed.

(** The approval a handler has created, for the expense [e] it is served
    on and has saved. *)
Ltac exists_new e :=
  eexists _, e, _; split; [reflexivity|]; cbn;
  split; [exact I|];
  split; [reflexivity|]; split; [reflexivity|]; split; [reflexivity|];
  split; [eassumption|]; split; [eassumption|];
  split; [eapply replaceDoc_stored; eassumption|];
  split; [reflexivity|]; cbn; discriminate.

Lemma submit_effect (db : DB) (user : User.t) (id : ObjectId) (now : Date) :
  wellFormed db ->
  effect user (Submit id now) db (fst (ExpensesRoute.submit user id now db)).
Proof.
  intros (_ & Hnd & _).
  destruct (submit_cases db user id now)
    as [(http & code & E)|(e & Hfind & Hwho & Hdraft)].
  { rewrite E. apply effect_none. }
  rewrite (@submit_run db user id now e Hfind Hwho Hdraft). cbv zeta.
  pose proof (@findById_key _ _ _ _ _ Hfind) as Hid. rewrite <- Hid in Hfind.
  assert (Htouch : touches user (Submit id now) db e).
  { cbn. auto. }
  assert (Hwrite : forall e',
            Expense._id e' = Expense._id e ->
            Expense.employee e' = Expense.employee e ->
            Expense.company e' = Expense.company e ->
            Expense.amount e' = Expense.amount e ->
            mem_string (Expense.status e')
              ["approved"; "rejected"; "pending_manager"; "pending_finance";
               "pending_director"] = true ->
            Forall2 (expenseStep user (Submit id now) db) (expenses db)
              (replaceDoc Expense._id e' (expenses db))).
  { intros e' H1 H2 H3 H4 H5. apply expenses_write with (e := e); auto.
    right. cbn. auto 10. }
  assert (Hkept : Forall2 (approvalStep user (Submit id now)) (approvals db)
                    (approvals db)).
  { apply Forall2_same. intros a. apply approvalStep_refl. }
  split_cases; cbn [fst]; try apply effect_none.
  - split; [reflexivity|]. split; [reflexivity|]. split.
    + left. now apply Hwrite.
    + exists (approvals db), []. cbn. rewrite app_nil_r. auto.
  - split; [reflexivity|]. split; [reflexivity|]. split.
    + left. now apply Hwrite.
    + eexists (approvals db), [_]. cbn. split; [reflexivity|].
      split; [exact Hkept|]. right. exists_new e.
  - split; [reflexivity|]. split; [reflexivity|]. split.
    + left. now apply Hwrite.
    + exists (approvals db), []. cbn. rewrite app_nil_r. auto.
  - split; [reflexivity|]. split; [reflexivity|]. split.
    + left. now apply Hwrite.
    + eexists (approvals db), [_]. cbn. split; [reflexivity|].
      split; [exact Hkept|]. right. exists_new e.
Qed.

Lemma update_effect (db : DB) (user : User.t) (id : ObjectId)
    (body : UpdateBody) :
  wellFormed db ->
  effect user (Update id body) db (fst (ExpensesEdit.update user id body db)).
Proof.
  intros (_ & Hnd & _).
  destruct (update_cases db user id body)
    as [(http & code & E)|(e & Hfind & Hwho & Hst & E)]; rewrite E;
    [apply effect_none|].
  destruct (update_amount body) as [a|]; [|apply effect_none].
  pose proof (@findById_key _ _ _ _ _ Hfind) as Hid. rewrite <- Hid in Hfind.
  split; [reflexivity|]. split; [reflexivity|]. split.
  - left. apply expenses_write with (e := e); [exact Hnd|exact Hfind|].
    right. split; [cbn; auto|]. cbn. do 3 (split; [reflexivity|]).
    reflexivity.
  - exists (approvals db), []. cbn. rewrite app_nil_r. split; [reflexivity|].
    split; [|now left]. apply Forall2_same. intros x. apply approvalStep_refl.
Qed.

Lemma delete_effect (db : DB) (user : User.t) (id : ObjectId) :
  effect user (Delete id) db (fst (ExpensesEdit.delete user id db)).
Proof.
  destruct (delete_cases db user id)
    as [(http & code & E)|(e & Hfind & Hwho & Hst & E)]; rewrite E;
    [apply effect_none|].
  pose proof (@findById_key _ _ _ _ _ Hfind) as Hid.
  split; [reflexivity|]. split; [reflexivity|]. split.
  - right. exists id, e. cbn. auto 10.
  - exists (approvals db), []. cbn. rewrite app_nil_r. split; [reflexivity|].
    split; [|now left]. apply Forall2_same. intros x. apply approvalStep_refl.
Qed.

Lemma approve_effect (db : DB) (user : User.t) (id : ObjectId)
    (body : ApproveBody) (now : Date) :
  wellFormed db ->
  effect user (Approve id body now) db
    (fst (ApprovalsRoute.approve user id body now db)).
Proof.
  intros Hwf. pose proof Hwf as (Hnda & Hnde & _).
  destruct (approve_cases db user id body now)
    as [(http & code & E)|(a & Hfind & Hwho & Hp & _)].
  { rewrite E. apply effect_none. }
  rewrite (@approve_run db user id body now a Hfind Hwho Hp). cbv zeta.
  destruct (@referred_expense db a Hwf (@findById_In _ _ _ _ _ Hfind))
    as (e & He & _).
  rewrite He. cbn [fst].
  pose proof (@findById_key _ _ _ _ _ Hfind) as Hid.
  pose proof (@findById_key _ _ _ _ _ He) as Heid.
  assert (Htouch : touches user (Approve id body now) db e).
  { exists a. auto. }
  rewrite <- Heid in He. rewrite <- Hid in Hfind.
  split; [reflexivity|]. split; [reflexivity|]. split.
  - left. apply expenses_write with (e := e); [exact Hnde|exact He|].
    right. split; [exact Htouch|]. split_cases; cbn; auto 10.
  - eexists _, []. cbn. rewrite app_nil_r. split; [reflexivity|].
    split; [|now left].
    apply approvals_write with (a := a); [exact Hnda|exact Hfind|].
    right. cbn. auto 10.
Qed.

Lemma reject_effect (db : DB) (user : User.t) (id : ObjectId)
    (body : RejectBody) (now : Date) :
  wellFormed db ->
  effect user (Reject id body now) db
    (fst (ApprovalsRoute.reject user id body now db)).
Proof.
  intros Hwf. pose proof Hwf as (Hnda & Hnde & _).
  destruct (reject_cases db user id body now)
    as [(http & code & E)|(a & Hfind & Hwho & Hp & _)].
  { rewrite E. apply effect_none. }
  rewrite (@reject_run db user id body now a Hfind Hwho Hp).
  destruct (@referred_expense db a Hwf (@findById_In _ _ _ _ _ Hfind))
    as (e & He & _).
  rewrite He. cbn [fst].
  pose proof (@findById_key _ _ _ _ _ Hfind) as Hid.
  pose proof (@findById_key _ _ _ _ _ He) as Heid.
  assert (Htouch : touches user (Reject id body now) db e).
  { exists a. auto. }
  rewrite <- Heid in He. rewrite <- Hid in Hfind.
  split; [reflexivity|]. split; [reflexivity|]. split.
  - left. apply expenses_write with (e := e); [exact Hnde|exact He|].
    right. split; [exact Htouch|]. cbn; auto 10.
  - eexists _, []. cbn. rewrite app_nil_r. split; [reflexivity|].
    split; [|now left].
    apply approvals_write with (a := a); [exact Hnda|exact Hfind|].
    right. cbn. auto 10.
Qed.

Lemma escalate_effect (db : DB) (user : User.t) (id : ObjectId)
    (body : EscalateBody) (now : Date) :
  wellFormed db ->
  effect user (Escalate id body now) db
    (fst (ApprovalsRoute.escalate user id body now db)).
Proof.
  intros Hwf. pose proof Hwf as (Hnda & Hnde & _).
  destruct (escalate_cases db user id body now)
    as [(http & code & E)|(a & t & Hfind & Hwho & Hp & Ht & Hrole)].
  { rewrite E. apply effect_none. }
  rewrite (@escalate_run db user id body now a t Hfind Hwho Hp Ht Hrole).
  cbv zeta.
  destruct (@referred_expense db a Hwf (@findById_In _ _ _ _ _ Hfind))
    as (e & He & Hst).
  rewrite He.
  pose proof (@findById_key _ _ _ _ _ Hfind) as Hid.
  pose proof (@findById_key _ _ _ _ _ He) as Heid.
  assert (Htouch : touches user (Escalate id body now) db e).
  { exists a. auto. }
  assert (He' : findById Expense._id (expenses db) (Expense._id e) = Some e).
  { now rewrite Heid. }
  rewrite <- Hid in Hfind.
  assert (Hkept : Forall2 (approvalStep user (Escalate id body now))
            (approvals db)
            (replaceDoc Approval._id (escalatedApproval body now a)
               (approvals db))).
  { apply approvals_write with (a := a); [exact Hnda|exact Hfind|].
    right. cbn. auto 10. }
  destruct (mem_string (User.role t) Approval.roleEnum) eqn:Hschema;
    cbn [fst].
  - split; [reflexivity|]. split; [reflexivity|]. split.
    + left. apply expenses_write with (e := e); [exact Hnde|exact He'|].
      right. split; [exact Htouch|]. split_cases; cbn; auto 10.
    + eexists _, [_]. cbn. split; [reflexivity|]. split; [exact Hkept|].
      right. eexists _, e, _. split; [reflexivity|]. cbn.
      split; [exact I|]. split.
      { apply freshId_keys, replaceDoc_keys. }
      split.
      { unfold ApprovalModel.validate. cbn. rewrite Hschema. reflexivity. }
      split; [reflexivity|]. split; [exact He|]. split; [exact Htouch|].
      split.
      { apply replaceDoc_stored with (d0 := e). split_cases; exact He'. }
      split; [split_cases; cbn; auto|].
      split_cases; cbn; try discriminate. exact Hst.
  - split; [reflexivity|]. split; [reflexivity|]. split.
    + left. apply Forall2_same. intros x. apply expenseStep_refl.
    + eexists _, []. cbn. rewrite app_nil_r. split; [reflexivity|].
      split; [exact Hkept|now left].
Qed.

(** Every handler of the workflow has that effect on a well-formed store. *)
Lemma handler_effect (db : DB) (user : User.t) (request : Request) :
  wellFormed db -> effect user request db (fst (handler request user db)).
Proof.
  intros Hwf. destruct request; cbn [handler].
  - now apply submit_effect.
  - now apply update_effect.
  - apply delete_effect.
  - now apply approve_effect.
  - now apply reject_effect.
  - now apply escalate_effect.
Qed.

(** A request changes the store only if its token is that of a stored,
    active user, and then as that user's request. *)
Lemma serve_effect (db : DB) (token : Auth.Token) (request : Request) :
  wellFormed db ->
  fst (serve token request db) = db \/
  exists user userId,
    token = Auth.Verified userId /\
    findById User._id (users db) userId = Some user /\
    User.isActive user = true /\
    effect user request db (fst (serve token request db)).
Proof.
  intros Hwf. unfold serve, Auth.authenticated, Auth.authenticateToken.
  destruct token as [|userId|name]; [now left| |].
  - destruct (findById User._id (users db) userId) as [user|] eqn:Hu;
      [|now left].
    destruct (User.isActive user) eqn:Hact; cbn; [|now left].
    right. exists user, userId. split; [reflexivity|]. split; [exact Hu|].
    split; [exact Hact|]. now apply handler_effect.
  - left. split_cases; reflexivity.
Qed.

(** ** Well-formed stores stay well formed *)

Lemma mem_string_In (s : string) (l : list string) :
  mem_string s l = true <-> In s l.
Proof.
  unfold mem_string. rewrite existsb_exists. split.
  - intros (x & Hx & E). apply String.eqb_eq in E. now subst.
  - intros H. exists s. split; [exact H|apply String.eqb_refl].
Qed.

Lemma mem_string_incl (s : string) (l l' : list string) :
  incl l l' -> mem_string s l = true -> mem_string s l' = true.
Proof. rewrite !mem_string_In. auto. Qed.

Lemma Forall2_map_eq {T B} (R : T -> T -> Prop) (f : T -> B) (l l' : list T) :
  (forall x y, R x y -> f y = f x) -> Forall2 R l l' -> map f l' = map f l.
Proof.
  intros H HR. induction HR as [|x y l l' Hxy _ IH]; simpl; [reflexivity|].
  now rewrite IH, (H _ _ Hxy).
Qed.

Lemma Forall2_In_l {T} (R : T -> T -> Prop) (l l' : list T) (x : T) :
  Forall2 R l l' -> In x l -> exists y, In y l' /\ R x y.
Proof.
  intros HR. induction HR as [|x0 y l l' Hxy _ IH]; simpl; [intros []|].
  intros [->|H].
  - exists y. auto.
  - destruct (IH H) as (y' & Hy & Hr). exists y'. auto.
Qed.

Lemma Forall2_In_r {T} (R : T -> T -> Prop) (l l' : list T) (y : T) :
  Forall2 R l l' -> In y l' -> exists x, In x l /\ R x y.
Proof.
  intros HR. induction HR as [|x y0 l l' Hxy _ IH]; simpl; [intros []|].
  intros [->|H].
  - exists x. auto.
  - destruct (IH H) as (x' & Hx & Hr). exists x'. auto.
Qed.

Section Steps.
Variable user : User.t.
Variable request : Request.

(** A step never takes an expense back to ['draft']. *)
Lemma expenseStep_submitted (db : DB) (e e' : Expense.t) :
  expenseStep user request db e e' ->
  Expense.status e <> "draft" -> Expense.status e' <> "draft".
Proof.
  intros [->|(_ & _ & _ & _ & H)] Hst; [exact Hst|].
  destruct request; try (now rewrite H);
    destruct H as (_ & [->|H]); try exact Hst;
    intros E; rewrite E in H; discriminate.
Qed.

Lemma expenseStep_status (db : DB) (e e' : Expense.t) :
  expenseStep user request db e e' ->
  mem_string (Expense.status e) ExpenseSchema.statusEnum = true ->
  mem_string (Expense.status e') ExpenseSchema.statusEnum = true.
Proof.
  intros [->|(_ & _ & _ & _ & H)] Hst; [exact Hst|].
  destruct request; try (now rewrite H);
    destruct H as (_ & [->|H]); try exact Hst;
    revert H; apply mem_string_incl; intros s Hs; simpl in Hs;
    unfold ExpenseSchema.statusEnum; simpl; intuition.
Qed.

Lemma approvalStep_validate (a a' : Approval.t) :
  approvalStep user request a a' ->
  ApprovalModel.validate a = true -> ApprovalModel.validate a' = true.
Proof.
  intros [->|(_ & _ & _ & _ & Hrole & _ & Hst)] Hv; [exact Hv|].
  unfold ApprovalModel.validate in *. apply andb_true_iff in Hv.
  destruct Hv as (Hr & _). rewrite Hrole, Hr. cbn.
  revert Hst. apply mem_string_incl. intros s Hs. simpl in Hs.
  unfold Approval.statusEnum. simpl. intuition.
Qed.

(** A submitted expense of [db] is still stored, and submitted, in [db']. *)
Lemma effect_keeps_submitted (db db' : DB) (e : Expense.t) :
  wellFormed db -> effect user request db db' ->
  In e (expenses db) -> Expense.status e <> "draft" ->
  exists e', In e' (expenses db') /\
             expenseStep user request db e e' /\
             Expense.status e' <> "draft".
Proof.
  intros (_ & Hnde & _) (_ & _ & Hexp & _) He Hst.
  destruct Hexp as [Hsteps|(id & e0 & -> & Hfind & Htouch & ->)].
  - destruct (Forall2_In_l e Hsteps He) as (e' & He' & Hstep).
    exists e'. split; [exact He'|]. split; [exact Hstep|].
    now apply (expenseStep_submitted Hstep).
  - exists e. split; [|split; [now left|exact Hst]].
    apply deleteDoc_In; [exact He|].
    intros Hid. rewrite <- Hid in Hfind.
    rewrite (@findById_unique _ Expense._id _ e Hnde He) in Hfind.
    injection Hfind as <-. destruct Htouch as (_ & Hd & _). contradiction.
Qed.

Lemma effect_wellFormed (db db' : DB) :
  wellFormed db -> effect user request db db' -> wellFormed db'.
Proof.
  intros Hwf Heff.
  pose proof (fun e => @effect_keeps_submitted db db' e Hwf Heff) as Hkeep.
  destruct Heff as (_ & _ & Hexp & kept & new & Happ & Hkept & Hnew).
  pose proof Hwf as (Hnda & Hnde & Hval & Hstat & Href).
  assert (Hids : map Approval._id kept = map Approval._id (approvals db)).
  { revert Hkept. apply Forall2_map_eq. apply approvalStep_id. }
  unfold wellFormed. rewrite Happ. split; [|split; [|split; [|split]]].
  - destruct Hnew as [->|(n & e & e' & -> & _ & Hn & _)].
    + now rewrite app_nil_r, Hids.
    + rewrite map_app, Hids, <- map_app. now apply freshId_NoDup.
  - destruct Hexp as [Hsteps|(id & e0 & _ & _ & _ & ->)].
    + rewrite (@Forall2_map_eq _ _ _ Expense._id _ _
                 (@expenseStep_id user request db) Hsteps). exact Hnde.
    + now apply deleteDoc_NoDup.
  - apply Forall_app. split.
    + rewrite Forall_forall in *. intros a' Ha'.
      destruct (Forall2_In_r a' Hkept Ha') as (a & Ha & Hstep).
      apply (approvalStep_validate Hstep). now apply Hval.
    + destruct Hnew as [->|(n & e & e' & -> & _ & _ & Hn & _)];
        repeat constructor. exact Hn.
  - destruct Hexp as [Hsteps|(id & e0 & _ & _ & _ & ->)].
    + rewrite Forall_forall in *. intros e' He'.
      destruct (Forall2_In_r e' Hsteps He') as (e & He & Hstep).
      apply (expenseStep_status Hstep). now apply Hstat.
    + now apply deleteDoc_Forall.
  - apply Forall_app. split.
    + rewrite Forall_forall in *. intros a' Ha'.
      destruct (Forall2_In_r a' Hkept Ha') as (a & Ha & Hstep).
      destruct (Href a Ha) as (e & He & Hid & Hst).
      destruct (Hkeep e He Hst) as (e' & He' & Hstep' & Hst').
      exists e'. split; [exact He'|]. split; [|exact Hst'].
      rewrite (approvalStep_expense Hstep), (expenseStep_id Hstep').
      exact Hid.
    + destruct Hnew
        as [->|(n & e & e' & -> & _ & _ & _ & _ & _ & _ & He' & Hid & Hst)];
        repeat constructor.
      exists e'. auto.
Qed.
End Steps.

Lemma serve_wellFormed (db : DB) (token : Auth.Token) (request : Request) :
  wellFormed db -> wellFormed (fst (serve token request db)).
Proof.
  intros Hwf.
  destruct (@serve_effect db token request Hwf)
    as [->|(user & userId & _ & _ & _ & Heff)]; [exact Hwf|].
  exact (@effect_wellFormed user request _ _ Hwf Heff).
Qed.

Lemma serveAll_cons (token : Auth.Token) (request : Request)
    (requests : list (Auth.Token * Request)) (db : DB) :
  serveAll ((token, request) :: requests) db
  = serveAll requests (fst (serve token request db)).
Proof. reflexivity. Qed.

Lemma serveAll_wellFormed (requests : list (Auth.Token * Request)) (db : DB) :
  wellFormed db -> wellFormed (serveAll requests db).
Proof.
  revert db. induction requests as [|[token request] requests IH];
    intros db Hwf; [exact Hwf|].
  rewrite serveAll_cons. apply IH. now apply serve_wellFormed.
Qed.

(** Well-formedness of a store that is given in full. *)
Ltac check_wellFormed :=
  unfold wellFormed; cbn;
  repeat match goal with
         | |- _ /\ _ => split
         | |- NoDup _ => constructor
         | |- Forall _ _ => constructor
         | |- ~ _ =>
           cbn; intros H; repeat destruct H as [H|H];
           try discriminate H; try contradiction
         | |- refersToSubmitted _ _ =>
           unfold refersToSubmitted; cbn; eexists;
           split; [repeat (try (left; reflexivity); right)|];
           split; [reflexivity|discriminate]
         | |- _ = true => reflexivity
         end.

Lemma threeSteps_wellFormed : wellFormed Sample.threeSteps.
Proof. check_wellFormed. Qed.

Lemma drafts_wellFormed : wellFormed Sample.drafts.
Proof. check_wellFormed. Qed.

Lemma desk_wellFormed : wellFormed Office.emptyDesk.
Proof. check_wellFormed. Qed.

(** Any sequence of requests to the workflow, whatever their tokens, ids
    and bodies, takes a well-formed store to a well-formed store: [_id]s
    stay unique, every stored approval passes the enumerations of the
    Approval schema and every stored expense has a status of the Expense
    schema, and every approval refers to a stored expense that is no
    draft; so no handler writes a value its schema rejects, and [delete]
    never removes the expense of an approval. *)
Theorem requests_keep_store_well_formed
    (requests : list (Auth.Token * Request)) (db : DB) :
  wellFormed db -> wellFormed (serveAll requests db).
Proof. apply serveAll_wellFormed. Qed.

(** The manager approves, finance rejects, the employee tries to delete. *)
Lemma requests_keep_store_well_formed_witness :
  wellFormed
    (serveAll [(Auth.Verified 2, Approve 30 Sample.noComment Sample.noon);
               (Auth.Verified 3, Reject 31 Sample.outOfPolicy Sample.noon);
               (Auth.Verified 1, Delete 23)]
       Sample.threeSteps).
Proof.
  apply (@requests_keep_store_well_formed _ Sample.threeSteps).
  exact threeSteps_wellFormed.
Defined.

(** ** What no request does *)



Lemma serve_users (db : DB) (token : Auth.Token) (request : Request) :
  wellFormed db -> users (fst (serve token request db)) = users db.
Proof.
  intros Hwf.
  destruct (@serve_effect db token request Hwf)
    as [->|(user & userId & _ & _ & _ & Heff)]; [reflexivity|apply Heff].
Qed.

Lemma serve_decided (db : DB) (token : Auth.Token) (request : Request)
    (a : Approval.t) :
  wellFormed db -> In a (approvals db) -> Approval.status a <> "pending" ->
  In a (approvals (fst (serve token request db))).
Proof.
  intros Hwf Ha Hst.
  destruct (@serve_effect db token request Hwf)
    as [->|(user & userId & _ & _ & _ & Heff)]; [exact Ha|].
  destruct Heff as (_ & _ & _ & kept & new & -> & Hkept & _).
  apply in_or_app. left.
  destruct (Forall2_In_l a Hkept Ha) as (a' & Ha' & [->|(Hd & _)]);
    [exact Ha'|].
  exfalso. apply Hst. destruct request; cbn in Hd; tauto.
Qed.

(** An approval that has been decided, as ['approved'], ['rejected'] or
    ['escalated'], is final: whatever requests follow, it stays in the
    store as it is. *)
Theorem decided_approvals_are_final
    (requests : list (Auth.Token * Request)) (db : DB) (a : Approval.t) :
  wellFormed db ->
  In a (approvals db) ->
  Approval.status a <> "pending" ->
  In a (approvals (serveAll requests db)).
Proof.
  revert db. induction requests as [|[token request] requests IH];
    intros db Hwf Ha Hst; [exact Ha|].
  rewrite serveAll_cons. apply IH; [now apply serve_wellFormed| |exact Hst].
  now apply serve_decided.
Qed.

(** Once the manager has approved, neither a second decision of the
    manager nor one by the admin changes the approval. *)
Lemma decided_approvals_are_final_witness :
  In (approvedApproval Sample.noComment Sample.noon Sample.managerStep)
     (approvals
        (serveAll [(Auth.Verified 2, Reject 30 Sample.outOfPolicy Sample.noon);
                   (Auth.Verified 4, Escalate 30 Sample.toFinance Sample.noon)]
           (fst (serve (Auth.Verified 2)
                   (Approve 30 Sample.noComment Sample.noon)
                   Sample.threeSteps)))).
Proof.
  apply (@decided_approvals_are_final _
           (fst (serve (Auth.Verified 2)
                   (Approve 30 Sample.noComment Sample.noon)
                   Sample.threeSteps))).
  - apply serve_wellFormed. exact threeSteps_wellFormed.
  - left. reflexivity.
  - cbn. discriminate.
Defined.

Lemma expenseStep_owner (user : User.t) (request : Request) (db : DB)
    (e e' : Expense.t) :
  expenseStep user request db e e' ->
  Expense._id e' = Expense._id e /\
  Expense.employee e' = Expense.employee e /\
  Expense.company e' = Expense.company e.
Proof. intros [->|H]; [auto|]. repeat split; apply H. Qed.

Lemma serve_submitted (db : DB) (token : Auth.Token) (request : Request)
    (e : Expense.t) :
  wellFormed db -> In e (expenses db) -> Expense.status e <> "draft" ->
  exists e',
    In e' (expenses (fst (serve token request db))) /\
    Expense._id e' = Expense._id e /\
    Expense.employee e' = Expense.employee e /\
    Expense.company e' = Expense.company e /\
    Expense.status e' <> "draft".
Proof.
  intros Hwf He Hst.
  destruct (@serve_effect db token request Hwf)
    as [->|(user & userId & _ & _ & _ & Heff)].
  - exists e. auto.
  - destruct (@effect_keeps_submitted user request _ _ e Hwf Heff He Hst)
      as (e' & He' & Hstep & Hst').
    exists e'. split; [exact He'|].
    destruct (expenseStep_owner Hstep) as (H1 & H2 & H3). auto.
Qed.

(** A submitted expense is never lost: whatever requests follow, the store
    holds an expense of that [_id], of the same employee and company,
    that is no draft; in particular no request deletes it or makes it a
    draft again. *)
Theorem submitted_expenses_are_kept
    (requests : list (Auth.Token * Request)) (db : DB) (e : Expense.t) :
  wellFormed db ->
  In e (expenses db) ->
  Expense.status e <> "draft" ->
  exists e',
    In e' (expenses (serveAll requests db)) /\
    Expense._id e' = Expense._id e /\
    Expense.employee e' = Expense.employee e /\
    Expense.company e' = Expense.company e /\
    Expense.status e' <> "draft".
Proof.
  revert db e. induction requests as [|[token request] requests IH];
    intros db e Hwf He Hst.
  - exists e. auto.
  - rewrite serveAll_cons.
    destruct (@serve_submitted db token request e Hwf He Hst)
      as (e1 & He1 & Hid & Hemp & Hco & Hst1).
    destruct (IH _ e1 (@serve_wellFormed db token request Hwf) He1 Hst1)
      as (e' & He' & Hid' & Hemp' & Hco' & Hst').
    exists e'. repeat split; congruence.
Qed.

(** The employee and an admin try to delete the expense under review,
    and the manager rejects it. *)
Lemma submitted_expenses_are_kept_witness :
  exists e',
    In e' (expenses
             (serveAll [(Auth.Verified 1, Delete 23);
                        (Auth.Verified 4, Delete 23);
                        (Auth.Verified 2,
                         Reject 30 Sample.outOfPolicy Sample.noon)]
                Sample.threeSteps)) /\
    Expense._id e' = Expense._id Sample.claim /\
    Expense.employee e' = Expense.employee Sample.claim /\
    Expense.company e' = Expense.company Sample.claim /\
    Expense.status e' <> "draft".
Proof.
  apply (@submitted_expenses_are_kept _ Sample.threeSteps Sample.claim).
  - exact threeSteps_wellFormed.
  - left. reflexivity.
  - cbn. discriminate.
Defined.

(** ** Expenses and approvals nobody can move *)

Lemma untouched (user : User.t) (request : Request) (db : DB) (e : Expense.t) :
  Expense.status e <> "draft" ->
  Expense.status e <> "rejected" ->
  settledFor db e ->
  ~ touches user request db e.
Proof.
  intros Hd Hr Hs Ht. destruct request; cbn in Ht;
    try (destruct Ht as (_ & [H|H] & _); contradiction);
    try (destruct Ht as (_ & H & _); contradiction);
    destruct Ht as (a & Hfind & Hp & _ & He);
    exact (Hs a (@findById_In _ _ _ _ _ Hfind) He Hp).
Qed.

Lemma serve_frozen (db : DB) (token : Auth.Token) (request : Request)
    (e : Expense.t) :
  wellFormed db -> In e (expenses db) ->
  Expense.status e <> "draft" -> Expense.status e <> "rejected" ->
  settledFor db e ->
  In e (expenses (fst (serve token request db))) /\
  settledFor (fst (serve token request db)) e.
Proof.
  intros Hwf He Hd Hr Hs.
  destruct (@serve_effect db token request Hwf)
    as [->|(user & userId & _ & _ & _ & Heff)]; [auto|].
  pose proof (@untouched user request db e Hd Hr Hs) as Hno.
  destruct (@effect_keeps_submitted user request _ _ e Hwf Heff He Hd)
    as (e' & He' & [->|(Ht & _)] & _); [|contradiction].
  split; [exact He'|]. unfold settledFor.
  destruct Heff as (_ & _ & _ & kept & new & -> & Hkept & Hnew).
  intros a' Ha' Hexp. apply in_app_or in Ha'. destruct Ha' as [Ha'|Ha'].
  - destruct (Forall2_In_r a' Hkept Ha') as (a & Ha & [->|Hstep]).
    + now apply Hs.
    + destruct Hstep as (_ & _ & _ & _ & _ & _ & Hst). intros E.
      rewrite E in Hst. discriminate.
  - destruct Hnew as [->|(n & e0 & e1 & -> & _ & _ & _ & _ & Hfind & Ht & _)];
      [destruct Ha'|].
    destruct Ha' as [<-|[]]. exfalso. apply Hno.
    destruct Hwf as (_ & Hnde & _).
    rewrite Hexp, (@findById_unique _ Expense._id _ e Hnde He) in Hfind.
    now injection Hfind as <-.
Qed.

Lemma serveAll_frozen (requests : list (Auth.Token * Request)) (db : DB)
    (e : Expense.t) :
  wellFormed db -> In e (expenses db) ->
  Expense.status e <> "draft" -> Expense.status e <> "rejected" ->
  settledFor db e ->
  In e (expenses (serveAll requests db)).
Proof.
  revert db. induction requests as [|[token request] requests IH];
    intros db Hwf He Hd Hr Hs; [exact He|].
  rewrite serveAll_cons.
  destruct (@serve_frozen db token request e Hwf He Hd Hr Hs) as (He' & Hs').
  apply IH; auto. now apply serve_wellFormed.
Qed.

(** An expense that is neither a draft nor rejected and has no pending
    approval never changes again: whatever requests follow, the store
    holds it as it is.  So an approved expense all of whose approvals are
    decided stays approved, and an expense that waits for an approver
    without having a pending approval waits for ever. *)
Theorem expense_without_pending_approval_is_frozen
    (requests : list (Auth.Token * Request)) (db : DB) (e : Expense.t) :
  wellFormed db ->
  In e (expenses db) ->
  Expense.status e <> "draft" ->
  Expense.status e <> "rejected" ->
  (forall a, In a (approvals db) ->
             Approval.expense a = Expense._id e ->
             Approval.status a <> "pending") ->
  In e (expenses (serveAll requests db)).
Proof. intros Hwf He Hd Hr Hs. now apply serveAll_frozen. Qed.

(** An expense that was approved on submit: neither an update by an admin,
    nor a delete, nor a second submit changes it. *)
Lemma expense_without_pending_approval_is_frozen_witness :
  In (Expense.make 20 1 100 50%Q "approved" None None (Some 1)
        (Some Sample.noon))
     (expenses
        (serveAll [(Auth.Verified 4, Update 20 (mkUpdateBody (Some 70%Q)));
                   (Auth.Verified 1, Delete 20);
                   (Auth.Verified 1, Submit 20 Sample.noon)]
           (fst (serve (Auth.Verified 1) (Submit 20 Sample.noon)
                   Sample.drafts)))).
Proof.
  apply (@expense_without_pending_approval_is_frozen _
           (fst (serve (Auth.Verified 1) (Submit 20 Sample.noon)
                   Sample.drafts))).
  - apply serve_wellFormed. exact drafts_wellFormed.
  - left. reflexivity.
  - cbn. discriminate.
  - cbn. discriminate.
  - intros a [].
Defined.

(** When the amount is above the limit [submit] compares with, the
    employee has no manager and the expense's company has no active finance
    user, [submit] answers ok and leaves the expense ['pending_finance']
    with no Approval and the current approver it had; and there it stays:
    whatever requests follow, the store holds that expense unchanged. *)
Theorem submit_without_any_approver_strands_expense
    (db : DB) (user : User.t) (id : ObjectId) (now : Date)
    (expense : Expense.t) (company : Company.t) (employee : User.t) :
  wellFormed db ->
  findById Expense._id (expenses db) id = Some expense ->
  Expense.status expense = "draft" ->
  User._id user = Expense.employee expense \/ User.role user = "admin" ->
  findById Company._id (companies db) (Expense.company expense) = Some company ->
  Qle_bool (Expense.amount expense)
    (ExpensesRoute.limitOrDefault (Company.autoApprovalLimit company)) = false ->
  findById User._id (users db) (Expense.employee expense) = Some employee ->
  User.manager employee = None ->
  Forall (fun u => activeFinanceOf (Expense.company expense) u = false)
         (users db) ->
  exists db' expense',
    ExpensesRoute.submit user id now db
      = (db', ok "Expense submitted successfully") /\
    approvals db' = approvals db /\
    findById Expense._id (expenses db') id = Some expense' /\
    Expense.status expense' = "pending_finance" /\
    Expense.currentApprover expense' = Expense.currentApprover expense /\
    forall requests,
      findById Expense._id (expenses (serveAll requests db')) id
      = Some expense'.
Proof.
  intros Hwf Hfind Hdraft Hwho Hco Hgt Hemp Hman Hnone.
  pose proof (@findById_key _ _ _ _ _ Hfind) as Hid.
  pose proof (@submit_effect db user id now Hwf) as Heff.
  apply (@effect_wellFormed user _ _ _ Hwf) in Heff.
  revert Heff.
  rewrite (@submit_run db user id now expense Hfind Hwho Hdraft). cbv zeta.
  rewrite Hco, Hgt, Hemp, Hman.
  change (fun u : User.t =>
            N.eqb (User.company u) (Expense.company expense)
            && String.eqb (User.role u) "finance" && User.isActive u)
    with (activeFinanceOf (Expense.company expense)).
  rewrite (filter_none _ Hnone). cbn [fst]. intros Hwf'.
  set (expense' := ExpenseModel.setStatus "pending_finance"
                     (ExpenseModel.setStatus "pending_manager" expense)) in *.
  set (db' := mkDB _ _ _ _) in *.
  assert (Hin : In expense' (expenses db')).
  { apply replaceDoc_stored with (d0 := expense). cbn. now rewrite Hid. }
  exists db', expense'. split; [reflexivity|]. split; [reflexivity|].
  split.
  { apply findById_replaceDoc_at with (d0 := expense); [exact Hid|exact Hfind]. }
  split; [reflexivity|]. split; [reflexivity|].
  intros requests.
  assert (Hfrozen : In expense' (expenses (serveAll requests db'))).
  { apply serveAll_frozen; [exact Hwf'|exact Hin| | |].
    - cbn. discriminate.
    - cbn. discriminate.
    - intros a Ha Hexp. exfalso.
      destruct (@referred_expense db a Hwf Ha) as (e0 & He0 & Hst).
      cbn in Hexp. rewrite Hexp, Hid, Hfind in He0.
      injection He0 as <-. contradiction. }
  pose proof (@serveAll_wellFormed requests db' Hwf') as (_ & Hnd & _).
  rewrite <- Hid.
  exact (@findById_unique _ Expense._id _ expense' Hnd Hfrozen).
Qed.

(** The office whose finance users have all left. *)
Lemma submit_without_any_approver_strands_expense_witness :
  exists db' expense',
    ExpensesRoute.submit Office.freelancer 24 Sample.noon Office.emptyDesk
      = (db', ok "Expense submitted successfully") /\
    approvals db' = approvals Office.emptyDesk /\
    findById Expense._id (expenses db') 24 = Some expense' /\
    Expense.status expense' = "pending_finance" /\
    Expense.currentApprover expense'
      = Expense.currentApprover Office.invoice /\
    forall requests,
      findById Expense._id (expenses (serveAll requests db')) 24
      = Some expense'.
Proof.
  apply (@submit_without_any_approver_strands_expense Office.emptyDesk
           Office.freelancer 24 Sample.noon Office.invoice Sample.company
           Office.freelancer).
  - exact desk_wellFormed.
  - reflexivity.
  - reflexivity.
  - left. reflexivity.
  - reflexivity.
  - vm_compute. reflexivity.
  - reflexivity.
  - reflexivity.
  - repeat constructor.
Defined.

#[local] Hint Unfold UsersRoute.delete UsersRoute.deleteHandler
  UsersRoute.findByIdAndUpdate Auth.authorized Auth.authenticated
  Auth.authenticateToken Auth.authorize : handler.

(** No request of the workflow changes the users. *)
Lemma handler_keeps_users (db : DB) (user : User.t) (request : Request) :
  users (fst (handler request user db)) = users db.
Proof.
  destruct request as [id now|id body|id|id body now|id body now|id body now];
    cbn [handler].
  - destruct (submit_cases db user id now)
      as [(http & code & E)|(e & Hfind & Hwho & Hdraft)]; [now rewrite E|].
    rewrite (@submit_run db user id now e Hfind Hwho Hdraft). cbv zeta.
    split_cases; reflexivity.
  - destruct (update_cases db user id body)
      as [(http & code & E)|(e & _ & _ & _ & E)]; rewrite E; [reflexivity|].
    destruct (update_amount body); reflexivity.
  - destruct (delete_cases db user id)
      as [(http & code & E)|(e & _ & _ & _ & E)]; now rewrite E.
  - destruct (approve_cases db user id body now)
      as [(http & code & E)|(a & Hfind & Hwho & Hp & _)]; [now rewrite E|].
    now rewrite (@approve_run db user id body now a Hfind Hwho Hp).
  - destruct (reject_cases db user id body now)
      as [(http & code & E)|(a & Hfind & Hwho & Hp & _)]; [now rewrite E|].
    now rewrite (@reject_run db user id body now a Hfind Hwho Hp).
  - destruct (escalate_cases db user id body now)
      as [(http & code & E)|(a & t & Hfind & Hwho & Hp & Ht & Hrole)];
      [now rewrite E|].
    rewrite (@escalate_run db user id body now a t Hfind Hwho Hp Ht Hrole).
    cbv zeta. split_cases; reflexivity.
Qed.

Lemma serve_keeps_users (db : DB) (token : Auth.Token) (request : Request) :
  users (fst (serve token request db)) = users db.
Proof.
  unfold serve, Auth.authenticated.
  destruct (Auth.authenticateToken token db) as [answer|user];
    [reflexivity|apply handler_keeps_users].
Qed.

Lemma serveAll_keeps_users (requests : list (Auth.Token * Request)) (db : DB) :
  users (serveAll requests db) = users db.
Proof.
  revert db. induction requests as [|[token request] requests IH];
    intros db; [reflexivity|].
  rewrite serveAll_cons, IH. apply serve_keeps_users.
Qed.

(** [DELETE /api/users/:id] asks for nothing but the caller's role: an
    active admin or manager, of whatever company, deactivates any stored
    user, themself included.  The user stays in the store, inactive, and
    the rest of the store is as it was.  In the store the request leaves,
    and in every store that submit, update, delete, approve, reject and
    escalate requests lead to from there (none of them changes a user),
    [authenticateToken] answers whatever comes with the user's token by
    401 ACCOUNT_DEACTIVATED and the store stays as it is.  The routes that
    set [isActive] are no part of this. *)
Theorem deactivated_user_is_locked_out
    (db : DB) (callerId : ObjectId) (caller : User.t)
    (id : ObjectId) (target : User.t) :
  findById User._id (users db) callerId = Some caller ->
  User.isActive caller = true ->
  User.role caller = "admin" \/ User.role caller = "manager" ->
  findById User._id (users db) id = Some target ->
  exists db',
    UsersRoute.delete (Auth.Verified callerId) id db
      = (db', ok "User deactivated successfully") /\
    approvals db' = approvals db /\
    expenses db' = expenses db /\
    companies db' = companies db /\
    map User._id (users db') = map User._id (users db) /\
    findById User._id (users db') id
      = Some (UsersRoute.setIsActive false target) /\
    forall requests handler,
      let later := serveAll requests db' in
      Auth.authenticated handler (Auth.Verified id) later
      = (later, refused 401 "ACCOUNT_DEACTIVATED").
Proof.
  intros Hcaller Hactive Hrole Htarget.
  pose proof (@findById_key _ _ _ _ _ Htarget) as Hid.
  assert (Hfound : findById User._id
            (replaceDoc User._id (UsersRoute.setIsActive false target)
               (users db)) id
          = Some (UsersRoute.setIsActive false target)).
  { apply findById_replaceDoc_at with (d0 := target); [exact Hid|exact Htarget]. }
  eexists. split.
  { run_handler. rewrite Hcaller, Hactive. cbn.
    assert (Hmem : mem_string (User.role caller) ["admin"; "manager"] = true).
    { destruct Hrole as [-> | ->]; reflexivity. }
    rewrite Hmem. cbn. rewrite Htarget. cbn. reflexivity. }
  cbn. do 3 (split; [reflexivity|]). split; [apply replaceDoc_keys|].
  split; [exact Hfound|].
  intros requests handler. cbv zeta.
  unfold Auth.authenticated, Auth.authenticateToken.
  rewrite serveAll_keeps_users. cbn [users].
  rewrite Hfound. reflexivity.
Qed.

(** A manager of company 101 deactivates the admin of company 100, who
    then tries to submit and to delete a draft. *)
Lemma deactivated_user_is_locked_out_witness :
  exists db',
    UsersRoute.delete (Auth.Verified 7) 4 Sample.drafts
      = (db', ok "User deactivated successfully") /\
    approvals db' = approvals Sample.drafts /\
    expenses db' = expenses Sample.drafts /\
    companies db' = companies Sample.drafts /\
    map User._id (users db') = map User._id (users Sample.drafts) /\
    findById User._id (users db') 4
      = Some (UsersRoute.setIsActive false Sample.admin) /\
    forall requests handler,
      let later := serveAll requests db' in
      Auth.authenticated handler (Auth.Verified 4) later
      = (later, refused 401 "ACCOUNT_DEACTIVATED").
Proof.
  apply (@deactivated_user_is_locked_out Sample.drafts 7 Sample.strictManager
           4 Sample.admin).
  - reflexivity.
  - reflexivity.
  - right. reflexivity.
  - reflexivity.
Defined.

Lemma serve_stuck (db : DB) (token : Auth.Token) (request : Request)
    (a : Approval.t) :
  wellFormed db -> In a (approvals db) ->
  (forall u, findById User._id (users db) (Approval.approver a) = Some u ->
             User.isActive u = false) ->
  In a (approvals (fst (serve token request db))).
Proof.
  intros Hwf Ha Hinactive.
  destruct (@serve_effect db token request Hwf)
    as [->|(user & userId & _ & Hu & Hact & Heff)]; [exact Ha|].
  destruct Heff as (_ & _ & _ & kept & new & -> & Hkept & _).
  apply in_or_app. left.
  destruct (Forall2_In_l a Hkept Ha) as (a' & Ha' & [->|(Hd & _)]);
    [exact Ha'|].
  exfalso.
  assert (Hwho : Approval.approver a = User._id user).
  { destruct request; cbn in Hd; tauto. }
  rewrite <- (@findById_key _ _ _ _ _ Hu) in Hu. rewrite <- Hwho in Hu.
  rewrite (Hinactive user Hu) in Hact. discriminate.
Qed.

(** An approval whose approver is no active stored user can be decided by
    nobody: whatever requests follow, with whatever tokens, it stays in the
    store as it is.  The handlers let the approver alone decide, and
    [authenticateToken] lets no inactive user in. *)
Theorem approval_of_inactive_approver_is_stuck
    (requests : list (Auth.Token * Request)) (db : DB) (a : Approval.t) :
  wellFormed db ->
  In a (approvals db) ->
  (forall u, findById User._id (users db) (Approval.approver a) = Some u ->
             User.isActive u = false) ->
  In a (approvals (serveAll requests db)).
Proof.
  revert db. induction requests as [|[token request] requests IH];
    intros db Hwf Ha Hinactive; [exact Ha|].
  rewrite serveAll_cons. apply IH.
  - now apply serve_wellFormed.
  - now apply serve_stuck.
  - now rewrite serve_users.
Qed.

Lemma leftBehind_wellFormed : wellFormed Office.leftBehind.
Proof. check_wellFormed. Qed.

(** The manager has been deactivated: neither the manager's token nor the
    admin's gets the approval decided. *)
Lemma approval_of_inactive_approver_is_stuck_witness :
  In Sample.managerStep
     (approvals
        (serveAll [(Auth.Verified 2, Approve 30 Sample.noComment Sample.noon);
                   (Auth.Verified 4, Approve 30 Sample.noComment Sample.noon);
                   (Auth.Verified 4, Escalate 30 Sample.toFinance Sample.noon)]
           Office.leftBehind)).
Proof.
  apply (@approval_of_inactive_approver_is_stuck _ Office.leftBehind
           Sample.managerStep).
  - exact leftBehind_wellFormed.
  - left. reflexivity.
  - intros u H. vm_compute in H. injection H as <-. reflexivity.
Defined.

(** ** Locked expenses *)

(** An expense that has left ['draft'] can be neither submitted again nor
    deleted, and unless it is ['rejected'] it cannot be updated either:
    its employee and an admin get 400 (INVALID_STATUS from [submit],
    EXPENSE_LOCKED from [delete] and [update]), anybody else 403, and the
    store stays as it is.  A rejected expense can be updated, but not
    submitted again. *)
Theorem submitted_expense_is_locked
    (db : DB) (user : User.t) (id : ObjectId) (now : Date) (body : UpdateBody)
    (expense : Expense.t) :
  findById Expense._id (expenses db) id = Some expense ->
  Expense.status expense <> "draft" ->
  let allowed := String.eqb (User.role user) "admin"
                 || N.eqb (User._id user) (Expense.employee expense) in
  ExpensesRoute.submit user id now db
    = (db, if allowed then refused 400 "INVALID_STATUS"
           else refused 403 "ACCESS_DENIED") /\
  ExpensesEdit.delete user id db
    = (db, if allowed then refused 400 "EXPENSE_LOCKED"
           else refused 403 "ACCESS_DENIED") /\
  (Expense.status expense <> "rejected" ->
   ExpensesEdit.update user id body db
     = (db, if allowed then refused 400 "EXPENSE_LOCKED"
            else refused 403 "ACCESS_DENIED")).
Proof.
  intros Hfind Hst allowed. apply String.eqb_neq in Hst.
  assert (Hwho : negb (String.eqb (User.role user) "admin")
                 && negb (N.eqb (User._id user) (Expense.employee expense))
                 = negb allowed).
  { unfold allowed. now rewrite negb_orb. }
  split; [|split].
  - run_handler. rewrite Hfind, Hwho, Hst. now destruct allowed.
  - run_handler. rewrite Hfind, Hwho, Hst. now destruct allowed.
  - intros Hr. apply String.eqb_neq in Hr.
    run_handler. rewrite Hfind, Hwho, Hst, Hr. now destruct allowed.
Qed.

(** The expense under review, and its employee. *)
Lemma submitted_expense_is_locked_witness :
  ExpensesRoute.submit Sample.employee 23 Sample.noon Sample.threeSteps
    = (Sample.threeSteps, refused 400 "INVALID_STATUS") /\
  ExpensesEdit.delete Sample.employee 23 Sample.threeSteps
    = (Sample.threeSteps, refused 400 "EXPENSE_LOCKED") /\
  (Expense.status Sample.claim <> "rejected" ->
   ExpensesEdit.update Sample.employee 23 (mkUpdateBody (Some 1%Q))
     Sample.threeSteps
     = (Sample.threeSteps, refused 400 "EXPENSE_LOCKED")).
Proof.
  apply (@submitted_expense_is_locked Sample.threeSteps Sample.employee 23
           Sample.noon (mkUpdateBody (Some 1%Q)) Sample.claim).
  - reflexivity.
  - cbn. discriminate.
Defined.

(** ** Approving out of turn *)

(** When more than one approval of the expense is still pending after the
    approve and none of them has a priority above the acted one's, the
    handler finds no next approval and saves the expense as it was: status
    and current approver stay, although the current approver's own
    approval may be the one just approved or still be pending. *)
Theorem approve_without_higher_priority_leaves_expense
    (db : DB) (user : User.t) (id : ObjectId) (body : ApproveBody) (now : Date)
    (approval : Approval.t) (expense : Expense.t) :
  findById Approval._id (approvals db) id = Some approval ->
  Approval.approver approval = User._id user ->
  Approval.status approval = "pending" ->
  findById Expense._id (expenses db) (Approval.expense approval) = Some expense ->
  let db' := fst (ApprovalsRoute.approve user id body now db) in
  (1 < List.length (pendingApprovals db' (Approval.expense approval)))%nat ->
  (forall a, In a (pendingApprovals db' (Approval.expense approval)) ->
             (Approval.priority a <= Approval.priority approval)%Z) ->
  snd (ApprovalsRoute.approve user id body now db)
    = ok "Expense approved successfully" /\
  findById Expense._id (expenses db') (Approval.expense approval)
    = Some expense.
Proof.
  intros Hfind Hwho Hpending Hexp db'. unfold db', pendingApprovals.
  rewrite (@approve_run db user id body now approval Hfind Hwho Hpending).
  cbv zeta. rewrite Hexp. cbn [fst snd approvals expenses].
  intros Hmany Hlow. split; [reflexivity|].
  apply Nat.leb_gt in Hmany. rewrite Hmany.
  rewrite filter_and, (filter_none _ (l := filter _ _)).
  - cbn. apply findById_replaceDoc_at with (d0 := expense);
      [exact (@findById_key _ _ _ _ _ Hexp)|exact Hexp].
  - apply Forall_forall. intros a Ha. apply Z.ltb_ge. now apply Hlow.
Qed.

(** The director approves first: manager and finance are still pending,
    and the expense still waits for the manager. *)
Lemma approve_without_higher_priority_leaves_expense_witness :
  snd (ApprovalsRoute.approve Sample.director 32 Sample.noComment Sample.noon
         Sample.threeSteps)
    = ok "Expense approved successfully" /\
  findById Expense._id
    (expenses (fst (ApprovalsRoute.approve Sample.director 32 Sample.noComment
                      Sample.noon Sample.threeSteps))) 23
    = Some Sample.claim.
Proof.
  apply (@approve_without_higher_priority_leaves_expense Sample.threeSteps
           Sample.director 32 Sample.noComment Sample.noon Sample.directorStep
           Sample.claim).
  - reflexivity.
  - reflexivity.
  - reflexivity.
  - reflexivity.
  - vm_compute. lia.
  - intros a Ha. vm_compute in Ha.
    destruct Ha as [<-|[<-|[]]]; vm_compute; discriminate.
Defined.

(** ** A rejection is not the end *)

(** [reject] decides one approval and leaves the siblings pending. *)
Lemma reject_stillPending
    (db : DB) (user : User.t) (id : ObjectId) (body : RejectBody) (now : Date)
    (approval : Approval.t) (expense : ObjectId) :
  findById Approval._id (approvals db) id = Some approval ->
  Approval.approver approval = User._id user ->
  Approval.status approval = "pending" ->
  pendingApprovals (fst (ApprovalsRoute.reject user id body now db)) expense
  = filter (fun a => negb (N.eqb (Approval._id a) id))
           (pendingApprovals db expense).
Proof.
  intros Hfind Hwho Hpending.
  pose proof (@findById_key _ _ _ _ _ Hfind) as Hid.
  rewrite (@reject_run db user id body now approval Hfind Hwho Hpending).
  unfold pendingApprovals. cbn [fst approvals].
  rewrite filter_replaceDoc_out.
  - cbn. now rewrite Hid.
  - cbn. apply andb_false_r.
Qed.

(** A rejection does not end the workflow of an expense.  When two
    approvals of an expense are pending, the approver of the first rejects
    and then the approver of the second approves, and at most one other
    approval of the expense is pending, the expense that [reject] had set to
    ['rejected'] becomes ['approved'], approved by the second approver,
    and still carries the rejection reason. *)
Theorem approval_after_rejection_approves_expense
    (db : DB) (rejecter approver : User.t) (id1 id2 : ObjectId)
    (rbody : RejectBody) (abody : ApproveBody) (now1 now2 : Date)
    (first second : Approval.t) (expense : Expense.t) :
  findById Approval._id (approvals db) id1 = Some first ->
  findById Approval._id (approvals db) id2 = Some second ->
  id1 <> id2 ->
  Approval.approver first = User._id rejecter ->
  Approval.approver second = User._id approver ->
  Approval.status first = "pending" ->
  Approval.status second = "pending" ->
  Approval.expense second = Approval.expense first ->
  findById Expense._id (expenses db) (Approval.expense first) = Some expense ->
  (List.length
     (filter (fun a => negb (N.eqb (Approval._id a) id1)
                       && negb (N.eqb (Approval._id a) id2))
             (pendingApprovals db (Approval.expense first))) <= 1)%nat ->
  let rejected := ApprovalsRoute.reject rejecter id1 rbody now1 db in
  let approved := ApprovalsRoute.approve approver id2 abody now2 (fst rejected) in
  snd rejected = ok "Expense rejected successfully" /\
  snd approved = ok "Expense approved successfully" /\
  exists expense1 expense2,
    findById Expense._id (expenses (fst rejected)) (Approval.expense first)
      = Some expense1 /\
    Expense.status expense1 = "rejected" /\
    findById Expense._id (expenses (fst approved)) (Approval.expense first)
      = Some expense2 /\
    Expense.status expense2 = "approved" /\
    Expense.approvedBy expense2 = Some (User._id approver) /\
    Expense.rejectionReason expense2 = Expense.rejectionReason expense1.
Proof.
  intros Hfirst Hsecond Hneq Hwho1 Hwho2 Hp1 Hp2 Hsame Hexp Hfew
    rejected approved.
  pose proof (@findById_key _ _ _ _ _ Hfirst) as Hid1.
  pose proof (@findById_key _ _ _ _ _ Hexp) as Heid.
  pose proof (@reject_stillPending db rejecter id1 rbody now1 first
                (Approval.expense first) Hfirst Hwho1 Hp1) as Hstill1.
  fold rejected in Hstill1.
  assert (Hrun1 := @reject_run db rejecter id1 rbody now1 first
                     Hfirst Hwho1 Hp1).
  fold rejected in Hrun1. rewrite Hexp in Hrun1.
  set (expense1 := ExpenseModel.setRejectionReason
                     (orString (reject_rejectionReason rbody)
                        (reject_comments rbody))
                     (ExpenseModel.setStatus "rejected" expense)) in *.
  assert (Hsecond1 : findById Approval._id (approvals (fst rejected)) id2
                     = Some second).
  { rewrite Hrun1. cbn [fst approvals].
    rewrite findById_replaceDoc_other; [exact Hsecond|]. cbn. congruence. }
  assert (Hexp1 : findById Expense._id (expenses (fst rejected))
                    (Approval.expense second) = Some expense1).
  { rewrite Hrun1, Hsame. cbn [fst expenses].
    apply findById_replaceDoc_at with (d0 := expense); [exact Heid|exact Hexp]. }
  pose proof (@approve_stillPending (fst rejected) approver id2 abody now2
                second (Approval.expense second) Hsecond1 Hwho2 Hp2) as Hstill2.
  fold approved in Hstill2.
  assert (Hrun2 := @approve_run (fst rejected) approver id2 abody now2 second
                     Hsecond1 Hwho2 Hp2).
  cbv zeta in Hrun2. fold approved in Hrun2. rewrite Hexp1 in Hrun2.
  assert (Hcount : (List.length
            (filter (fun a => N.eqb (Approval.expense a) (Approval.expense second)
                              && String.eqb (Approval.status a) "pending")
               (replaceDoc Approval._id (approvedApproval abody now2 second)
                  (approvals (fst rejected)))) <=? 1)%nat = true).
  { apply Nat.leb_le.
    assert (E : approvals (fst approved)
                = replaceDoc Approval._id (approvedApproval abody now2 second)
                    (approvals (fst rejected))).
    { now rewrite Hrun2. }
    rewrite <- E. fold (pendingApprovals (fst approved) (Approval.expense second)).
    rewrite Hstill2, Hsame, Hstill1, <- filter_and.
    erewrite filter_ext; [exact Hfew|]. intros a. cbn. reflexivity. }
  rewrite Hcount in Hrun2.
  split; [now rewrite Hrun1|]. split; [now rewrite Hrun2|].
  exists expense1. eexists. split; [now rewrite <- Hsame|].
  split; [reflexivity|]. split.
  { rewrite Hrun2. cbn [fst expenses]. rewrite <- Hsame.
    apply findById_replaceDoc_at with (d0 := expense1); [|exact Hexp1].
    cbn. now rewrite Hsame. }
  repeat split.
Qed.

(** The manager rejects, then finance approves. *)
Lemma approval_after_rejection_approves_expense_witness :
  let rejected :=
    ApprovalsRoute.reject Sample.manager 30 Sample.outOfPolicy Sample.noon
      Sample.twoSteps in
  let approved :=
    ApprovalsRoute.approve Sample.finance 31 Sample.noComment Sample.noon
      (fst rejected) in
  snd rejected = ok "Expense rejected successfully" /\
  snd approved = ok "Expense approved successfully" /\
  exists expense1 expense2,
    findById Expense._id (expenses (fst rejected)) 23 = Some expense1 /\
    Expense.status expense1 = "rejected" /\
    findById Expense._id (expenses (fst approved)) 23 = Some expense2 /\
    Expense.status expense2 = "approved" /\
    Expense.approvedBy expense2 = Some 3 /\
    Expense.rejectionReason expense2 = Expense.rejectionReason expense1.
Proof.
  apply (@approval_after_rejection_approves_expense Sample.twoSteps
           Sample.manager Sample.finance 30 31 Sample.outOfPolicy
           Sample.noComment Sample.noon Sample.noon Sample.managerStep
           Sample.financeStep Sample.claim).
  - reflexivity.
  - reflexivity.
  - discriminate.
  - reflexivity.
  - reflexivity.
  - reflexivity.
  - reflexivity.
  - reflexivity.
  - reflexivity.
  - vm_compute. lia.
Defined.

(** ** Escalation hands the decision over *)





(** ** No way back from a rejection *)

Lemma touched_rejected (user : User.t) (request : Request) (db : DB)
    (e : Expense.t) :
  Expense.status e = "rejected" ->
  settledFor db e ->
  touches user request db e ->
  exists id body, request = Update id body.
Proof.
  intros Hr Hs Ht. destruct request; cbn in Ht;
    try (destruct Ht as (_ & H & _); rewrite Hr in H; discriminate);
    try (destruct Ht as (a & Hfind & Hp & _ & He);
         exfalso; exact (Hs a (@findById_In _ _ _ _ _ Hfind) He Hp)).
  now exists id, body.
Qed.

Lemma serve_rejected (db : DB) (token : Auth.Token) (request : Request)
    (e : Expense.t) :
  wellFormed db -> In e (expenses db) ->
  Expense.status e = "rejected" ->
  settledFor db e ->
  exists e',
    In e' (expenses (fst (serve token request db))) /\
    Expense._id e' = Expense._id e /\
    Expense.status e' = "rejected" /\
    settledFor (fst (serve token request db)) e'.
Proof.
  intros Hwf He Hr Hs.
  destruct (@serve_effect db token request Hwf)
    as [->|(user & userId & _ & _ & _ & Heff)]; [exists e; auto|].
  assert (Hd : Expense.status e <> "draft") by (rewrite Hr; discriminate).
  destruct (@effect_keeps_submitted user request _ _ e Hwf Heff He Hd)
    as (e' & He' & Hstep & _).
  exists e'. split; [exact He'|].
  assert (Hsame : Expense._id e' = Expense._id e /\
                  Expense.status e' = "rejected").
  { destruct Hstep as [->|(Ht & Hid & _ & _ & Hm)]; [auto|].
    destruct (@touched_rejected user request db e Hr Hs Ht)
      as (id & body & ->).
    split; [exact Hid|congruence]. }
  destruct Hsame as (Hid & Hr'). split; [exact Hid|]. split; [exact Hr'|].
  unfold settledFor. rewrite Hid.
  destruct Heff as (_ & _ & _ & kept & new & -> & Hkept & Hnew).
  intros a' Ha' Hexp. apply in_app_or in Ha'. destruct Ha' as [Ha'|Ha'].
  - destruct (Forall2_In_r a' Hkept Ha') as (a & Ha & [->|Hs']).
    + now apply Hs.
    + destruct Hs' as (_ & _ & _ & _ & _ & _ & Hst). intros E.
      rewrite E in Hst. discriminate.
  - destruct Hnew
      as [->|(n & e0 & e1 & -> & Hc & _ & _ & _ & Hfind & Ht & _)];
      [destruct Ha'|].
    destruct Ha' as [<-|[]]. exfalso.
    destruct Hwf as (_ & Hnde & _).
    rewrite Hexp, (@findById_unique _ Expense._id _ e Hnde He) in Hfind.
    injection Hfind as <-.
    destruct (@touched_rejected user request db e Hr Hs Ht)
      as (id & body & ->).
    exact Hc.
Qed.

(** A rejected expense all of whose approvals are decided stays rejected:
    its employee or an admin can still update it, but whatever requests
    follow, the store holds an expense of that [_id] with status
    ['rejected'].  [submit] takes drafts only, and no handler makes an
    expense a draft. *)
Theorem rejected_expense_stays_rejected
    (requests : list (Auth.Token * Request)) (db : DB) (e : Expense.t) :
  wellFormed db ->
  In e (expenses db) ->
  Expense.status e = "rejected" ->
  (forall a, In a (approvals db) ->
             Approval.expense a = Expense._id e ->
             Approval.status a <> "pending") ->
  exists e',
    In e' (expenses (serveAll requests db)) /\
    Expense._id e' = Expense._id e /\
    Expense.status e' = "rejected".
Proof.
  revert db e. induction requests as [|[token request] requests IH];
    intros db e Hwf He Hr Hs.
  - exists e. auto.
  - rewrite serveAll_cons.
    destruct (@serve_rejected db token request e Hwf He Hr Hs)
      as (e1 & He1 & Hid1 & Hr1 & Hs1).
    destruct (IH _ e1 (@serve_wellFormed db token request Hwf) He1 Hr1 Hs1)
      as (e' & He' & Hid' & Hr').
    exists e'. repeat split; congruence.
Qed.

(** The manager rejects the expense; the employee then updates and
    submits it. *)
Lemma rejected_expense_stays_rejected_witness :
  exists e',
    In e' (expenses
             (serveAll [(Auth.Verified 1, Update 23 (mkUpdateBody (Some 80%Q)));
                        (Auth.Verified 1, Submit 23 Sample.noon)]
                (fst (serve (Auth.Verified 2)
                        (Reject 30 Sample.outOfPolicy Sample.noon)
                        Sample.oneStep)))) /\
    Expense._id e' = 23 /\
    Expense.status e' = "rejected".
Proof.
  apply (@rejected_expense_stays_rejected _
           (fst (serve (Auth.Verified 2)
                   (Reject 30 Sample.outOfPolicy Sample.noon) Sample.oneStep))
           (Expense.make 23 1 100 500%Q "rejected" (Some 2)
              (Some "out of policy") None None)).
  - apply serve_wellFormed. check_wellFormed.
  - left. reflexivity.
  - reflexivity.
  - intros a Ha. vm_compute in Ha. destruct Ha as [<-|[]]. cbn. discriminate.
Defined.

(** ** Deleting a draft *)

(** When its employee or an admin deletes a draft, the expense is gone,
    every other expense is found as before, and approvals, users and
    companies are as they were. *)
Theorem delete_removes_the_draft
    (db : DB) (user : User.t) (id : ObjectId) (expense : Expense.t) :
  NoDup (map Expense._id (expenses db)) ->
  findById Expense._id (expenses db) id = Some expense ->
  Expense.status expense = "draft" ->
  User._id user = Expense.employee expense \/ User.role user = "admin" ->
  exists db',
    ExpensesEdit.delete user id db = (db', ok "Expense deleted successfully") /\
    findById Expense._id (expenses db') id = None /\
    (forall other, other <> id ->
       findById Expense._id (expenses db') other
       = findById Expense._id (expenses db) other) /\
    approvals db' = approvals db /\
    users db' = users db /\
    companies db' = companies db.
Proof.
  intros Hnd Hfind Hdraft Hwho.
  destruct (delete_cases db user id)
    as [(http & code & E)|(e & Hfind' & _ & _ & E)].
  - exfalso. revert E. run_handler.
    rewrite Hfind, (submit_authorized _ _ Hwho), Hdraft. cbn. intros E.
    discriminate E.
  - rewrite E. eexists. split; [reflexivity|]. cbn.
    split; [now apply findById_deleteDoc|].
    split; [|auto]. intros other Hother. now apply findById_deleteDoc_other.
Qed.

(** The employee deletes one of three drafts. *)
Lemma delete_removes_the_draft_witness :
  exists db',
    ExpensesEdit.delete Sample.employee 21 Sample.drafts
      = (db', ok "Expense deleted successfully") /\
    findById Expense._id (expenses db') 21 = None /\
    (forall other, other <> 21 ->
       findById Expense._id (expenses db') other
       = findById Expense._id (expenses Sample.drafts) other) /\
    approvals db' = approvals Sample.drafts /\
    users db' = users Sample.drafts /\
    companies db' = companies Sample.drafts.
Proof.
  apply (@delete_removes_the_draft Sample.drafts Sample.employee 21
           Sample.draft500).
  - destruct drafts_wellFormed as (_ & H & _). exact H.
  - reflexivity.
  - reflexivity.
  - left. reflexivity.
Defined.

(* ===================================================================== *)
(** * 20. The CSV export *)
(* ===================================================================== *)

Lemma split_length (sep : N) (s : JsString) :
  List.length (Ocr.split sep s) = S (occurrences sep s).
Proof.
  unfold occurrences. induction s as [|c s IH]; simpl; [reflexivity|].
  rewrite (N.eqb_sym sep c). destruct (N.eqb c sep); simpl.
  - now rewrite IH.
  - destruct (Ocr.split sep s) as [|l ls]; [discriminate|exact IH].
Qed.

Lemma occurrences_app (c : N) (s t : JsString) :
  occurrences c (s ++ t)%list = (occurrences c s + occurrences c t)%nat.
Proof. unfold occurrences. now rewrite filter_app, length_app. Qed.

Lemma occurrences_join (c : N) (l : list JsString) :
  occurrences c (Reports.join c l)
  = (pred (List.length l) + list_sum (map (occurrences c) l))%nat.
Proof.
  induction l as [|x l IH]; [reflexivity|].
  destruct l as [|y l].
  - simpl. lia.
  - change (Reports.join c (x :: y :: l))
      with (x ++ c :: Reports.join c (y :: l))%list.
    rewrite occurrences_app.
    change (c :: Reports.join c (y :: l))
      with ([c] ++ Reports.join c (y :: l))%list.
    rewrite occurrences_app, IH. unfold occurrences at 2. simpl filter.
    rewrite N.eqb_refl. simpl. lia.
Qed.

Lemma occurrences_cell (value : Reports.Value) :
  occurrences 44 (Reports.cell value) = objectCommas value.
Proof.
  destruct value as [|json|text]; simpl; [reflexivity|reflexivity|].
  unfold occurrences, Reports.replaceCommas.
  induction text as [|c text IH]; [reflexivity|].
  cbn [map filter]. destruct (N.eqb_spec c 44) as [->|E].
  - change (N.eqb 44 59) with false. cbn iota. exact IH.
  - destruct (N.eqb_spec 44 c) as [E'|_]; [congruence|exact IH].
Qed.

(** [convertToCSV] writes one line for the header and one for each row, and
    in the line of a row one field for each header: read back with
    [split], the file has those lines and one more for every line feed
    inside a line, and the line of a row has those fields and one more for
    every comma inside the JSON of an object value.  The commas of other
    values are replaced by semicolons; line feeds, and the commas of
    objects and of headers, are written as they are. *)
Theorem csv_lines_and_fields
    (first : Reports.Row) (others : list Reports.Row) (row : Reports.Row) :
  first <> [] ->
  let data := first :: others in
  let headers := map fst first in
  List.length (Ocr.split 10 (Reports.convertToCSV data))
  = (1 + List.length data
     + list_sum (map (occurrences 10) (Reports.csvRows data)))%nat /\
  List.length (Ocr.split 44 (Reports.csvRow headers row))
  = (List.length headers
     + list_sum (map (fun header => objectCommas (Reports.get row header))
                     headers))%nat.
Proof.
  intros Hfirst data headers. split.
  - unfold Reports.convertToCSV, data.
    rewrite split_length, occurrences_join. unfold Reports.csvRows.
    cbn [List.length]. rewrite length_map. cbn [List.length]. lia.
  - unfold Reports.csvRow. rewrite split_length, occurrences_join.
    rewrite length_map, map_map.
    rewrite (map_ext _ _ (fun header =>
               occurrences_cell (Reports.get row header))).
    assert (Hlen : List.length headers <> 0%nat).
    { unfold headers. rewrite length_map. destruct first; [contradiction|].
      discriminate. }
    lia.
Qed.

(** An amount with a comma and an array. *)
Lemma csv_lines_and_fields_witness :
  let row := [(units "amount", Reports.Scalar (units "1,250"));
              (units "items", Reports.Object (units "[1,2]"))] in
  Reports.csvRow (map fst row) row
    = units "1;250,[1,2]" /\
  List.length (Ocr.split 10 (Reports.convertToCSV [row])) = 2%nat /\
  List.length (Ocr.split 44 (Reports.csvRow (map fst row) row)) = 3%nat.
Proof.
  cbv zeta. split; [reflexivity|].
  destruct (@csv_lines_and_fields
              [(units "amount", Reports.Scalar (units "1,250"));
               (units "items", Reports.Object (units "[1,2]"))]
              []
              [(units "amount", Reports.Scalar (units "1,250"));
               (units "items", Reports.Object (units "[1,2]"))])
    as [H1 H2].
  - discriminate.
  - split; [etransitivity; [exact H1|reflexivity]|].
    etransitivity; [exact H2|reflexivity].
Defined.

(* ===================================================================== *)
(** * 21. More about receipts *)
(* ===================================================================== *)

Lemma split_Forall (P : N -> Prop) (sep : N) (s : JsString) :
  Forall P s -> Forall (Forall P) (Ocr.split sep s).
Proof.
  intros H. induction H as [|c s Hc _ IH]; simpl; [repeat constructor|].
  destruct (N.eqb c sep); [constructor; [constructor|exact IH]|].
  destruct (Ocr.split sep s) as [|l ls]; [repeat constructor; exact Hc|].
  inversion IH; subst. constructor; [constructor; assumption|assumption].
Qed.

Lemma trimStart_blank (s : JsString) :
  Forall (fun c => isSpace c = true) s -> trimStart s = [].
Proof.
  intros H. induction H as [|c s Hc _ IH]; simpl; [reflexivity|].
  now rewrite Hc.
Qed.

(** A text of white space and line terminators has no lines. *)
Lemma lines_blank (text : JsString) :
  Forall (fun c => isSpace c = true) text -> lines text = [].
Proof.
  intros H. unfold lines.
  pose proof (split_Forall 10 H) as Hs.
  induction Hs as [|l ls Hl _ IH]; simpl; [reflexivity|].
  unfold trim at 1. rewrite (trimStart_blank Hl). simpl. exact IH.
Qed.

Section MoreReceiptFacts.
Variable toUpperCase toLowerCase : JsString -> JsString.
Variable newDate : JsString -> option Z.

(** Of a text that holds nothing but white space and line terminators
    (the empty text too), [parseReceiptText] returns the values it starts
    from: no merchant, amount 0, no date, category ['Other'],
    confidence 0. *)
Theorem blank_text_gives_the_default_receipt (text : JsString) :
  toLowerCase [] = [] ->
  Forall (fun c => isSpace c = true) text ->
  parseReceiptText toUpperCase toLowerCase newDate text
  = mkReceipt [] 0 None "Other" 0.
Proof.
  intros Hlower Hblank. unfold parseReceiptText.
  rewrite (lines_blank Hblank). cbn [extractMerchant find].
  rewrite Hlower. vm_compute. reflexivity.
Qed.

Lemma categorize_category (m : JsString) (c : float) :
  mem_string (fst (categorize m c)) ExpenseSchema.categoryEnum = true.
Proof.
  unfold categorize.
  destruct (find _ categoryKeywords) as [[cat kws]|] eqn:E; [|reflexivity].
  apply find_some in E. destruct E as [E _].
  repeat (destruct E as [E|E]; [injection E as <- <-; reflexivity|]).
  destruct E.
Qed.

Lemma extractMerchant_line (ls : list JsString) :
  (ls = [] /\ extractMerchant toUpperCase ls = []) \/
  In (extractMerchant toUpperCase ls) ls.
Proof.
  unfold extractMerchant.
  destruct (find _ ls) as [line|] eqn:E.
  - right. apply find_some in E. apply E.
  - destruct ls as [|first rest]; [now left|right; now left].
Qed.

(** The category of a receipt is one the Expense schema accepts, and its
    merchant name is one of the lines of the text, or empty when the text
    has no line. *)
Theorem receipt_category_and_merchant (text : JsString) :
  let r := parseReceiptText toUpperCase toLowerCase newDate text in
  mem_string (category r) ExpenseSchema.categoryEnum = true /\
  ((lines text = [] /\ merchantName r = []) \/
   In (merchantName r) (lines text)).
Proof.
  unfold parseReceiptText.
  destruct (amountLoop amountPatterns (lines text) 0 0) as [a c1].
  destruct (dateLoop newDate datePatterns (lines text) None c1) as [d c2].
  pose proof (categorize_category
                (toLowerCase (extractMerchant toUpperCase (lines text))) c2)
    as Hcat.
  destruct (categorize _ c2) as [cat c3]. cbn [category merchantName].
  split; [exact Hcat|apply extractMerchant_line].
Qed.

Lemma dateInLines_invalid (p : Regex.t) (ls : list JsString) (c : float) :
  (forall line g, In line ls -> jsMatch p line = Some g -> newDate g = None) ->
  dateInLines newDate p ls (Some None) c = (Some None, c).
Proof.
  induction ls as [|line rest IH]; intros Hbad; simpl; [reflexivity|].
  destruct (jsMatch p line) as [g|] eqn:E.
  - rewrite (Hbad line g (or_introl eq_refl) E).
    apply IH. intros l g' Hl. apply Hbad. now right.
  - apply IH. intros l g' Hl. apply Hbad. now right.
Qed.

Lemma dateInLines_first_invalid (p : Regex.t) (ls : list JsString)
    (g : JsString) (d : option (option Z)) (c : float) :
  firstHit p ls = Some g ->
  (forall line g, In line ls -> jsMatch p line = Some g -> newDate g = None) ->
  dateInLines newDate p ls d c = (Some None, c).
Proof.
  intros Hhit Hbad. revert d. induction ls as [|line rest IH]; intros d;
    simpl in *; [discriminate|].
  destruct (jsMatch p line) as [g'|] eqn:E.
  - rewrite (Hbad line g' (or_introl eq_refl) E).
    apply dateInLines_invalid. intros l g0 Hl. apply Hbad. now right.
  - apply IH; [exact Hhit|]. intros l g0 Hl. apply Hbad. now right.
Qed.

(** A date that does not parse ends the search for one.  When the first of
    the date patterns to match a line matches no line whose group 1
    [new Date] takes for a valid date, the patterns after it are not tried:
    the result's date is the Invalid Date object, not [null], and nothing
    is added to the confidence. *)
Theorem invalid_date_ends_the_search
    (text : JsString) (before after : list Regex.t) (p : Regex.t)
    (g : JsString) :
  datePatterns = (before ++ p :: after)%list ->
  (forall q, In q before -> firstHit q (lines text) = None) ->
  firstHit p (lines text) = Some g ->
  (forall line g', In line (lines text) -> jsMatch p line = Some g' ->
                   newDate g' = None) ->
  let r := parseReceiptText toUpperCase toLowerCase newDate text in
  date r = Some None /\
  confidence r
  = min1 (snd (categorize
                 (toLowerCase (extractMerchant toUpperCase (lines text)))
                 (snd (amountLoop amountPatterns (lines text) 0 0)))).
Proof.
  intros Hpats Hbefore Hhit Hbad.
  assert (Hloop : forall c,
    dateLoop newDate datePatterns (lines text) None c = (Some None, c)).
  { intros c. rewrite Hpats. clear Hpats.
    induction before as [|q before IH]; cbn [app dateLoop].
    - now rewrite (@dateInLines_first_invalid p (lines text) g None c Hhit Hbad).
    - rewrite dateInLines_no_hit by (apply Hbefore; now left).
      apply IH. intros q' Hq'. apply Hbefore. now right. }
  unfold parseReceiptText.
  destruct (amountLoop amountPatterns (lines text) 0 0) as [a c1].
  rewrite Hloop. cbn [snd].
  destruct (categorize _ _) as [cat c3]. split; reflexivity.
Qed.
End MoreReceiptFacts.

(** The empty text, and a text of blanks and line feeds. *)
Lemma blank_text_gives_the_default_receipt_witness :
  parseReceiptText Sample.asciiUpper Sample.asciiLower Sample.noDate
    (units "  " ++ newline ++ units " ")%list
  = mkReceipt [] 0 None "Other" 0.
Proof.
  apply (@blank_text_gives_the_default_receipt Sample.asciiUpper
           Sample.asciiLower Sample.noDate).
  - reflexivity.
  - repeat constructor.
Defined.

(** A day-first match that is no date hides the year-first date of the
    next line. *)
Lemma invalid_date_ends_the_search_witness :
  let newDate := fun s : JsString =>
    if list_eq_dec N.eq_dec s (units "2024-01-15")
    then Some 1705276800000%Z else None in
  let r := parseReceiptText Sample.asciiUpper Sample.asciiLower newDate
             (units "Ref 13/45/20" ++ newline ++ units "Date 2024-01-15")%list in
  date r = Some None /\ confidence r = 0%float.
Proof.
  cbv zeta.
  destruct (@invalid_date_ends_the_search Sample.asciiUpper Sample.asciiLower
              (fun s : JsString =>
                 if list_eq_dec N.eq_dec s (units "2024-01-15")
                 then Some 1705276800000%Z else None)
              (units "Ref 13/45/20" ++ newline ++ units "Date 2024-01-15")%list
              [] (tl datePatterns) dayFirstPattern (units "13/45/20"))
    as [H1 H2].
  - reflexivity.
  - intros q [].
  - vm_compute. reflexivity.
  - intros line g' Hl. vm_compute in Hl.
    destruct Hl as [<-|[<-|[]]]; vm_compute; intros E; injection E as <-;
      reflexivity.
  - split; [exact H1|]. rewrite H2. vm_compute. reflexivity.
Defined.

(** ** The lines of a receipt *)

Lemma trimStart_spec (s : JsString) :
  exists pre,
    s = (pre ++ trimStart s)%list /\
    match trimStart s with
    | c :: _ => isSpace c = false
    | [] => True
    end.
Proof.
  induction s as [|c s (pre & E & H)]; simpl; [now exists []|].
  destruct (isSpace c) eqn:Hc.
  - exists (c :: pre). split; [simpl; now rewrite <- E|exact H].
  - exists []. split; [reflexivity|exact Hc].
Qed.

(** [trim] cuts a prefix and a suffix off, and what is left neither starts
    nor ends with white space. *)
Lemma trim_spec (s : JsString) :
  exists pre post,
    s = (pre ++ trim s ++ post)%list /\
    (trim s = [] \/
     exists c c' middle middle',
       trim s = c :: middle /\ trim s = (middle' ++ [c'])%list /\
       isSpace c = false /\ isSpace c' = false).
Proof.
  unfold trim.
  destruct (trimStart_spec s) as (pre & E1 & H1).
  destruct (trimStart_spec (rev (trimStart s))) as (pre2 & E2 & H2).
  set (t1 := trimStart s) in *. set (t2 := trimStart (rev t1)) in *.
  assert (Ht1 : t1 = (rev t2 ++ rev pre2)%list).
  { rewrite <- (rev_involutive t1), E2. apply rev_app_distr. }
  exists pre, (rev pre2). split; [now rewrite <- Ht1|].
  destruct t2 as [|c' t2']; [now left|right].
  destruct (rev (c' :: t2')) as [|c middle] eqn:Er.
  { apply (f_equal (@List.length _)) in Er. rewrite length_rev in Er.
    discriminate. }
  exists c, c', middle, (rev t2'). split; [reflexivity|].
  split; [now rewrite <- Er|]. split; [|exact H2].
  rewrite Ht1 in H1. simpl in H1. exact H1.
Qed.

Lemma split_no_sep (sep : N) (s : JsString) :
  Forall (fun l => ~ In sep l) (Ocr.split sep s).
Proof.
  induction s as [|c s IH]; simpl; [repeat constructor; intros []|].
  destruct (N.eqb_spec c sep) as [E|E].
  - constructor; [intros []|exact IH].
  - destruct (Ocr.split sep s) as [|l ls]; [repeat constructor|].
    + intros [H|[]]. congruence.
    + inversion IH; subst. constructor; [|assumption].
      intros [H|H]; [congruence|contradiction].
Qed.

(** Every line [parseReceiptText] works on, the merchant name among them,
    is not empty, holds no line feed and neither starts nor ends with white
    space. *)
Theorem receipt_lines_are_trimmed (text line : JsString) :
  In line (lines text) ->
  ~ In 10 line /\
  exists c c' middle middle',
    line = c :: middle /\ line = (middle' ++ [c'])%list /\
    isSpace c = false /\ isSpace c' = false.
Proof.
  unfold lines. intros H. apply filter_In in H. destruct H as (H & Hlen).
  apply in_map_iff in H. destruct H as (raw & <- & Hraw).
  pose proof (split_no_sep 10 text) as Hsep.
  rewrite Forall_forall in Hsep. specialize (Hsep raw Hraw).
  destruct (trim_spec raw) as (pre & post & E & Hends). split.
  - intros Hin. apply Hsep. rewrite E. apply in_or_app. right.
    apply in_or_app. now left.
  - destruct Hends as [Hnil|Hends]; [|exact Hends].
    rewrite Hnil in Hlen. discriminate.
Qed.

(** The two lines of a receipt with blank lines and margins. *)
Lemma receipt_lines_are_trimmed_witness :
  lines (units "  ACME STORE " ++ newline ++ newline ++ units " TOTAL: $42.50")%list
    = [units "ACME STORE"; units "TOTAL: $42.50"] /\
  ~ In 10 (units "ACME STORE") /\
  exists c c' middle middle',
    units "ACME STORE" = c :: middle /\
    units "ACME STORE" = (middle' ++ [c'])%list /\
    isSpace c = false /\ isSpace c' = false.
Proof.
  split; [vm_compute; reflexivity|].
  apply (@receipt_lines_are_trimmed
           (units "  ACME STORE " ++ newline ++ newline
            ++ units " TOTAL: $42.50")%list (units "ACME STORE")).
  vm_compute. left. reflexivity.
Defined.
